(** * MPStats Analyzer: scoring engine and data validator

    A shallow embedding of [core/scoring_engine.py], [core/data_validator.py],
    the thresholds of [config.py] and the upload/scoring glue of
    [components/file_uploader.py] and [app.py], together with the properties
    of the scoring and validation rules.

    Conventions of the embedding:
    - Python [float] / [numpy.float64] values are IEEE-754 binary64 numbers,
      represented by [spec_float] with precision 53 and maximal exponent 1024;
      comparisons are the IEEE ones (every comparison with NaN is false).
    - Python [int] values are [Z].
    - A pandas [DataFrame] is a row count and a finite map from column names
      to typed columns; the object is mutable, so code that receives a frame
      runs in a state monad over it.
    - Python exceptions are values of [pyexc]; [try]/[except Exception] is
      [try_except]. *)

From Stdlib Require Import ZArith Lia List String Bool.
From Stdlib Require Import Floats.SpecFloat.
From stdpp Require Import gmap strings list.

Open Scope Z_scope.

(** ** Floating point *)

Module Float.

Definition float := spec_float.

Definition prec : Z := 53.
Definition emax : Z := 1024.

Definition nan : float := S754_nan.

(** Conversion of a Python [int] to [float] (round to nearest even). *)
Definition of_Z (z : Z) : float := binary_normalize prec emax z 0 false.

Definition add : float -> float -> float := SFadd prec emax.
Definition sub : float -> float -> float := SFsub prec emax.
Definition mul : float -> float -> float := SFmul prec emax.
Definition div : float -> float -> float := SFdiv prec emax.

(** [x < y], [x <= y], [x == y], [x > y], [x >= y] *)
Definition ltb (x y : float) : bool := SFltb x y.
Definition leb (x y : float) : bool := SFleb x y.
Definition eqb (x y : float) : bool := SFeqb x y.
Definition gtb (x y : float) : bool :=
  match SFcompare x y with Some Gt => true | _ => false end.
Definition geb (x y : float) : bool :=
  match SFcompare x y with Some (Gt | Eq) => true | _ => false end.

Definition is_nan (x : float) : bool :=
  match x with S754_nan => true | _ => false end.

(** [int(x)]: truncation toward zero; [None] for NaN and the infinities,
    where Python raises. *)
Definition to_Z (x : float) : option Z :=
  match x with
  | S754_zero _ => Some 0
  | S754_finite s m e =>
      let mag := match e with
                 | Z0 => Zpos m
                 | Zpos p => Zpos m * 2 ^ Zpos p
                 | Zneg p => Zpos m / 2 ^ Zpos p
                 end in
      Some (if s then - mag else mag)
  | S754_infinity _ | S754_nan => None
  end.

End Float.

Abbreviation float := Float.float.

(** ** config.py *)

Module Config.

(** [TREND_THRESHOLDS]: year-over-year change in percent. *)
Definition TREND_excellent : Z := 10.
Definition TREND_good : Z := 0.
Definition TREND_stable : Z := -5.
Definition TREND_poor : Z := -15.

(** [ADS_THRESHOLDS]: the literals 4.0, 3.0, 2.0 and 1.0. *)
Definition ADS_excellent : float := Float.of_Z 4.
Definition ADS_good : float := Float.of_Z 3.
Definition ADS_average : float := Float.of_Z 2.
Definition ADS_poor : float := Float.of_Z 1.

(** [TOTAL_SCORE_RANGES], in the insertion order of the dict literal. *)
Definition TOTAL_SCORE_RANGES : list (string * (Z * Z)) :=
  [ ("excellent", (16, 20));
    ("good", (11, 15));
    ("average", (6, 10));
    ("poor", (1, 5)) ]%string.

End Config.

Import Config.

(** ** Threshold-to-bucket functions of the scoring engine *)

(** [ScoringEngine._get_ratio_score] *)
Definition _get_ratio_score (ratio : float) : Z :=
  if Float.geb ratio ADS_excellent then 4
  else if Float.geb ratio ADS_good then 3
  else if Float.geb ratio ADS_average then 2
  else if Float.geb ratio ADS_poor then 1
  else 0.

(** The [if]/[elif] chain of [_calculate_query_score] over the percentage of
    effective queries. *)
Definition query_efficiency_score (efficiency_ratio : float) : Z :=
  if Float.geb efficiency_ratio (Float.of_Z 20) then 4
  else if Float.geb efficiency_ratio (Float.of_Z 10) then 3
  else if Float.geb efficiency_ratio (Float.of_Z 5) then 2
  else 1.

(** [ScoringEngine._get_niche_rating]: the first range of the table that
    contains the score, ["poor"] when none does. *)
Fixpoint first_matching_range (ranges : list (string * (Z * Z))) (total_score : Z)
  : option string :=
  match ranges with
  | [] => None
  | (rating, (min_score, max_score)) :: rest =>
      if (min_score <=? total_score) && (total_score <=? max_score)
      then Some rating
      else first_matching_range rest total_score
  end.

Definition _get_niche_rating (total_score : Z) : string :=
  match first_matching_range TOTAL_SCORE_RANGES total_score with
  | Some rating => rating
  | None => "poor"
  end.

(** The ratings of the table whose range contains the score. *)
Definition matching_ratings (total_score : Z) : list string :=
  map fst
    (List.filter
       (fun r => (fst (snd r) <=? total_score) && (total_score <=? snd (snd r)))
       TOTAL_SCORE_RANGES).

(** ** Python exceptions, results and the state monad of a function body *)

Inductive pyexc : Type :=
| KeyError (key : string)
| NameError (name : string)
| UnboundLocalError (name : string)
| AttributeError (what : string)
| TypeError (what : string)
| ValueError (what : string).

Inductive result (A : Type) : Type :=
| Ok (a : A)
| Raise (e : pyexc).
Arguments Ok {A} a.
Arguments Raise {A} e.

#[global] Instance result_ret : MRet result := fun A a => Ok a.
#[global] Instance result_bind : MBind result :=
  fun A B f m => match m with Ok a => f a | Raise e => Raise e end.

(** A function body over the mutable objects [S] it can reach: it returns a
    value or raises, and in both cases leaves the objects in some state. *)
Definition SE (S A : Type) : Type := S -> result A * S.

#[global] Instance SE_ret {S} : MRet (SE S) := fun A a s => (Ok a, s).
#[global] Instance SE_bind {S} : MBind (SE S) :=
  fun A B f m s =>
    match m s with
    | (Ok a, s') => f a s'
    | (Raise e, s') => (Raise e, s')
    end.

Definition get {S} : SE S S := fun s => (Ok s, s).
Definition modify {S} (f : S -> S) : SE S unit := fun s => (Ok tt, f s).
Definition lift {S A} (r : result A) : SE S A := fun s => (r, s).

(** [try: body except Exception as e: handler e] *)
Definition try_except {S A} (body : SE S A) (handler : pyexc -> SE S A) : SE S A :=
  fun s =>
    match body s with
    | (Ok a, s') => (Ok a, s')
    | (Raise e, s') => handler e s'
    end.

(** A [for] loop with an accumulator. *)
Fixpoint foldM {S A B} (f : A -> B -> SE S A) (acc : A) (l : list B) : SE S A :=
  match l with
  | [] => mret acc
  | b :: l => acc' ← f acc b; foldM f acc' l
  end.

Fixpoint forM_ {A} (f : A -> result unit) (l : list A) : result unit :=
  match l with
  | [] => Ok tt
  | a :: l => _ ← f a; forM_ f l
  end.

(** Reading a local name that is only assigned on some paths. *)
Definition load_local {A} (name : string) (binding : option A) : result A :=
  match binding with
  | Some v => Ok v
  | None => Raise (UnboundLocalError name)
  end.

(** Reading a name that the function body never assigns: it is looked up in
    the bindings in scope and raises [NameError] when absent. *)
Definition load_name (scope : gmap string float) (name : string) : result float :=
  match scope !! name with
  | Some v => Ok v
  | None => Raise (NameError name)
  end.

(** A [Timestamp]: the calendar fields the code reads and the instant in
    nanoseconds since the epoch. *)
Record Timestamp : Type := {
  ts_year : Z;
  ts_month : Z;
  ts_value : Z
}.

Definition ns_per_day : Z := 86400000000000.

(** [(a - b).days] *)
Definition days_between (a b : Timestamp) : Z := (ts_value a - ts_value b) / ns_per_day.

(** Values stored in the analysis dicts. [VExc e] stands for [str(e)]. *)
#[warnings="-register-all"] Inductive value : Type :=
| VInt (z : Z)
| VFloat (x : float)
| VStr (s : string)
| VExc (e : pyexc)
| VTime (t : Timestamp)
| VNone
| VDict (d : list (string * value))
| VList (l : list value).

(** ** pandas: series and frames *)

(** A column: numeric ([int64]/[float64], NaN for a missing value),
    [datetime64] ([None] is NaT) or [object] holding text ([None] is NaN).
    An [int64] column is held as the binary64 values of its integers, which
    is exact up to 2^53 in absolute value.  An [object] column holds text or
    missing values only: a column that mixes numbers and text is not
    expressible here, and what pandas raises on such a column (comparing a
    number with a string in [min], [max] or [sort_values]) is outside the
    model. *)
Inductive Series : Type :=
| NumSeries (xs : list float)
| TimeSeries (ts : list (option Timestamp))
| ObjSeries (os : list (option string)).

Record DataFrame : Type := {
  nrows : nat;
  columns : gmap string Series
}.

(** [len(df)] *)
Definition len (df : DataFrame) : Z := Z.of_nat (nrows df).

(** [c in df.columns] *)
Definition has_col (df : DataFrame) (c : string) : bool :=
  match columns df !! c with Some _ => true | None => false end.

(** [df[c]] *)
Definition getitem (df : DataFrame) (c : string) : result Series :=
  match columns df !! c with
  | Some s => Ok s
  | None => Raise (KeyError c)
  end.

(** [df[c] = s]: replaces the column or adds it. *)
Definition setitem (df : DataFrame) (c : string) (s : Series) : DataFrame :=
  {| nrows := nrows df; columns := <[c := s]> (columns df) |}.

(** [df.empty] *)
Definition empty_frame (df : DataFrame) : bool :=
  (nrows df =? 0)%nat || (size (columns df) =? 0)%nat.

(** Boolean masks. *)
Fixpoint select {A} (mask : list bool) (xs : list A) : list A :=
  match mask, xs with
  | b :: mask, x :: xs => if b then x :: select mask xs else select mask xs
  | _, _ => []
  end.

Definition select_series (mask : list bool) (s : Series) : Series :=
  match s with
  | NumSeries xs => NumSeries (select mask xs)
  | TimeSeries ts => TimeSeries (select mask ts)
  | ObjSeries os => ObjSeries (select mask os)
  end.

(** [mask.sum()] *)
Definition count_true (mask : list bool) : Z :=
  Z.of_nat (length (List.filter id mask)).

(** [df[mask]]: a new frame with the selected rows. *)
Definition filter_rows (df : DataFrame) (mask : list bool) : DataFrame :=
  {| nrows := length (List.filter id mask);
     columns := select_series mask <$> columns df |}.

(** [a & b] on masks and [mask & True]. *)
Fixpoint mask_and (a b : list bool) : list bool :=
  match a, b with
  | x :: a, y :: b => (x && y) :: mask_and a b
  | _, _ => []
  end.

(** [s.isna()] *)
Definition isna (s : Series) : list bool :=
  match s with
  | NumSeries xs => map Float.is_nan xs
  | TimeSeries ts => map (fun t => match t with None => true | Some _ => false end) ts
  | ObjSeries os => map (fun o => match o with None => true | Some _ => false end) os
  end.

(** [s.dt.year] and [s.dt.month]; only datetime columns have [.dt]. *)
Definition field_values (field : Timestamp -> Z) (ts : list (option Timestamp)) : Series :=
  NumSeries (map (fun t => match t with
                           | Some t => Float.of_Z (field t)
                           | None => Float.nan
                           end) ts).

Definition dt_field (field : Timestamp -> Z) (s : Series) : result Series :=
  match s with
  | TimeSeries ts => Ok (field_values field ts)
  | _ => Raise (AttributeError "Can only use .dt accessor with datetimelike values")
  end.

(** [s < x], [s <= x], [s > x], [s >= x] against a number: element-wise on a
    numeric column; text cannot be ordered against a number, and neither can
    a datetime column. *)
Definition cmp_scalar (op : float -> float -> bool) (s : Series) (x : float)
  : result (list bool) :=
  match s with
  | NumSeries xs => Ok (map (fun v => op v x) xs)
  | TimeSeries _ => Raise (TypeError "Invalid comparison between datetime64 and number")
  | ObjSeries os =>
      if existsb (fun o => match o with Some _ => true | None => false end) os
      then Raise (TypeError "comparison not supported between str and number")
      else Ok (map (fun _ => false) os)
  end.

(** [s == x] against a number never raises. *)
Definition eq_scalar (s : Series) (x : float) : list bool :=
  match s with
  | NumSeries xs => map (fun v => Float.eqb v x) xs
  | TimeSeries ts => map (fun _ => false) ts
  | ObjSeries os => map (fun _ => false) os
  end.

(** [a > b] and [a >= b] between two columns of one frame, row by row
    ([zip_with] stops at the shorter column). *)
Definition cmp_series (gt_or_ge : bool) (a b : Series) : result (list bool) :=
  match a, b with
  | NumSeries xs, NumSeries ys =>
      Ok (zip_with (if gt_or_ge then Float.gtb else Float.geb) xs ys)
  | TimeSeries xs, TimeSeries ys =>
      Ok (zip_with (fun x y => match x, y with
                               | Some x, Some y =>
                                   if gt_or_ge then ts_value y <? ts_value x
                                   else ts_value y <=? ts_value x
                               | _, _ => false
                               end) xs ys)
  | ObjSeries xs, ObjSeries ys =>
      Ok (zip_with (fun x y => match x, y with
                               | Some x, Some y =>
                                   if gt_or_ge then String.ltb y x else String.leb y x
                               | _, _ => false
                               end) xs ys)
  | _, _ => Raise (TypeError "comparison between columns of different types")
  end.

(** [s.unique()] on numbers, in order of first appearance; NaN is one value. *)
Definition same_key (x y : float) : bool :=
  Float.eqb x y || (Float.is_nan x && Float.is_nan y).

Fixpoint unique (xs : list float) : list float :=
  match xs with
  | [] => []
  | x :: xs => x :: List.filter (fun y => negb (same_key x y)) (unique xs)
  end.

(** Ascending sort of group keys ([sort_index]). *)
Fixpoint insert_sorted (x : float) (l : list float) : list float :=
  match l with
  | [] => [x]
  | y :: l' => if Float.leb x y then x :: l else y :: insert_sorted x l'
  end.

Definition sort_keys (l : list float) : list float :=
  fold_right insert_sorted [] l.

(** The numeric view of a column for a reduction; pandas refuses to reduce an
    [object] column of text, and a datetime value cannot enter the arithmetic
    that follows every reduction in this code. *)
Definition numeric (s : Series) : result (list float) :=
  match s with
  | NumSeries xs => Ok xs
  | TimeSeries _ => Raise (TypeError "datetime64 values where numbers are required")
  | ObjSeries _ => Raise (TypeError "Could not convert string to numeric")
  end.

(** [s.idxmax()]: position of the first largest value, missing values
    skipped; raises when there is no value to take. A text column is ordered
    as strings, a datetime column by time. *)
Fixpoint argmax_from (best : option (nat * float)) (i : nat) (xs : list float)
  : option (nat * float) :=
  match xs with
  | [] => best
  | x :: xs =>
      let best' :=
        if Float.is_nan x then best
        else match best with
             | None => Some (i, x)
             | Some (_, b) => if Float.gtb x b then Some (i, x) else best
             end in
      argmax_from best' (S i) xs
  end.

Fixpoint argmax_by {A} (gt : A -> A -> bool) (best : option (nat * A)) (i : nat)
  (xs : list (option A)) : option (nat * A) :=
  match xs with
  | [] => best
  | x :: xs =>
      let best' :=
        match x with
        | None => best
        | Some x =>
            match best with
            | None => Some (i, x)
            | Some (_, b) => if gt x b then Some (i, x) else best
            end
        end in
      argmax_by gt best' (S i) xs
  end.

Definition idxmax (s : Series) : result nat :=
  let found :=
    match s with
    | NumSeries xs => fst <$> argmax_from None 0%nat xs
    | TimeSeries ts =>
        fst <$> argmax_by (fun a b => ts_value b <? ts_value a) None 0%nat ts
    | ObjSeries os => fst <$> argmax_by (fun a b => String.ltb b a) None 0%nat os
    end in
  match found with
  | Some i => Ok i
  | None => Raise (ValueError "attempt to get argmax of an empty sequence")
  end.

(** [s.max()] on numbers, NaN skipped (NaN when nothing is left). *)
Definition series_max (xs : list float) : float :=
  match argmax_from None 0%nat xs with
  | Some (_, x) => x
  | None => Float.nan
  end.

(** The floating-point reductions of pandas and numpy. Their summation order
    and NaN policy are the libraries' own, so they are taken as given; no
    property below depends on the numbers they return. *)
Class Reductions : Type := {
  series_mean : list float -> float;      (* Series.mean() *)
  series_std : list float -> float;       (* Series.std() *)
  series_median : list float -> float;    (* Series.median() *)
  np_mean : list float -> float           (* numpy.mean of a list of floats *)
}.

(** [numpy.mean] of a non-empty list of Python ints: the exact sum, divided
    in binary64 by the length. *)
Definition np_mean_ints (scores : list Z) : float :=
  Float.div (Float.of_Z (fold_right Z.add 0 scores))
            (Float.of_Z (Z.of_nat (length scores))).

(** [int(x)] *)
Definition py_int (x : float) : result Z :=
  match Float.to_Z x with
  | Some z => Ok z
  | None => Raise (ValueError "cannot convert float NaN or infinity to integer")
  end.

(** [df.groupby(key)[col]]: the groups in ascending key order, rows with a
    NaN key dropped. Both columns are looked up before anything is grouped.
    The key column is numeric at every call site, assigned from [.dt.year]
    or [.dt.month] just before; grouping by a key of another type is not
    modelled. *)
Definition groupby (df : DataFrame) (key col : string)
  : result (list (float * Series)) :=
  k ← getitem df key;
  s ← getitem df col;
  keys ← numeric k;
  Ok (map (fun g => (g, select_series (map (fun y => Float.eqb y g) keys) s))
          (sort_keys (List.filter (fun y => negb (Float.is_nan y)) (unique keys)))).

Section WithReductions.
Context {R : Reductions}.

(** [.mean()] and [.std()] *)
Definition mean_of (s : Series) : result float := xs ← numeric s; Ok (series_mean xs).
Definition std_of (s : Series) : result float := xs ← numeric s; Ok (series_std xs).
Definition median_of (s : Series) : result float := xs ← numeric s; Ok (series_median xs).

(** [df.groupby(key)[col].mean()] *)
Definition groupby_mean (df : DataFrame) (key col : string)
  : result (list (float * float)) :=
  groups ← groupby df key col;
  mapM (fun g => m ← mean_of (snd g); Ok (fst g, m)) groups.

End WithReductions.

(** A method call on the table object stored under [key]; whatever the
    method does to the object is seen through the mapping afterwards. *)
Definition on_table {A} (key : string) (method : DataFrame -> result A * DataFrame)
  : SE (gmap string DataFrame) (option A) :=
  fun tables =>
    match tables !! key with
    | Some d =>
        let '(r, d') := method d in
        (match r with Ok a => Ok (Some a) | Raise e => Raise e end, <[key := d']> tables)
    | None => (Ok None, tables)
    end.

(** ** core/scoring_engine.py *)

(** The objects a scoring method works on: the frame it received and its
    local [analysis] dict. Of the analysis dicts the model keeps the scores,
    the messages and the error entries; the descriptive statistics stored
    next to them (rounded averages, peak months, top queries, segment rows)
    are left out of the dict, but the operations that compute them are kept
    wherever they can raise. *)
Record scope : Type := {
  frame : DataFrame;
  analysis : gmap string value
}.

Abbreviation M := (SE scope).

(** Reading the parameter [df]. *)
Definition df : M DataFrame := fun s => (Ok (frame s), s).

(** [df[c] = s] *)
Definition df_setitem (c : string) (s : Series) : M unit :=
  modify (fun sc => {| frame := setitem (frame sc) c s; analysis := analysis sc |}).

(** [analysis[k] = v] *)
Definition analysis_set (k : string) (v : value) : M unit :=
  modify (fun sc => {| frame := frame sc; analysis := <[k := v]> (analysis sc) |}).

(** [d[k] = v] on a dict kept in insertion order. *)
Fixpoint dict_setitem (k : string) (v : value) (d : list (string * value))
  : list (string * value) :=
  match d with
  | [] => [(k, v)]
  | (k', v') :: d' =>
      if String.eqb k k' then (k, v) :: d' else (k', v') :: dict_setitem k v d'
  end.

(** [analysis[outer][k] = v] *)
Definition analysis_set_in (outer k : string) (v : value) : M unit :=
  modify (fun sc =>
    {| frame := frame sc;
       analysis := match analysis sc !! outer with
                   | Some (VDict d) => <[outer := VDict (dict_setitem k v d)]> (analysis sc)
                   | _ => analysis sc
                   end |}).

(** [return score, analysis] *)
Definition return_with_analysis (score : Z) : M (Z * gmap string value) :=
  s ← get; mret (score, analysis s).

(** Calling a method on a frame with a freshly initialised [analysis]. *)
Definition call {A} (init : gmap string value) (body : M A) (d : DataFrame)
  : result A * DataFrame :=
  let '(r, s) := body {| frame := d; analysis := init |} in (r, frame s).

(** The [if]/[elif] chain of [_calculate_yoy_score] with its labels. *)
Definition yoy_bucket (avg_yoy_change : float) : Z * string :=
  if Float.geb avg_yoy_change (Float.of_Z TREND_excellent) then (4, "Отличный рост"%string)
  else if Float.geb avg_yoy_change (Float.of_Z TREND_good) then (3, "Хороший рост"%string)
  else if Float.geb avg_yoy_change (Float.of_Z TREND_stable) then (2, "Стабильность"%string)
  else (1, "Снижение"%string).

Definition yoy_change_score (avg_yoy_change : float) : Z :=
  fst (yoy_bucket avg_yoy_change).

(** The loop over consecutive years of [_calculate_yoy_score]. *)
Fixpoint yoy_changes_of (yearly_data : list float) : list float :=
  match yearly_data with
  | prev_value :: ((curr_value :: _) as rest) =>
      (if Float.gtb prev_value (Float.of_Z 0)
       then [Float.mul (Float.div (Float.sub curr_value prev_value) prev_value)
                       (Float.of_Z 100)]
       else [])
      ++ yoy_changes_of rest
  | _ => []
  end.

Definition metrics : list (string * string) :=
  [ ("brands_with_sales", "Бренды с продажами");
    ("brands_total", "Бренды");
    ("products_with_sales", "Товары с продажами");
    ("products_total", "Товары");
    ("avg_check", "Средний чек, ₽") ]%string.

Definition query_ratio_col : string := "Коэффициент_спрос_предложение".
Definition revenue_col : string := "Выручка на товар, ₽".

(** The [if]/[elif] chain of [_calculate_price_score]. *)
Definition price_bucket (low_competition_segments : Z) : Z :=
  if 3 <=? low_competition_segments then 4
  else if 2 <=? low_competition_segments then 3
  else if 1 <=? low_competition_segments then 2
  else 1.

(** The [if]/[elif] chain of [_calculate_stock_score]; 0.3, 0.5 and 0.7 are
    the binary64 numbers nearest to 3/10, 1/2 and 7/10. *)
Definition stock_bucket (cv_stock zero_stock_ratio : float) : Z :=
  if Float.ltb cv_stock (Float.div (Float.of_Z 3) (Float.of_Z 10))
     && Float.ltb zero_stock_ratio (Float.of_Z 10) then 4
  else if Float.ltb cv_stock (Float.div (Float.of_Z 1) (Float.of_Z 2))
          && Float.ltb zero_stock_ratio (Float.of_Z 20) then 3
  else if Float.ltb cv_stock (Float.div (Float.of_Z 7) (Float.of_Z 10))
          && Float.ltb zero_stock_ratio (Float.of_Z 30) then 2
  else 1.

(** [ScoringEngine._get_ratio_interpretation] *)
Definition _get_ratio_interpretation (ratio : float) : string :=
  if Float.geb ratio (Float.of_Z 4) then "Очень выгодная ниша"
  else if Float.geb ratio (Float.of_Z 3) then "Хорошая ниша"
  else if Float.geb ratio (Float.of_Z 2) then "Средняя конкуренция"
  else if Float.geb ratio (Float.of_Z 1) then "Высокая конкуренция"
  else "Перегретая ниша".

(** [min(a, b)] on floats: the first argument unless the second is smaller. *)
Definition py_min (a b : float) : float := if Float.ltb b a then b else a.

(** [df.nlargest(n, by)[cols]]: only what can raise. *)
Definition nlargest_select (d : DataFrame) (by_col : string) (cols : list string)
  : result unit :=
  s ← getitem d by_col;
  _ ← match s with
      | ObjSeries _ => Raise (TypeError "Column has dtype object, cannot use method 'nlargest'")
      | _ => Ok tt
      end;
  forM_ (fun c => _ ← getitem d c; Ok tt) cols.

Section ScoringEngine.
Context {R : Reductions}.

(** [ScoringEngine._calculate_yoy_score]. It only reads the frame, has its
    own [try]/[except] and returns on every path. *)
Definition _calculate_yoy_score (d : DataFrame) (metric_col : string) : Z * value :=
  let body : result (Z * value) :=
    yearly_data ← groupby_mean d "Год" metric_col;
    if (length yearly_data <? 2)%nat
    then Ok (2, VDict [("message"%string, VStr "Недостаточно данных для YoY анализа")])
    else
      match yoy_changes_of (map snd yearly_data) with
      | [] => Ok (2, VDict [("message"%string, VStr "Не удалось рассчитать YoY изменения")])
      | yoy_changes =>
          let avg_yoy_change := np_mean yoy_changes in
          let '(score, trend) := yoy_bucket avg_yoy_change in
          Ok (score, VDict [("trend"%string, VStr trend)])
      end in
  match body with
  | Ok r => r
  | Raise e => (1, VDict [("error"%string, VExc e)])
  end.

(** One turn of the peak-month loop of [_calculate_trend_score]. *)
Definition peak_month (d : DataFrame) (year : float) : result unit :=
  years ← getitem d "Год";
  let year_data := filter_rows d (eq_scalar years year) in
  if negb (empty_frame year_data) && has_col year_data "Продажи" then
    sales ← getitem year_data "Продажи";
    _ ← idxmax sales;
    _ ← getitem year_data "Месяц_номер";
    Ok tt
  else Ok tt.

(** One turn of the loop over [metrics]. *)
Definition metric_step (scores : list Z) (metric : string * string) : M (list Z) :=
  let '(metric_key, metric_col) := metric in
  d ← df;
  if has_col d metric_col then
    let '(yoy_score, yoy_change) := _calculate_yoy_score d metric_col in
    analysis_set_in "yoy_changes" metric_key yoy_change;;
    analysis_set_in "score_breakdown" metric_key (VInt yoy_score);;
    mret (scores ++ [yoy_score])
  else mret scores.

(** The two column assignments that open [_calculate_trend_score]. *)
Definition trend_time_columns : M unit :=
  d ← df;
  month ← lift (getitem d "Месяц");
  year ← lift (dt_field ts_year month);
  df_setitem "Год" year;;
  d ← df;
  month ← lift (getitem d "Месяц");
  month_number ← lift (dt_field ts_month month);
  df_setitem "Месяц_номер" month_number.

(** The rest of the [try] block of [_calculate_trend_score]. *)
Definition trend_scoring : M Z :=
  d ← df;
  year_col ← lift (getitem d "Год");
  years ← lift (numeric year_col);
  lift (forM_ (peak_month d) (unique years));;
  scores ← foldM metric_step [] metrics;
  final_score ← match scores with
                | [] => mret 0
                | _ => lift (py_int (np_mean_ints scores))
                end;
  analysis_set "total_score" (VInt final_score);;
  mret final_score.

(** [ScoringEngine._calculate_trend_score] *)
Definition _calculate_trend_score (d : DataFrame)
  : result (Z * gmap string value) * DataFrame :=
  call
    {[ "yoy_changes"%string := VDict []; "score_breakdown"%string := VDict [];
       "total_score"%string := VInt 0 ]}
    (final_score ←
       try_except
         (trend_time_columns;; trend_scoring)
         (fun e => analysis_set "error" (VExc e);; mret 0);
     return_with_analysis final_score)
    d.

(** [ScoringEngine._calculate_query_score] *)
Definition _calculate_query_score (d : DataFrame)
  : result (Z * gmap string value) * DataFrame :=
  call
    {[ "total_queries"%string := VInt (len d); "effective_queries"%string := VInt 0;
       "score"%string := VInt 0 ]}
    (score ←
       try_except
         (d ← df;
          if has_col d query_ratio_col then
            ratio ← lift (getitem d query_ratio_col);
            mask ← lift (cmp_scalar Float.geb ratio (Float.of_Z 2));
            let effective_queries := filter_rows d mask in
            analysis_set "effective_queries" (VInt (len effective_queries));;
            let efficiency_ratio :=
              if 0 <? len d
              then Some (Float.mul (Float.div (Float.of_Z (len effective_queries))
                                              (Float.of_Z (len d)))
                                   (Float.of_Z 100))
              else None in
            lift (nlargest_select d query_ratio_col
                    ["Ключевое слово"; "Частота WB"; "Товаров в запросе";
                     query_ratio_col]%string);;
            efficiency_ratio ← lift (load_local "efficiency_ratio" efficiency_ratio);
            let score := query_efficiency_score efficiency_ratio in
            analysis_set "score" (VInt score);;
            mret score
          else
            analysis_set "error" (VStr "Отсутствует коэффициент спрос/предложение");;
            mret 0)
         (fun e => analysis_set "error" (VExc e);; mret 0);
     return_with_analysis score)
    d.

(** [ScoringEngine._calculate_price_score] *)
Definition _calculate_price_score (d : DataFrame)
  : result (Z * gmap string value) * DataFrame :=
  call
    {[ "score"%string := VInt 0 ]}
    (score ←
       try_except
         (d ← df;
          if has_col d revenue_col then
            revenue ← lift (getitem d revenue_col);
            _ ← lift (idxmax revenue);
            _ ← lift (getitem d "От");
            _ ← lift (getitem d "До");
            revenue_values ← lift (numeric revenue);
            let max_revenue := series_max revenue_values in
            median_revenue ← lift (median_of revenue);
            above_median ← lift (cmp_scalar Float.gtb revenue median_revenue);
            mask ←
              (if has_col d "Продавцы" then
                 sellers ← lift (getitem d "Продавцы");
                 median_sellers ← lift (median_of sellers);
                 few_sellers ← lift (cmp_scalar Float.ltb sellers median_sellers);
                 mret (mask_and above_median few_sellers)
               else mret above_median);
            let low_competition_segments := filter_rows d mask in
            let score := price_bucket (len low_competition_segments) in
            analysis_set "score" (VInt score);;
            mret score
          else
            analysis_set "error" (VStr "Отсутствует колонка 'Выручка на товар'");;
            mret 0)
         (fun e => analysis_set "error" (VExc e);; mret 0);
     return_with_analysis score)
    d.

(** One turn of the peak-month loop of [_calculate_stock_score]. *)
Definition peak_stock_month (d : DataFrame) (year : float) : result unit :=
  years ← getitem d "Год";
  let year_data := filter_rows d (eq_scalar years year) in
  if negb (empty_frame year_data) then
    monthly_avg ← groupby_mean year_data "Месяц" "Остаток";
    _ ← idxmax (NumSeries (map snd monthly_avg));
    Ok tt
  else Ok tt.

(** The two column assignments of [_calculate_stock_score]. *)
Definition stock_time_columns : M unit :=
  d ← df;
  date ← lift (getitem d "Дата");
  year ← lift (dt_field ts_year date);
  df_setitem "Год" year;;
  d ← df;
  date ← lift (getitem d "Дата");
  month ← lift (dt_field ts_month date);
  df_setitem "Месяц" month.

(** The statements of [_calculate_stock_score] after the assignments. *)
Definition stock_scoring : M Z :=
  d ← df;
  year_col ← lift (getitem d "Год");
  years ← lift (numeric year_col);
  lift (forM_ (peak_stock_month d) (unique years));;
  monthly ← lift (groupby d "Месяц" "Остаток");
  lift (forM_ (fun g => _ ← mean_of (snd g); _ ← std_of (snd g); Ok tt) monthly);;
  stock ← lift (getitem d "Остаток");
  mean ← lift (mean_of stock);
  cv_stock ←
    (if Float.gtb mean (Float.of_Z 0) then
       std ← lift (std_of stock);
       mean ← lift (mean_of stock);
       mret (Float.div std mean)
     else mret (Float.of_Z 0));
  let zero_stock_ratio :=
    Float.mul (Float.div (Float.of_Z (count_true (eq_scalar stock (Float.of_Z 0))))
                         (Float.of_Z (len d)))
              (Float.of_Z 100) in
  let score := stock_bucket cv_stock zero_stock_ratio in
  analysis_set "score" (VInt score);;
  mret score.

(** [ScoringEngine._calculate_stock_score] *)
Definition _calculate_stock_score (d : DataFrame)
  : result (Z * gmap string value) * DataFrame :=
  call
    {[ "score"%string := VInt 0 ]}
    (score ←
       try_except
         (d ← df;
          if has_col d "Остаток" && has_col d "Дата" then
            stock_time_columns;; stock_scoring
          else
            analysis_set "error"
              (VStr "Отсутствуют необходимые колонки для анализа остатков");;
            mret 0)
         (fun e => analysis_set "error" (VExc e);; mret 0);
     return_with_analysis score)
    d.

(** The [try] block of [_calculate_ads_score]. The float locals of the method
    are kept in [ns], so that every read of a name is resolved against the
    names the body has assigned so far; neither the module globals nor the
    builtins bind a name read here. *)
Definition ads_scoring : M (Z * gmap string value) :=
  d ← df;
  position ← lift (getitem d "Category position avg");
  in_top_10 ← lift (cmp_scalar Float.leb position (Float.of_Z 10));
  let top_10 := filter_rows d in_top_10 in
  position ← lift (getitem d "Category position avg");
  in_top_100 ← lift (cmp_scalar Float.leb position (Float.of_Z 100));
  let top_100 := filter_rows d in_top_100 in
  if (len top_10 =? 0) || (len top_100 =? 0) then
    mret (0, {[ "error"%string := VStr "Недостаточно товаров в топе для анализа" ]})
  else
    (* top 10 *)
    cpm ← lift (getitem top_10 "Search cpm avg");
    avg_cpm_top10 ← lift (mean_of cpm);
    let ns : gmap string float := {[ "avg_cpm_top10"%string := avg_cpm_top10 ]} in
    price ← lift (getitem top_10 "Final price");
    avg_price_top10 ← lift (mean_of price);
    let ns := <[ "avg_price_top10"%string := avg_price_top10 ]> ns in
    cond ← lift (load_name ns "avg_cmp_top10");
    ratio_top10 ←
      (if Float.gtb cond (Float.of_Z 0) then
         p ← lift (load_name ns "avg_price_top10");
         c ← lift (load_name ns "avg_cmp_top10");
         mret (Float.div p c)
       else mret (Float.of_Z 0));
    let ns := <[ "ratio_top10"%string := ratio_top10 ]> ns in
    _ ← lift (load_name ns "avg_cmp_top10");
    _ ← lift (load_name ns "avg_price_top10");
    _ ← lift (load_name ns "ratio_top10");
    analysis_set "top_10_analysis"
      (VDict [("products_count"%string, VInt (len top_10))]);;
    (* top 100 *)
    cmp ← lift (getitem top_100 "Search cmp avg");
    avg_cmp_top100 ← lift (mean_of cmp);
    let ns := <[ "avg_cmp_top100"%string := avg_cmp_top100 ]> ns in
    price ← lift (getitem top_100 "Final price");
    avg_price_top100 ← lift (mean_of price);
    let ns := <[ "avg_price_top100"%string := avg_price_top100 ]> ns in
    cond ← lift (load_name ns "avg_cmp_top100");
    ratio_top100 ←
      (if Float.gtb cond (Float.of_Z 0) then
         p ← lift (load_name ns "avg_price_top100");
         c ← lift (load_name ns "avg_cmp_top100");
         mret (Float.div p c)
       else mret (Float.of_Z 0));
    let ns := <[ "ratio_top100"%string := ratio_top100 ]> ns in
    _ ← lift (load_name ns "avg_cmp_top100");
    _ ← lift (load_name ns "avg_price_top100");
    _ ← lift (load_name ns "ratio_top100");
    analysis_set "top_100_analysis"
      (VDict [("products_count"%string, VInt (len top_100))]);;
    (* price-to-bid ratio *)
    r10 ← lift (load_name ns "ratio_top10");
    let score_top10 := _get_ratio_score r10 in
    r100 ← lift (load_name ns "ratio_top100");
    let score_top100 := _get_ratio_score r100 in
    let final_score := Z.min score_top10 score_top100 in
    analysis_set "ratio_analysis"
      (VDict [("score_top10"%string, VInt score_top10);
              ("score_top100"%string, VInt score_top100);
              ("final_score"%string, VInt final_score);
              ("interpretation"%string,
               VStr (_get_ratio_interpretation (py_min r10 r100)))]);;
    (* organic positions *)
    words ← lift (getitem top_10 "Search words in ads");
    let organic_top10 := filter_rows top_10 (eq_scalar words (Float.of_Z 0)) in
    words ← lift (getitem top_100 "Search words in ads");
    let organic_top100 := filter_rows top_100 (eq_scalar words (Float.of_Z 0)) in
    analysis_set "organic_analysis"
      (VDict [("organic_top10_count"%string, VInt (len organic_top10));
              ("organic_top100_count"%string, VInt (len organic_top100))]);;
    analysis_set "score" (VInt final_score);;
    return_with_analysis final_score.

(** [ScoringEngine._calculate_ads_score] *)
Definition _calculate_ads_score (d : DataFrame)
  : result (Z * gmap string value) * DataFrame :=
  call
    {[ "top_10_analysis"%string := VDict []; "top_100_analysis"%string := VDict [];
       "ratio_analysis"%string := VDict []; "organic_analysis"%string := VDict [];
       "score"%string := VInt 0 ]}
    (try_except ads_scoring
       (fun e => analysis_set "error" (VExc e);; return_with_analysis 0))
    d.

(** The dict returned by [calculate_total_score]. *)
Record results : Type := {
  trend_score : Z;
  query_score : Z;
  price_score : Z;
  stock_score : Z;
  ads_score : Z;
  total_score : Z;
  niche_rating : string;
  detailed_analysis : gmap string (gmap string value);
  recommendations : list string
}.

(** [ScoringEngine._generate_recommendations] *)
Definition total_recommendation (total : Z) : string :=
  if 16 <=? total then "🟢 Отличная ниша для входа! Высокий потенциал роста."
  else if 11 <=? total then "🟡 Хорошая ниша с умеренными рисками."
  else if 6 <=? total then "🟠 Средняя ниша. Требуется детальный анализ конкурентов."
  else "🔴 Сложная ниша. Высокие риски входа.".

Definition _generate_recommendations
  (total trend query ads : Z) : list string :=
  [ total_recommendation total ]
  ++ (if trend <=? 2
      then ["📉 Тренды показывают снижение. Рассмотрите альтернативные ниши."%string]
      else [])
  ++ (if 3 <=? query
      then ["🔍 Много эффективных запросов. Используйте их для SEO."%string]
      else if query <=? 2
      then ["🔍 Мало эффективных запросов. Конкуренция высокая."%string]
      else [])
  ++ (if ads <=? 2
      then ["🎯 Высокие рекламные ставки относительно чека. Ниша может быть перегрета."%string]
      else if 3 <=? ads
      then ["🎯 Умеренные рекламные ставки. Хорошие возможности для продвижения."%string]
      else []).

Definition score_of (r : option (Z * gmap string value)) : Z :=
  match r with Some (score, _) => score | None => 0 end.

Definition record_analysis (key : string) (r : option (Z * gmap string value))
  (detailed : gmap string (gmap string value)) : gmap string (gmap string value) :=
  match r with Some (_, a) => <[key := a]> detailed | None => detailed end.

(** [ScoringEngine.calculate_total_score]; each [if key in loaded_data]
    block is a call on the table stored under the key, skipped when the
    key is absent. *)
Definition calculate_total_score : SE (gmap string DataFrame) results :=
  trends ← on_table "trends" _calculate_trend_score;
  queries ← on_table "queries" _calculate_query_score;
  price ← on_table "price" _calculate_price_score;
  stock ← on_table "days" _calculate_stock_score;
  ads ← on_table "products" _calculate_ads_score;
  let total :=
    score_of trends + score_of queries + score_of price + score_of stock + score_of ads in
  mret {| trend_score := score_of trends;
          query_score := score_of queries;
          price_score := score_of price;
          stock_score := score_of stock;
          ads_score := score_of ads;
          total_score := total;
          niche_rating := _get_niche_rating total;
          detailed_analysis :=
            record_analysis "ads" ads
              (record_analysis "stock" stock
                 (record_analysis "price" price
                    (record_analysis "queries" queries
                       (record_analysis "trends" trends ∅))));
          recommendations :=
            _generate_recommendations total (score_of trends) (score_of queries)
                                      (score_of ads) |}.

End ScoringEngine.

(** ** core/data_validator.py *)

(** The texts appended to the warning and error lists, one constructor per
    f-string template, with the values the template interpolates. *)
Inductive report_kind : Type := Trends | Queries | Price | Days | Products.

Inductive message : Type :=
| MissingColumns (missing_cols : list string)
| ValidationFailed (kind : report_kind) (e : pyexc)
(* trends and days *)
| InvalidDates (invalid_dates : Z)
| PeriodUnderMonth
| PeriodOverThreeYears
| NegativeValues (negative_values : Z) (col : string)
| MostlyZero (col : string)
| MoreSalesThanProducts (inconsistent : Z)
(* queries *)
| EmptyKeywords (empty_keywords : Z)
| DuplicateKeywords (duplicates : Z)
| ZeroFrequency (zero_frequency : Z)
| NegativeFrequency (negative_frequency : Z)
| QueriesWithoutProducts (zero_products : Z)
| NoEffectiveQueries
| FewEffectiveQueries (effective_queries : Z)
(* price *)
| NonNumericFrom (non_numeric_from : Z)
| NonNumericTo (non_numeric_to : Z)
| InvalidRanges (invalid_ranges : Z)
| OverlappingRanges (overlaps : Z)
| ZeroRevenue (zero_revenue : Z)
| NegativeRevenue (negative_revenue : Z)
| InconsistentSegments (inconsistent : Z)
(* days *)
| DateGaps (date_gaps : Z)
| NegativeStock (negative_stock : Z)
| ManyZeroStockDays (zero_stock_days total_days : Z)
(* products *)
| EmptySku (empty_sku : Z)
| DuplicateSku (duplicate_sku : Z)
| ZeroPrice (zero_price : Z)
| NegativePrice (negative_price : Z)
| FewAds (ads_percentage : float)
| TooManyAds (ads_percentage : float)
| NoTop10
| FewTop100 (top_100 : Z).

(** The dict returned by a validator; [extra] holds the keys that depend on
    the report type ([records_count], [date_range], ...). *)
Record validation : Type := {
  valid : bool;
  v_warnings : list message;
  v_errors : list message;
  extra : list (string * value)
}.

(** The objects a validator works on: the frame it received and its local
    [warnings] and [errors] lists. *)
Record vscope : Type := {
  vframe : DataFrame;
  warnings : list message;
  errors : list message
}.

Abbreviation V := (SE vscope).

Definition vdf : V DataFrame := fun s => (Ok (vframe s), s).

(** [warnings.append(m)] and [errors.append(m)] *)
Definition warnings_append (m : message) : V unit :=
  modify (fun s => {| vframe := vframe s; warnings := warnings s ++ [m]; errors := errors s |}).
Definition errors_append (m : message) : V unit :=
  modify (fun s => {| vframe := vframe s; warnings := warnings s; errors := errors s ++ [m] |}).

(** [if b: m] *)
Definition when {S} (b : bool) (m : SE S unit) : SE S unit :=
  if b then m else mret tt.

Fixpoint for_each {S A} (f : A -> SE S unit) (l : list A) : SE S unit :=
  match l with
  | [] => mret tt
  | a :: l => f a;; for_each f l
  end.

Definition is_empty {A} (l : list A) : bool :=
  match l with [] => true | _ => false end.

(** Cells of a column, for row-wise access ([iloc]). *)
Inductive cell : Type :=
| CNum (x : float)
| CTime (t : option Timestamp)
| CStr (s : option string).

Definition cells (s : Series) : list cell :=
  match s with
  | NumSeries xs => map CNum xs
  | TimeSeries ts => map CTime ts
  | ObjSeries os => map CStr os
  end.

(** [a > b] on two scalars taken from cells. *)
Definition cell_gt (a b : cell) : result bool :=
  match a, b with
  | CNum x, CNum y => Ok (Float.gtb x y)
  | CTime (Some x), CTime (Some y) => Ok (ts_value y <? ts_value x)
  | CTime _, CTime _ => Ok false
  | CStr (Some x), CStr (Some y) => Ok (String.ltb y x)
  | CStr None, CStr None => Ok false
  | _, _ => Raise (TypeError "'>' not supported between these values")
  end.

(** The order [sort_values] uses on one column: missing values last. *)
Definition cell_le (a b : cell) : bool :=
  match a, b with
  | CNum x, CNum y => Float.leb x y || Float.is_nan y
  | CTime (Some x), CTime (Some y) => ts_value x <=? ts_value y
  | CTime _, CTime None => true
  | CStr (Some x), CStr (Some y) => String.leb x y
  | CStr _, CStr None => true
  | _, _ => false
  end.

(** [df.sort_values(key)], as the rows (key cell, payload) in sorted order;
    rows with equal keys keep their order. *)
Fixpoint insert_row {A} (r : cell * A) (l : list (cell * A)) : list (cell * A) :=
  match l with
  | [] => [r]
  | r' :: l' => if cell_le (fst r) (fst r') then r :: l else r' :: insert_row r l'
  end.

Definition sort_rows {A} (l : list (cell * A)) : list (cell * A) :=
  fold_right insert_row [] l.

(** [df.dropna(subset=cols)] *)
Definition dropna (d : DataFrame) (subset : list string) : result DataFrame :=
  masks ← mapM (fun c => s ← getitem d c; Ok (map negb (isna s))) subset;
  Ok (filter_rows d (fold_right mask_and (replicate (nrows d) true) masks)).

(** [s.duplicated().sum()]: the values that repeat an earlier one. *)
Definition cell_same (a b : cell) : bool :=
  match a, b with
  | CNum x, CNum y => same_key x y
  | CTime (Some x), CTime (Some y) => ts_value x =? ts_value y
  | CTime None, CTime None => true
  | CStr (Some x), CStr (Some y) => String.eqb x y
  | CStr None, CStr None => true
  | _, _ => false
  end.

Fixpoint duplicated_from (seen : list cell) (l : list cell) : Z :=
  match l with
  | [] => 0
  | c :: l =>
      (if existsb (cell_same c) seen then 1 else 0) + duplicated_from (c :: seen) l
  end.

Definition duplicated_count (s : Series) : Z := duplicated_from [] (cells s).

(** [s.min()] and [s.max()] of a datetime column, NaT skipped. *)
Definition ts_extreme (want_max : bool) (ts : list (option Timestamp)) : option Timestamp :=
  fold_left
    (fun best t =>
       match best, t with
       | _, None => best
       | None, Some t => Some t
       | Some b, Some t =>
           if (if want_max then ts_value b <? ts_value t else ts_value t <? ts_value b)
           then Some t else best
       end)
    ts None.

(** [(s.max() - s.min()).days]; only timestamps have a difference with
    [.days]. *)
Definition date_range_days (s : Series) : result Z :=
  match s with
  | TimeSeries ts =>
      match ts_extreme false ts, ts_extreme true ts with
      | Some min_date, Some max_date => Ok (days_between max_date min_date)
      | _, _ => Raise (AttributeError "'NaTType' object has no attribute 'days'")
      end
  | NumSeries _ => Raise (AttributeError "'float' object has no attribute 'days'")
  | ObjSeries _ => Raise (TypeError "unsupported operand type(s) for -: 'str' and 'str'")
  end.

(** [DataValidator._get_date_range]: the two formatted dates, or [None]; its
    bare [except] swallows whatever the body raises. *)
Definition _get_date_range (d : DataFrame) (date_column : string) : value :=
  match columns d !! date_column with
  | Some (TimeSeries ts) =>
      match ts_extreme false ts, ts_extreme true ts with
      | Some min_date, Some max_date => VList [VTime min_date; VTime max_date]
      | _, _ => VNone
      end
  | _ => VNone
  end.

(** [s.min()] / [s.max()] as stored in [price_range]: missing values are
    skipped, text is ordered as strings.  On the columns of [Series] neither
    raises; the [TypeError] of a column mixing numbers and text is not
    modelled. *)
Definition extreme_value (want_max : bool) (s : Series) : value :=
  match s with
  | NumSeries xs =>
      VFloat (fold_left
                (fun best x =>
                   if Float.is_nan x then best
                   else if Float.is_nan best then x
                   else if (if want_max then Float.gtb x best else Float.ltb x best)
                        then x else best)
                xs Float.nan)
  | TimeSeries ts =>
      match ts_extreme want_max ts with Some t => VTime t | None => VNone end
  | ObjSeries os =>
      fold_left
        (fun best o =>
           match best, o with
           | _, None => best
           | VStr b, Some x =>
               if (if want_max then String.ltb b x else String.ltb x b)
               then VStr x else best
           | _, Some x => VStr x
           end)
        os VNone
  end.

(** Calling a validator on a frame with empty [warnings] and [errors]. *)
Definition vcall {A} (body : V A) (d : DataFrame) : result A * DataFrame :=
  let '(r, s) := body {| vframe := d; warnings := []; errors := [] |} in (r, vframe s).

Definition missing_columns (d : DataFrame) (required_columns : list string) : list string :=
  List.filter (fun c => negb (has_col d c)) required_columns.

(** The values of [DATA_FIELDS["trends"]], in the order of the dict. *)
Definition trends_fields : list string :=
  [ "Месяц"; "Продажи"; "Выручка, ₽"; "Товары"; "Товары с продажами"; "Бренды";
    "Бренды с продажами"; "Продавцы"; "Продавцы с продажами"; "Выручка на товар, ₽";
    "Средний чек, ₽" ]%string.

(** [if missing_cols: errors.append(...)] *)
Definition check_required (required_columns : list string) : V unit :=
  d ← vdf;
  let missing_cols := missing_columns d required_columns in
  when (negb (is_empty missing_cols)) (errors_append (MissingColumns missing_cols)).

(** [0.5] and [0.3] *)
Definition one_half : float := Float.div (Float.of_Z 1) (Float.of_Z 2).
Definition three_tenths : float := Float.div (Float.of_Z 3) (Float.of_Z 10).

(** The date checks of [_validate_trends_data]. *)
Definition check_trend_dates : V unit :=
  d ← vdf;
  when (has_col d "Месяц")
    (month ← lift (getitem d "Месяц");
     let invalid_dates := count_true (isna month) in
     when (0 <? invalid_dates) (warnings_append (InvalidDates invalid_dates));;
     when (negb (forallb id (isna month)))
       (date_range ← lift (date_range_days month);
        if date_range <? 30 then warnings_append PeriodUnderMonth
        else if 1095 <? date_range then warnings_append PeriodOverThreeYears
        else mret tt)).

(** One turn of the loop over [numeric_columns] of [_validate_trends_data]. *)
Definition check_numeric_column (col : string) : V unit :=
  d ← vdf;
  when (has_col d col)
    (s ← lift (getitem d col);
     negative ← lift (cmp_scalar Float.ltb s (Float.of_Z 0));
     let negative_values := count_true negative in
     when (0 <? negative_values) (warnings_append (NegativeValues negative_values col));;
     let zero_values := count_true (eq_scalar s (Float.of_Z 0)) in
     when (Float.gtb (Float.of_Z zero_values) (Float.mul (Float.of_Z (len d)) one_half))
       (warnings_append (MostlyZero col))).

(** The consistency check of [_validate_trends_data]. *)
Definition check_trend_consistency : V unit :=
  d ← vdf;
  when (forallb (has_col d) ["Товары"; "Товары с продажами"]%string)
    (with_sales ← lift (getitem d "Товары с продажами");
     products ← lift (getitem d "Товары");
     more ← lift (cmp_series true with_sales products);
     let inconsistent := count_true more in
     when (0 <? inconsistent) (errors_append (MoreSalesThanProducts inconsistent))).

(** [DataValidator._validate_trends_data] *)
Definition _validate_trends_data (d : DataFrame) : result validation * DataFrame :=
  vcall
    (try_except
       (check_required trends_fields;;
        check_trend_dates;;
        for_each check_numeric_column ["Продажи"; "Выручка, ₽"; "Товары"; "Бренды"]%string;;
        check_trend_consistency)
       (fun e => errors_append (ValidationFailed Trends e));;
     s ← get;
     d ← vdf;
     mret {| valid := is_empty (errors s);
             v_warnings := warnings s;
             v_errors := errors s;
             extra := [("records_count"%string, VInt (len d));
                       ("date_range"%string,
                        if has_col d "Месяц" then _get_date_range d "Месяц" else VNone)] |})
    d.

(** [len(df[df[col] >= 2.0])] *)
Definition count_effective (d : DataFrame) : result Z :=
  ratio ← getitem d query_ratio_col;
  mask ← cmp_scalar Float.geb ratio (Float.of_Z 2);
  Ok (len (filter_rows d mask)).

(** [DataValidator._validate_queries_data] *)
Definition _validate_queries_data (d : DataFrame) : result validation * DataFrame :=
  vcall
    (try_except
       (check_required ["Ключевое слово"; "Частота WB"; "Товаров в запросе"]%string;;
        d ← vdf;
        when (has_col d "Ключевое слово")
          (keyword ← lift (getitem d "Ключевое слово");
           let empty_keywords := count_true (isna keyword) in
           when (0 <? empty_keywords) (warnings_append (EmptyKeywords empty_keywords));;
           let duplicates := duplicated_count keyword in
           when (0 <? duplicates) (warnings_append (DuplicateKeywords duplicates)));;
        when (has_col d "Частота WB")
          (frequency ← lift (getitem d "Частота WB");
           let zero_frequency := count_true (eq_scalar frequency (Float.of_Z 0)) in
           when (0 <? zero_frequency) (warnings_append (ZeroFrequency zero_frequency));;
           negative ← lift (cmp_scalar Float.ltb frequency (Float.of_Z 0));
           let negative_frequency := count_true negative in
           when (0 <? negative_frequency)
             (errors_append (NegativeFrequency negative_frequency)));;
        when (has_col d "Товаров в запросе")
          (in_query ← lift (getitem d "Товаров в запросе");
           let zero_products := count_true (eq_scalar in_query (Float.of_Z 0)) in
           when (0 <? zero_products) (warnings_append (QueriesWithoutProducts zero_products)));;
        when (forallb (has_col d) ["Частота WB"; "Товаров в запросе"]%string)
          (effective_queries ← lift (count_effective d);
           if effective_queries =? 0 then warnings_append NoEffectiveQueries
           else if effective_queries <? 10
                then warnings_append (FewEffectiveQueries effective_queries)
                else mret tt))
       (fun e => errors_append (ValidationFailed Queries e));;
     s ← get;
     d ← vdf;
     effective_queries ←
       (if has_col d query_ratio_col then lift (count_effective d) else mret 0);
     mret {| valid := is_empty (errors s);
             v_warnings := warnings s;
             v_errors := errors s;
             extra := [("records_count"%string, VInt (len d));
                       ("effective_queries"%string, VInt effective_queries)] |})
    d.

(** The loop over neighbouring rows of the sorted ranges. *)
Fixpoint count_overlaps (rows : list (cell * cell)) : result Z :=
  match rows with
  | (_, price_to) :: (((next_from, _) :: _) as rest) =>
      b ← cell_gt price_to next_from;
      n ← count_overlaps rest;
      Ok (Z.b2z b + n)
  | _ => Ok 0
  end.

(** The range checks of [_validate_price_data]. *)
Definition check_price_ranges : V unit :=
  d ← vdf;
  when (forallb (has_col d) ["От"; "До"]%string)
    (price_from ← lift (getitem d "От");
     price_to ← lift (getitem d "До");
     let non_numeric_from := count_true (isna price_from) in
     let non_numeric_to := count_true (isna price_to) in
     when (0 <? non_numeric_from) (errors_append (NonNumericFrom non_numeric_from));;
     when (0 <? non_numeric_to) (errors_append (NonNumericTo non_numeric_to));;
     valid_rows ← lift (dropna d ["От"; "До"]%string);
     when (0 <? len valid_rows)
       (price_from ← lift (getitem valid_rows "От");
        price_to ← lift (getitem valid_rows "До");
        not_below ← lift (cmp_series false price_from price_to);
        let invalid_ranges := count_true not_below in
        when (0 <? invalid_ranges) (errors_append (InvalidRanges invalid_ranges));;
        let df_sorted := sort_rows (zip_with pair (cells price_from) (cells price_to)) in
        overlaps ← lift (count_overlaps df_sorted);
        when (0 <? overlaps) (warnings_append (OverlappingRanges overlaps)))).

(** The revenue checks of [_validate_price_data]. *)
Definition check_price_revenue : V unit :=
  d ← vdf;
  when (has_col d revenue_col)
    (revenue ← lift (getitem d revenue_col);
     let zero_revenue := count_true (eq_scalar revenue (Float.of_Z 0)) in
     when (0 <? zero_revenue) (warnings_append (ZeroRevenue zero_revenue));;
     negative ← lift (cmp_scalar Float.ltb revenue (Float.of_Z 0));
     let negative_revenue := count_true negative in
     when (0 <? negative_revenue) (errors_append (NegativeRevenue negative_revenue))).

(** The consistency check of [_validate_price_data]. *)
Definition check_price_consistency : V unit :=
  d ← vdf;
  when (forallb (has_col d) ["Товары"; "Товары с продажами"]%string)
    (valid_products_data ← lift (dropna d ["Товары"; "Товары с продажами"]%string);
     when (0 <? len valid_products_data)
       (with_sales ← lift (getitem valid_products_data "Товары с продажами");
        products ← lift (getitem valid_products_data "Товары");
        more ← lift (cmp_series true with_sales products);
        let inconsistent := count_true more in
        when (0 <? inconsistent) (errors_append (InconsistentSegments inconsistent)))).

(** [DataValidator._validate_price_data]. The body of the [try] either
    returns early (missing required columns) or falls through to the final
    [return]. *)
Definition _validate_price_data (d : DataFrame) : result validation * DataFrame :=
  vcall
    (early ←
       try_except
         (d ← vdf;
          let missing_cols := missing_columns d ["От"; "До"; revenue_col]%string in
          if negb (is_empty missing_cols) then
            errors_append (MissingColumns missing_cols);;
            s ← get;
            mret (Some {| valid := false;
                          v_warnings := warnings s;
                          v_errors := errors s;
                          extra := [("records_count"%string, VInt (len d))] |})
          else
            check_price_ranges;;
            check_price_revenue;;
            check_price_consistency;;
            mret None)
         (fun e => errors_append (ValidationFailed Price e);; mret None);
     match early with
     | Some r => mret r
     | None =>
         s ← get;
         d ← vdf;
         price_range ←
           (if forallb (has_col d) ["От"; "До"]%string && (0 <? len d) then
              price_from ← lift (getitem d "От");
              price_to ← lift (getitem d "До");
              mret (VList [extreme_value false price_from; extreme_value true price_to])
            else mret VNone);
         mret {| valid := is_empty (errors s);
                 v_warnings := warnings s;
                 v_errors := errors s;
                 extra := [("records_count"%string, VInt (len d));
                           ("price_range"%string, price_range)] |}
     end)
    d.

(** [(b - a).days]; [None] when a NaT makes it NaN. *)
Definition gap_days (a b : cell) : result (option Z) :=
  match a, b with
  | CTime (Some x), CTime (Some y) => Ok (Some (days_between y x))
  | CTime _, CTime _ => Ok None
  | CNum _, CNum _ => Raise (AttributeError "'float' object has no attribute 'days'")
  | _, _ => Raise (TypeError "unsupported operand type(s) for -")
  end.

(** The loop over neighbouring rows of the frame sorted by date. *)
Fixpoint count_gaps (dates : list cell) : result Z :=
  match dates with
  | a :: ((b :: _) as rest) =>
      diff ← gap_days a b;
      n ← count_gaps rest;
      Ok (Z.b2z (match diff with Some days => 1 <? days | None => false end) + n)
  | _ => Ok 0
  end.

(** [DataValidator._validate_days_data] *)
Definition _validate_days_data (d : DataFrame) : result validation * DataFrame :=
  vcall
    (try_except
       (check_required ["Дата"; "Остаток"]%string;;
        d ← vdf;
        when (has_col d "Дата")
          (date ← lift (getitem d "Дата");
           let invalid_dates := count_true (isna date) in
           when (0 <? invalid_dates) (warnings_append (InvalidDates invalid_dates));;
           when (negb (forallb id (isna date)))
             (let df_sorted := sort_rows (map (fun c => (c, tt)) (cells date)) in
              date_gaps ← lift (count_gaps (map fst df_sorted));
              when (0 <? date_gaps) (warnings_append (DateGaps date_gaps))));;
        when (has_col d "Остаток")
          (stock ← lift (getitem d "Остаток");
           negative ← lift (cmp_scalar Float.ltb stock (Float.of_Z 0));
           let negative_stock := count_true negative in
           when (0 <? negative_stock) (warnings_append (NegativeStock negative_stock));;
           let zero_stock_days := count_true (eq_scalar stock (Float.of_Z 0)) in
           let total_days := len d in
           when (Float.gtb (Float.of_Z zero_stock_days)
                           (Float.mul (Float.of_Z total_days) three_tenths))
             (warnings_append (ManyZeroStockDays zero_stock_days total_days))))
       (fun e => errors_append (ValidationFailed Days e));;
     s ← get;
     d ← vdf;
     mret {| valid := is_empty (errors s);
             v_warnings := warnings s;
             v_errors := errors s;
             extra := [("records_count"%string, VInt (len d));
                       ("date_range"%string,
                        if has_col d "Дата" then _get_date_range d "Дата" else VNone)] |})
    d.

(** [(df["Category position avg"] <= n).sum()] *)
Definition count_top (d : DataFrame) (n : Z) : result Z :=
  position ← getitem d "Category position avg";
  mask ← cmp_scalar Float.leb position (Float.of_Z n);
  Ok (count_true mask).

(** [DataValidator._validate_products_data] *)
Definition _validate_products_data (d : DataFrame) : result validation * DataFrame :=
  vcall
    (try_except
       (check_required ["SKU"; "Final price"; "Category position avg"]%string;;
        d ← vdf;
        when (has_col d "SKU")
          (sku ← lift (getitem d "SKU");
           let empty_sku := count_true (isna sku) in
           when (0 <? empty_sku) (warnings_append (EmptySku empty_sku));;
           let duplicate_sku := duplicated_count sku in
           when (0 <? duplicate_sku) (warnings_append (DuplicateSku duplicate_sku)));;
        when (has_col d "Final price")
          (price ← lift (getitem d "Final price");
           let zero_price := count_true (eq_scalar price (Float.of_Z 0)) in
           when (0 <? zero_price) (warnings_append (ZeroPrice zero_price));;
           negative ← lift (cmp_scalar Float.ltb price (Float.of_Z 0));
           let negative_price := count_true negative in
           when (0 <? negative_price) (errors_append (NegativePrice negative_price)));;
        when (has_col d "Search cpm avg")
          (cpm ← lift (getitem d "Search cpm avg");
           with_ads ← lift (cmp_scalar Float.gtb cpm (Float.of_Z 0));
           let ads_products := count_true with_ads in
           let total_products := len d in
           let ads_percentage :=
             Float.mul (Float.div (Float.of_Z ads_products) (Float.of_Z total_products))
                       (Float.of_Z 100) in
           if Float.ltb ads_percentage (Float.of_Z 10)
           then warnings_append (FewAds ads_percentage)
           else if Float.gtb ads_percentage (Float.of_Z 90)
                then warnings_append (TooManyAds ads_percentage)
                else mret tt);;
        when (has_col d "Category position avg")
          (top_10 ← lift (count_top d 10);
           top_100 ← lift (count_top d 100);
           when (top_10 =? 0) (warnings_append NoTop10);;
           when (top_100 <? 10) (warnings_append (FewTop100 top_100))))
       (fun e => errors_append (ValidationFailed Products e));;
     s ← get;
     d ← vdf;
     top_10_count ←
       (if has_col d "Category position avg" then lift (count_top d 10) else mret 0);
     top_100_count ←
       (if has_col d "Category position avg" then lift (count_top d 100) else mret 0);
     mret {| valid := is_empty (errors s);
             v_warnings := warnings s;
             v_errors := errors s;
             extra := [("records_count"%string, VInt (len d));
                       ("top_10_count"%string, VInt top_10_count);
                       ("top_100_count"%string, VInt top_100_count)] |})
    d.

(** [DataValidator._validate_by_type] *)
Definition _validate_by_type (d : DataFrame) (data_type : string)
  : result validation * DataFrame :=
  if String.eqb data_type "trends" then _validate_trends_data d
  else if String.eqb data_type "queries" then _validate_queries_data d
  else if String.eqb data_type "price" then _validate_price_data d
  else if String.eqb data_type "days" then _validate_days_data d
  else if String.eqb data_type "products" then _validate_products_data d
  else (Ok {| valid := true; v_warnings := []; v_errors := []; extra := [] |}, d).

(** [DataValidator.validate_all_data]. The tables are validated one after
    the other; the order in which the dict yields them is not part of the
    model. *)
Definition validate_all_data : SE (gmap string DataFrame) (gmap string validation) :=
  fun loaded_data =>
    foldM
      (fun validation_results data_type =>
         r ← on_table data_type (fun d => _validate_by_type d data_type);
         mret (match r with
               | Some v => <[data_type := v]> validation_results
               | None => validation_results
               end))
      ∅ (map fst (map_to_list loaded_data)) loaded_data.

(** ** components/file_uploader.py and app.py: from upload to scoring *)

(** The entries of [st.session_state] that the flow writes. *)
Record session : Type := {
  loaded_data : gmap string DataFrame;
  validation_results : gmap string validation;
  scoring_results : option results
}.

(** [FileUploader._process_uploaded_files], from the dict returned by the
    file processor on: nothing is stored when the dict is empty or when the
    validation raises. *)
Definition _process_uploaded_files (processed : gmap string DataFrame) (st : session)
  : session :=
  if (size processed =? 0)%nat then st
  else
    match validate_all_data processed with
    | (Ok results, tables) =>
        {| loaded_data := tables;
           validation_results := results;
           scoring_results := scoring_results st |}
    | (Raise _, _) => st
    end.

Section App.
Context {R : Reductions}.

(** [calculate_scoring(st.session_state.loaded_data)] followed by
    [st.session_state.scoring_results = scoring_results]; an exception
    leaves the empty dict, which the dashboard treats as no result. *)
Definition calculate_scoring (st : session) : session :=
  match calculate_total_score (loaded_data st) with
  | (Ok scoring, tables) =>
      {| loaded_data := tables;
         validation_results := validation_results st;
         scoring_results := Some scoring |}
  | (Raise _, tables) =>
      {| loaded_data := tables;
         validation_results := validation_results st;
         scoring_results := None |}
  end.

End App.

(** What the scoring methods leave in the frame they received: the trend
    method sets the columns [Год] and [Месяц_номер] when [Месяц] is a
    datetime column, the stock method sets [Год] and [Месяц] when both
    [Остаток] and [Дата] are present and [Дата] is a datetime column. *)
Definition trend_frame (d : DataFrame) : DataFrame :=
  match columns d !! "Месяц"%string with
  | Some (TimeSeries ts) =>
      setitem (setitem d "Год" (field_values ts_year ts))
              "Месяц_номер" (field_values ts_month ts)
  | _ => d
  end.

Definition stock_frame (d : DataFrame) : DataFrame :=
  if has_col d "Остаток" && has_col d "Дата" then
    match columns d !! "Дата"%string with
    | Some (TimeSeries ts) =>
        setitem (setitem d "Год" (field_values ts_year ts))
                "Месяц" (field_values ts_month ts)
    | _ => d
    end
  else d.

(** A concrete choice of the reductions, summing from left to right, for
    evaluating the model on examples. *)
Definition sequential_sum (xs : list float) : float :=
  fold_left Float.add xs (Float.of_Z 0).

Definition sequential_mean (xs : list float) : float :=
  let present := List.filter (fun x => negb (Float.is_nan x)) xs in
  Float.div (sequential_sum present) (Float.of_Z (Z.of_nat (length present))).

(** [numpy.mean] does not skip NaN. *)
Definition sequential_np_mean (xs : list float) : float :=
  Float.div (sequential_sum xs) (Float.of_Z (Z.of_nat (length xs))).

Definition sequential_std (xs : list float) : float :=
  let present := List.filter (fun x => negb (Float.is_nan x)) xs in
  let mean := sequential_mean xs in
  SFsqrt Float.prec Float.emax
    (Float.div
       (sequential_sum (map (fun x => Float.mul (Float.sub x mean) (Float.sub x mean)) present))
       (Float.of_Z (Z.of_nat (length present) - 1))).

Definition sequential_median (xs : list float) : float :=
  let sorted := sort_keys (List.filter (fun x => negb (Float.is_nan x)) xs) in
  let n := length sorted in
  if Nat.even n
  then Float.div (Float.add (nth (Nat.div n 2 - 1) sorted Float.nan)
                            (nth (Nat.div n 2) sorted Float.nan))
                 (Float.of_Z 2)
  else nth (Nat.div n 2) sorted Float.nan.

Definition sequential_reductions : Reductions := {|
  series_mean := sequential_mean;
  series_std := sequential_std;
  series_median := sequential_median;
  np_mean := sequential_np_mean
|}.

Definition no_error (s : scope) : Prop := analysis s !! "error"%string = None.

(** The two ways a module method can end: with a score in 1..4 and no
    [error] entry in its analysis, or with score 0 and an [error] entry. *)
Definition scored (score : Z) (a : gmap string value) : Prop :=
  1 <= score <= 4 /\ a !! "error"%string = None.

Definition failed (score : Z) (a : gmap string value) : Prop :=
  score = 0 /\ is_Some (a !! "error"%string).

(** None of the five metric columns of the trend method is in the frame. *)
Definition no_metric_column (d : DataFrame) : Prop :=
  Forall (fun metric => has_col d (snd metric) = false) metrics.

(** The third way the trend method can end: score 0 without an [error]
    entry, when no metric column was found. *)
Definition unscored (d : DataFrame) (score : Z) (a : gmap string value) : Prop :=
  score = 0 /\ a !! "error"%string = None /\ no_metric_column d.

(** Invariant of the loop over [metrics]: the scores collected so far
    satisfy [ok], there is at most one per metric visited, and as long as
    there is none every metric visited was absent. *)
Definition trend_loop_inv (ok : Z -> Prop) (d : DataFrame)
  (remaining : list (string * string)) (scores : list Z) (s : scope) : Prop :=
  no_error s /\ frame s = d
  /\ Forall ok scores
  /\ (length scores + length remaining <= 5)%nat
  /\ exists visited,
       metrics = visited ++ remaining
       /\ (scores = [] -> Forall (fun metric => has_col d (snd metric) = false) visited).

(** The tables after [calculate_total_score]. *)
Definition scored_tables (loaded_data : gmap string DataFrame) : gmap string DataFrame :=
  alter stock_frame "days" (alter trend_frame "trends" loaded_data).

(** The result of a module method on the table stored under [key], and
    nothing when the key is absent. *)
Definition module_result
  (method : DataFrame -> result (Z * gmap string value) * DataFrame)
  (loaded_data : gmap string DataFrame) (key : string)
  (r : option (Z * gmap string value)) : Prop :=
  match loaded_data !! key, r with
  | Some d, Some sa => fst (method d) = Ok sa /\ 0 <= fst sa <= 4
  | None, None => True
  | _, _ => False
  end.

(** Example tables. *)
Definition timestamp (year month day_number : Z) : option Timestamp :=
  Some {| ts_year := year; ts_month := month; ts_value := day_number * ns_per_day |}.

(** An integer column, as the floats of its values (exact: the sample
    values are far below 2^53). *)
Definition numbers (l : list Z) : Series := NumSeries (map Float.of_Z l).

(** A trends report of three months of one year, in which the second row has
    more products with sales than products. *)
Definition sample_trends : DataFrame :=
  {| nrows := 3;
     columns :=
       {[ "Месяц"%string :=
            TimeSeries [timestamp 2023 1 19358; timestamp 2023 2 19389; timestamp 2023 3 19417];
          "Продажи"%string := numbers [1200; 1500; 1400];
          "Выручка, ₽"%string := numbers [600000; 800000; 700000];
          "Товары"%string := numbers [100; 110; 120];
          "Товары с продажами"%string := numbers [60; 130; 70];
          "Бренды"%string := numbers [20; 22; 25];
          "Бренды с продажами"%string := numbers [15; 16; 18];
          "Продавцы"%string := numbers [30; 32; 35];
          "Продавцы с продажами"%string := numbers [20; 21; 24];
          "Выручка на товар, ₽"%string := numbers [6000; 7272; 5833];
          "Средний чек, ₽"%string := numbers [500; 533; 500] ]} |}.

(** A products report with one product in the top 10 (price 500, bid 100)
    and a second one in the top 100 (price 100, bid 300): the price-to-bid
    ratio is 5.0 in the top 10 and 300/200 = 1.5 in the top 100. *)
Definition sample_products : DataFrame :=
  {| nrows := 2;
     columns :=
       {[ "SKU"%string := numbers [1000001; 1000002];
          "Name"%string := ObjSeries [Some "A"; Some "B"]%string;
          "Final price"%string := numbers [500; 100];
          "Category position avg"%string := numbers [5; 50];
          "Search cpm avg"%string := numbers [100; 300];
          "Search words in ads"%string := numbers [0; 3] ]} |}.

(** A table with a date column and nothing to score. *)
Definition sample_dates_only : DataFrame :=
  {| nrows := 2;
     columns :=
       {[ "Месяц"%string := TimeSeries [timestamp 2023 1 19358; timestamp 2023 2 19389] ]} |}.

(** A price report without the revenue column, whose second segment has more
    products with sales than products. *)
Definition sample_price_without_revenue : DataFrame :=
  {| nrows := 2;
     columns :=
       {[ "От"%string := numbers [0; 500];
          "До"%string := numbers [500; 1000];
          "Товары"%string := numbers [100; 50];
          "Товары с продажами"%string := numbers [60; 80] ]} |}.

(** The score of a module result and its [error] entry, if any. *)
Definition score_and_error (r : result (Z * gmap string value)) : option (Z * option value) :=
  match r with
  | Ok (score, a) => Some (score, a !! "error"%string)
  | Raise _ => None
  end.

(** The rows of a table span fewer than two distinct years: all the years
    that are not missing are equal. *)
Definition one_year (years : list float) : Prop :=
  forall y1 y2, In y1 years -> In y2 years ->
                Float.is_nan y1 = false -> Float.is_nan y2 = false ->
                Float.eqb y1 y2 = true.

Definition single_year (ts : list (option Timestamp)) : Prop :=
  forall t1 t2, In (Some t1) ts -> In (Some t2) ts -> ts_year t1 = ts_year t2.

(** The message [_calculate_yoy_score] gives when there are fewer than two
    years to compare. *)
Definition not_enough_years : value :=
  VDict [("message"%string, VStr "Недостаточно данных для YoY анализа")].

(** A column is absent or numeric. *)
Definition numeric_if_present (d : DataFrame) (c : string) : Prop :=
  columns d !! c = None \/ exists xs, columns d !! c = Some (NumSeries xs).

(** The sales column is absent, or numeric with a value in every row. *)
Definition sales_complete (d : DataFrame) (rows : nat) : Prop :=
  columns d !! "Продажи"%string = None
  \/ exists xs, columns d !! "Продажи"%string = Some (NumSeries xs)
                /\ length xs = rows
                /\ Forall (fun x => Float.is_nan x = false) xs.

(** The same price report with its revenue column. *)
Definition sample_price : DataFrame :=
  setitem sample_price_without_revenue revenue_col (numbers [6000; 7000]).

(** An upload that holds the sample trends report only. *)
Definition sample_upload : gmap string DataFrame := {[ "trends"%string := sample_trends ]}.

(** The session before anything is uploaded. *)
Definition empty_session : session :=
  {| loaded_data := ∅; validation_results := ∅; scoring_results := None |}.

(** The errors of a validation result. *)
Definition errors_of (r : result validation) : option (list message) :=
  match r with
  | Ok v => Some (v_errors v)
  | Raise _ => None
  end.

(** The two messages about products with sales exceeding products. *)
Definition is_inconsistency (m : message) : bool :=
  match m with
  | MoreSalesThanProducts _ | InconsistentSegments _ => true
  | _ => false
  end.

(** The validator has not touched the frame and has issued no warning about
    the inconsistency. *)
Definition quiet (d : DataFrame) (s : vscope) : Prop :=
  vframe s = d /\ Forall (fun m => is_inconsistency m = false) (warnings s).

(** Some row has more products with sales than products. *)
Definition more_sales_row (with_sales products : list float) : Prop :=
  exists (i : nat) (x y : float),
    with_sales !! i = Some x /\ products !! i = Some y /\ Float.gtb x y = true.

(** ** Specifications of function bodies *)

(** [triple P m Q E]: started in a state satisfying [P], the body [m] either
    returns a value and a state related by [Q] or raises an exception and
    leaves a state related by [E]. *)
Definition triple {S A} (P : S -> Prop) (m : SE S A)
  (Q : A -> S -> Prop) (E : pyexc -> S -> Prop) : Prop :=
  forall s, P s ->
    match m s with
    | (Ok a, s') => Q a s'
    | (Raise e, s') => E e s'
    end.

(** [preserves I m]: the body keeps [I] true, whether it returns or raises. *)
Definition preserves {S A} (I : S -> Prop) (m : SE S A) : Prop :=
  triple I m (fun _ => I) (fun _ => I).

(** * The rest of the flow: closed forms, validators, file processor *)

(** ** The composite score in closed form *)

(** What [calculate_total_score] keeps of a module method: its score and
    analysis on the table of the module, nothing when the table is absent. *)
Definition module_run
  (method : DataFrame -> result (Z * gmap string value) * DataFrame)
  (d : option DataFrame) : option (Z * gmap string value) :=
  match d with
  | Some d => match fst (method d) with Ok sa => Some sa | Raise _ => None end
  | None => None
  end.

(** The dict [calculate_total_score] builds from the five module results. *)
Definition results_of (trends queries price stock ads : option (Z * gmap string value))
  : results :=
  let total :=
    score_of trends + score_of queries + score_of price + score_of stock + score_of ads in
  {| trend_score := score_of trends;
     query_score := score_of queries;
     price_score := score_of price;
     stock_score := score_of stock;
     ads_score := score_of ads;
     total_score := total;
     niche_rating := _get_niche_rating total;
     detailed_analysis :=
       record_analysis "ads" ads
         (record_analysis "stock" stock
            (record_analysis "price" price
               (record_analysis "queries" queries
                  (record_analysis "trends" trends ∅))));
     recommendations :=
       _generate_recommendations total (score_of trends) (score_of queries)
                                 (score_of ads) |}.

Section ClosedForm.
Context {R : Reductions}.

(** The results of [calculate_total_score] as a function of the tables. *)
Definition scoring_of (loaded_data : gmap string DataFrame) : results :=
  results_of (module_run _calculate_trend_score (loaded_data !! "trends"%string))
             (module_run _calculate_query_score (loaded_data !! "queries"%string))
             (module_run _calculate_price_score (loaded_data !! "price"%string))
             (module_run _calculate_stock_score (loaded_data !! "days"%string))
             (module_run _calculate_ads_score (loaded_data !! "products"%string)).

End ClosedForm.

(** What the two date assignments of the trend and stock modules do on a
    column: nothing is raised on a datetime column. *)
Definition time_result (column : option Series) (name : string) : result unit :=
  match column with
  | Some (TimeSeries _) => Ok tt
  | Some _ => Raise (AttributeError "Can only use .dt accessor with datetimelike values")
  | None => Raise (KeyError name)
  end.

(** ** core/data_validator.py: the loop of validate_all_data *)

(** The result of [_validate_by_type] when it returns. *)
Definition validated (d : DataFrame) (data_type : string) : option validation :=
  match fst (_validate_by_type d data_type) with
  | Ok v => Some v
  | Raise _ => None
  end.

(** One turn of the loop of [validate_all_data]. *)
Definition validate_step (validation_results : gmap string validation) (data_type : string)
  : SE (gmap string DataFrame) (gmap string validation) :=
  r ← on_table data_type (fun d => _validate_by_type d data_type);
  mret (match r with
        | Some v => <[data_type := v]> validation_results
        | None => validation_results
        end).

(** ** What each validator checks and files *)

(** The required columns each validator checks first. *)
Definition required_columns (kind : report_kind) : list string :=
  match kind with
  | Trends => trends_fields
  | Queries => ["Ключевое слово"; "Частота WB"; "Товаров в запросе"]%string
  | Price => ["От"; "До"; revenue_col]%string
  | Days => ["Дата"; "Остаток"]%string
  | Products => ["SKU"; "Final price"; "Category position avg"]%string
  end.

(** The validator [_validate_by_type] calls for each report. *)
Definition validator_of (kind : report_kind) : DataFrame -> result validation * DataFrame :=
  match kind with
  | Trends => _validate_trends_data
  | Queries => _validate_queries_data
  | Price => _validate_price_data
  | Days => _validate_days_data
  | Products => _validate_products_data
  end.

(** Equality of report types. *)
Definition same_kind (a b : report_kind) : bool :=
  match a, b with
  | Trends, Trends | Queries, Queries | Price, Price | Days, Days | Products, Products => true
  | _, _ => false
  end.

(** The messages each validator files under [errors], the missing-columns
    message apart, and those it files under [warnings]. *)
Definition reports_error (kind : report_kind) (m : message) : bool :=
  match m with
  | ValidationFailed kind' _ => same_kind kind kind'
  | MoreSalesThanProducts _ => same_kind kind Trends
  | NegativeFrequency _ => same_kind kind Queries
  | NonNumericFrom _ | NonNumericTo _ | InvalidRanges _ | NegativeRevenue _
  | InconsistentSegments _ => same_kind kind Price
  | NegativePrice _ => same_kind kind Products
  | _ => false
  end.

Definition reports_warning (kind : report_kind) (m : message) : bool :=
  match m with
  | InvalidDates _ => same_kind kind Trends || same_kind kind Days
  | PeriodUnderMonth | PeriodOverThreeYears | NegativeValues _ _ | MostlyZero _ =>
      same_kind kind Trends
  | EmptyKeywords _ | DuplicateKeywords _ | ZeroFrequency _ | QueriesWithoutProducts _
  | NoEffectiveQueries | FewEffectiveQueries _ => same_kind kind Queries
  | OverlappingRanges _ | ZeroRevenue _ => same_kind kind Price
  | DateGaps _ | NegativeStock _ | ManyZeroStockDays _ _ => same_kind kind Days
  | EmptySku _ | DuplicateSku _ | ZeroPrice _ | FewAds _ | TooManyAds _ | NoTop10
  | FewTop100 _ => same_kind kind Products
  | _ => false
  end.

Definition is_missing_columns (m : message) : bool :=
  match m with MissingColumns _ => true | _ => false end.

(** The verdict built from the two lists when a validator returns. *)
Definition verdict_of (s : vscope) (v : validation) : Prop :=
  v_errors v = errors s /\ v_warnings v = warnings s /\ valid v = is_empty (errors s).

(** The report type behind a key of [_validate_by_type]. *)
Definition report_kind_of (data_type : string) : option report_kind :=
  if String.eqb data_type "trends" then Some Trends
  else if String.eqb data_type "queries" then Some Queries
  else if String.eqb data_type "price" then Some Price
  else if String.eqb data_type "days" then Some Days
  else if String.eqb data_type "products" then Some Products
  else None.

(** ** core/data_validator.py: the summary *)

(** The dict returned by [DataValidator.get_validation_summary]. *)
Record summary : Type := {
  total_files : Z;
  valid_files : Z;
  total_errors : Z;
  total_warnings : Z;
  files_with_errors : list string;
  overall_valid : bool
}.

(** [sum(len(f(result)) for result in results)] *)
Definition total_length {A} (f : validation -> list A) (results : list (string * validation))
  : Z :=
  fold_right Z.add 0 (map (fun item => Z.of_nat (length (f (snd item)))) results).

(** [DataValidator.get_validation_summary] on [self.validation_results],
    the dict [validate_all_data] stores when it returns; every result the
    validators build has the keys [valid], [errors] and [warnings], so the
    defaults of [result.get] are never used. *)
Definition get_validation_summary (validation_results : gmap string validation) : summary :=
  let items := map_to_list validation_results in
  let total_errors := total_length v_errors items in
  let total_warnings := total_length v_warnings items in
  {| total_files := Z.of_nat (length items);
     valid_files := Z.of_nat (length (List.filter (fun item => valid (snd item)) items));
     total_errors := total_errors;
     total_warnings := total_warnings;
     files_with_errors :=
       map fst (List.filter (fun item => negb (valid (snd item))) items);
     overall_valid := total_errors =? 0 |}.

(** ** core/file_processor.py: the per-report processing *)

(** [pd.to_datetime(s, errors='coerce')] and [pd.to_numeric(s, errors='coerce')]:
    the parsing is the library's own and is taken as given. *)
Class Conversions : Type := {
  to_datetime : Series -> result (list (option Timestamp));
  to_numeric : Series -> result (list float)
}.

(** [t.dayofweek] (Monday is 0); the epoch was a Thursday. *)
Definition ts_dayofweek (t : Timestamp) : Z := (ts_value t / ns_per_day + 3) mod 7.

(** [s.replace(0, 1)] *)
Definition replace_zero_with_one (s : Series) : Series :=
  match s with
  | NumSeries xs =>
      NumSeries (map (fun x => if Float.eqb x (Float.of_Z 0) then Float.of_Z 1 else x) xs)
  | _ => s
  end.

(** [a / b] on two columns of one frame. *)
Definition series_truediv (a b : Series) : result Series :=
  match a, b with
  | NumSeries xs, NumSeries ys => Ok (NumSeries (zip_with Float.div xs ys))
  | _, _ => Raise (TypeError "unsupported operand type(s) for /")
  end.

(** [s.fillna(0)] on a numeric column. *)
Definition fillna_zero (s : Series) : Series :=
  match s with
  | NumSeries xs => NumSeries (map (fun x => if Float.is_nan x then Float.of_Z 0 else x) xs)
  | _ => s
  end.

Section FileProcessor.
Context {C : Conversions}.

(** [for col in cols: if col in df.columns: df[col] = pd.to_numeric(df[col], errors='coerce')]
    on a frame local to the function. *)
Fixpoint convert_columns (cols : list string) (d : DataFrame) : result DataFrame :=
  match cols with
  | [] => Ok d
  | col :: cols =>
      if has_col d col then
        s ← getitem d col;
        xs ← to_numeric s;
        convert_columns cols (setitem d col (NumSeries xs))
      else convert_columns cols d
  end.

(** [for col in cols: if col in df.columns: df[col] = df[col].fillna(0)] *)
Fixpoint fill_columns (cols : list string) (d : DataFrame) : result DataFrame :=
  match cols with
  | [] => Ok d
  | col :: cols =>
      if has_col d col then
        s ← getitem d col;
        fill_columns cols (setitem d col (fillna_zero s))
      else fill_columns cols d
  end.

(** What a processing function hands back: the processed frame or [None],
    and the frame it was given as the function leaves it. *)
Definition processed (body : SE DataFrame (option DataFrame)) (df : DataFrame)
  : option DataFrame * DataFrame :=
  match try_except body (fun _ => mret None) df with
  | (Ok r, d) => (r, d)
  | (Raise _, d) => (None, d)
  end.

(** [FileProcessor._process_trends_data]: the three assignments are made on
    the frame received, [dropna] returns a new one. *)
Definition _process_trends_data : DataFrame -> option DataFrame * DataFrame :=
  processed
    (d ← get;
     if negb (forallb (has_col d) ["Месяц"; "Продажи"; "Выручка, ₽"]%string) then mret None
     else
       month ← lift (getitem d "Месяц");
       parsed ← lift (to_datetime month);
       modify (fun d => setitem d "Месяц" (TimeSeries parsed));;
       d ← get;
       month ← lift (getitem d "Месяц");
       year ← lift (dt_field ts_year month);
       modify (fun d => setitem d "Год" year);;
       d ← get;
       month ← lift (getitem d "Месяц");
       month_number ← lift (dt_field ts_month month);
       modify (fun d => setitem d "Месяц_номер" month_number);;
       d ← get;
       d ← lift (dropna d ["Месяц"]%string);
       mret (Some d)).

(** [FileProcessor._process_queries_data]: [dropna] comes first, so every
    assignment is made on the new frame. *)
Definition _process_queries_data : DataFrame -> option DataFrame * DataFrame :=
  processed
    (d ← get;
     let required_cols := ["Ключевое слово"; "Частота WB"; "Товаров в запросе"]%string in
     if negb (forallb (has_col d) required_cols) then mret None
     else
       lift (d ← dropna d required_cols;
             frequency ← getitem d "Частота WB";
             frequency ← to_numeric frequency;
             let d := setitem d "Частота WB" (NumSeries frequency) in
             in_query ← getitem d "Товаров в запросе";
             in_query ← to_numeric in_query;
             let d := setitem d "Товаров в запросе" (NumSeries in_query) in
             frequency ← getitem d "Частота WB";
             in_query ← getitem d "Товаров в запросе";
             ratio ← series_truediv frequency (replace_zero_with_one in_query);
             Ok (Some (setitem d query_ratio_col ratio)))).

(** [FileProcessor._process_days_data] *)
Definition _process_days_data : DataFrame -> option DataFrame * DataFrame :=
  processed
    (d ← get;
     if negb (has_col d "Дата") then mret None
     else
       date ← lift (getitem d "Дата");
       parsed ← lift (to_datetime date);
       modify (fun d => setitem d "Дата" (TimeSeries parsed));;
       d ← get;
       date ← lift (getitem d "Дата");
       year ← lift (dt_field ts_year date);
       modify (fun d => setitem d "Год" year);;
       d ← get;
       date ← lift (getitem d "Дата");
       month ← lift (dt_field ts_month date);
       modify (fun d => setitem d "Месяц" month);;
       d ← get;
       date ← lift (getitem d "Дата");
       day_of_week ← lift (dt_field ts_dayofweek date);
       modify (fun d => setitem d "День_недели" day_of_week);;
       d ← get;
       lift (d ← dropna d ["Дата"]%string;
             d ← convert_columns
                   ["Товары"; "Товары с продажами"; "Продажи, шт."; "Выручка, ₽"; "Остаток"]%string
                   d;
             Ok (Some d))).

(** [FileProcessor._process_products_data]; when [fillna] is reached the two
    advertising columns have been converted to numbers by the loop before. *)
Definition _process_products_data : DataFrame -> option DataFrame * DataFrame :=
  processed
    (d ← get;
     if negb (forallb (has_col d) ["SKU"; "Name"; "Final price"]%string) then mret None
     else
       lift (d ← dropna d ["SKU"]%string;
             d ← convert_columns
                   ["Final price"; "Sales"; "Revenue"; "Category position avg";
                    "Search cpm avg"; "Search words in ads";
                    "Search organic position avg"]%string
                   d;
             d ← fill_columns ["Search words in ads"; "Search cpm avg"]%string d;
             Ok (Some d))).

End FileProcessor.

(** ** Frames that agree on the columns a validator reads *)

(** Two frames with the same number of rows and the same columns under the
    given names. *)
Definition same_view (names : list string) (d1 d2 : DataFrame) : Prop :=
  nrows d1 = nrows d2 /\ forall c, In c names -> columns d1 !! c = columns d2 !! c.

(** Two runs of a validator body that differ at most in the columns of the
    frame outside [names] return the same value and file the same
    messages. *)
Definition related (names : list string) (s1 s2 : vscope) : Prop :=
  same_view names (vframe s1) (vframe s2)
  /\ warnings s1 = warnings s2 /\ errors s1 = errors s2.

Definition sim {A} (names : list string) (m1 m2 : V A) : Prop :=
  forall s1 s2, related names s1 s2 ->
    fst (m1 s1) = fst (m2 s2) /\ related names (snd (m1 s1)) (snd (m2 s2)).

(** ** components/file_uploader.py: the structure check *)

(** The [required_columns] entries of [FileUploader.get_upload_requirements]. *)
Definition get_upload_requirements : list (string * list string) :=
  [ ("trends", ["Месяц"; "Продажи"; "Выручка, ₽"; "Товары"; "Бренды"]);
    ("queries", ["Ключевое слово"; "Частота WB"; "Товаров в запросе"]);
    ("price", ["От"; "До"; "Выручка на товар, ₽"; "Товары"; "Продавцы"]);
    ("days", ["Дата"; "Остаток"; "Продажи, шт."; "Выручка, ₽"]);
    ("products", ["SKU"; "Final price"; "Category position avg"; "Search cmp avg"])
  ]%string.

(** [requirements[file_type]] *)
Fixpoint requirements_get (requirements : list (string * list string)) (file_type : string)
  : option (list string) :=
  match requirements with
  | [] => None
  | (k, required_columns) :: rest =>
      if String.eqb file_type k then Some required_columns
      else requirements_get rest file_type
  end.

(** The two messages of [validate_file_structure]. *)
Inductive structure_message : Type :=
  | UnknownFileType (file_type : string)
  | StructureMissingColumns (missing_columns : list string).

(** [FileUploader.validate_file_structure] *)
Definition validate_file_structure (file_type : string) (data : DataFrame)
  : bool * list structure_message :=
  match requirements_get get_upload_requirements file_type with
  | None => (false, [UnknownFileType file_type])
  | Some required_columns =>
      let missing := missing_columns data required_columns in
      if negb (is_empty missing) then (false, [StructureMissingColumns missing])
      else (true, [])
  end.

(** ** core/file_processor.py: the report type of a file name *)

(** [FILE_PATTERNS] of config.py, in the order of the dict. *)
Definition FILE_PATTERNS : list (string * list string) :=
  [ ("trends", ["тренд"; "trend"]);
    ("queries", ["запрос"; "queries"; "запросы"]);
    ("price", ["ценов"; "price"; "сегментац"]);
    ("days", ["дням"; "days"; "день"]);
    ("products", [".csv"]) ]%string.

(** [pattern in s].  The strings are the UTF-8 encodings of the Python
    strings; one well-formed encoding occurs in another exactly where the
    text does. *)
Fixpoint contains (pattern s : string) : bool :=
  String.prefix pattern s
  || match s with
     | EmptyString => false
     | String _ rest => contains pattern rest
     end.

Section DetectFileType.
(** [str.lower], taken as given. *)
Variable lower : string -> string.

(** The two nested loops of [detect_file_type] over the given patterns. *)
Fixpoint first_file_type (patterns : list (string * list string)) (filename_lower : string)
  : option string :=
  match patterns with
  | [] => None
  | (file_type, patterns_of_type) :: rest =>
      if existsb (fun pattern => contains pattern filename_lower) patterns_of_type
      then Some file_type
      else first_file_type rest filename_lower
  end.

(** [FileProcessor.detect_file_type] *)
Definition detect_file_type (filename : string) : option string :=
  let filename_lower := lower filename in
  first_file_type FILE_PATTERNS filename_lower.

End DetectFileType.

(** ** More sample reports *)

(** Conversions for examples whose date and number columns are typed
    already: such a column is handed back as it is. *)
Definition typed_conversions : Conversions := {|
  to_datetime s :=
    match s with
    | TimeSeries ts => Ok ts
    | _ => Raise (TypeError "to_datetime")
    end;
  to_numeric s :=
    match s with
    | NumSeries xs => Ok xs
    | _ => Raise (TypeError "to_numeric")
    end
|}.

(** A queries report as uploaded: two queries, the first with ten times as
    many searches as products. *)
Definition sample_queries_upload : DataFrame :=
  {| nrows := 2;
     columns :=
       {[ "Ключевое слово"%string := ObjSeries [Some "a"; Some "b"]%string;
          "Частота WB"%string := numbers [1000; 100];
          "Товаров в запросе"%string := numbers [100; 100] ]} |}.

(** The same report with its ratio column. *)
Definition sample_queries : DataFrame :=
  setitem sample_queries_upload query_ratio_col (numbers [10; 1]).

(** The same report with a ratio column that holds text. *)
Definition sample_queries_text_ratio : DataFrame :=
  setitem sample_queries_upload query_ratio_col (ObjSeries [Some "10"; Some "1"]%string).

(** The sample trends report as the file processor returns it. *)
Definition sample_trends_processed : DataFrame :=
  default sample_trends (fst (@_process_trends_data typed_conversions sample_trends)).

(** The sample queries report as the file processor returns it. *)
Definition sample_queries_processed : DataFrame :=
  default sample_queries_upload
    (fst (@_process_queries_data typed_conversions sample_queries_upload)).

(** The sample trends report with a brands column that holds text: one
    year of data, every metric column present. *)
Definition sample_trends_text_brands : DataFrame :=
  setitem sample_trends "Бренды"
    (ObjSeries [Some "20 шт"; Some "22 шт"; Some "25 шт"]%string).

(** The sample trends report with a sales column that holds no value. *)
Definition sample_trends_without_sales_values : DataFrame :=
  setitem sample_trends "Продажи" (NumSeries [Float.nan; Float.nan; Float.nan]).

(** * Properties *)

(** ** Comparison of floats *)

Ltac compare_cases :=
  repeat match goal with
  | H : context [Z.compare ?a ?b] |- _ => destruct (Z.compare_spec a b); simpl in H
  | |- context [Z.compare ?a ?b] => destruct (Z.compare_spec a b); simpl
  | H : context [Pos.compare_cont Eq ?a ?b] |- _ =>
      change (Pos.compare_cont Eq a b) with (Pos.compare a b) in H;
      destruct (Pos.compare_spec a b); simpl in H
  | |- context [Pos.compare_cont Eq ?a ?b] =>
      change (Pos.compare_cont Eq a b) with (Pos.compare a b);
      destruct (Pos.compare_spec a b); simpl
  end.

(** [t <= r1] and [r1 <= r2] give [t <= r2]: the order of [SFcompare] is
    lexicographic on sign, exponent and mantissa. *)
Lemma geb_leb_trans (t r1 r2 : float) :
  Float.geb r1 t = true -> Float.leb r1 r2 = true -> Float.geb r2 t = true.
Proof.
  unfold Float.geb, Float.leb, SFleb, SFcompare.
  destruct t as [st | st | | st mt et], r1 as [s1 | s1 | | s1 m1 e1],
    r2 as [s2 | s2 | | s2 m2 e2];
    repeat match goal with s : bool |- _ => destruct s end;
    simpl; intros H1 H2; try discriminate; try reflexivity;
    compare_cases; subst; try discriminate; try reflexivity; try lia.
Qed.

(** A chain of [>=] tests against descending thresholds can only move to an
    earlier branch when the argument grows. *)
Lemma geb_mono (t r1 r2 : float) :
  Float.leb r1 r2 = true -> Float.geb r1 t = true -> Float.geb r2 t = true.
Proof. intros Hle Hge. exact (geb_leb_trans t r1 r2 Hge Hle). Qed.

Ltac bucket_mono Hle :=
  repeat match goal with
  | |- context [Float.geb ?r ?t] =>
      let E := fresh "E" in
      destruct (Float.geb r t) eqn:E;
      try (match goal with
           | E1 : Float.geb ?r1 t = true, E2 : Float.geb ?r2 t = false |- _ =>
               rewrite (geb_mono t r1 r2 Hle E1) in E2; discriminate
           end)
  end; simpl; try lia.

Lemma _get_ratio_score_range (r : float) : 0 <= _get_ratio_score r <= 4.
Proof. unfold _get_ratio_score. repeat case (Float.geb r _); lia. Qed.

Lemma query_efficiency_score_range (r : float) : 1 <= query_efficiency_score r <= 4.
Proof. unfold query_efficiency_score. repeat case (Float.geb r _); lia. Qed.

Lemma yoy_change_score_range (r : float) : 1 <= yoy_change_score r <= 4.
Proof. unfold yoy_change_score, yoy_bucket. repeat case (Float.geb r _); simpl; lia. Qed.

Lemma price_bucket_range (n : Z) : 1 <= price_bucket n <= 4.
Proof. unfold price_bucket. repeat case (_ <=? _); lia. Qed.

Lemma stock_bucket_range (cv zero : float) : 1 <= stock_bucket cv zero <= 4.
Proof. unfold stock_bucket. repeat case (_ && _); lia. Qed.

(** [r1 <= r2] and [r2 < t] give [r1 < t]. *)
Lemma ltb_leb_trans (t r1 r2 : float) :
  Float.leb r1 r2 = true -> Float.ltb r2 t = true -> Float.ltb r1 t = true.
Proof.
  unfold Float.ltb, Float.leb, SFltb, SFleb, SFcompare.
  destruct t as [st | st | | st mt et], r1 as [s1 | s1 | | s1 m1 e1],
    r2 as [s2 | s2 | | s2 m2 e2];
    repeat match goal with s : bool |- _ => destruct s end;
    simpl; intros H1 H2; try discriminate; try reflexivity;
    compare_cases; subst; try discriminate; try reflexivity; try lia.
Qed.

(** A test [cv_stock < t and zero_stock_ratio < u] that passes keeps passing
    when the two ratios get smaller. *)
Lemma stock_test_anti (t u r1 r2 z1 z2 : float) :
  Float.leb r1 r2 = true -> Float.leb z1 z2 = true ->
  Float.ltb r2 t && Float.ltb z2 u = true -> Float.ltb r1 t && Float.ltb z1 u = true.
Proof.
  intros Hr Hz H. apply andb_prop in H. destruct H as [H1 H2].
  now rewrite (ltb_leb_trans t r1 r2 Hr H1), (ltb_leb_trans u z1 z2 Hz H2).
Qed.

(** The stock chain tests [<] against ascending thresholds: its score can
    only go down when a ratio grows. *)
Lemma stock_bucket_antitone (r1 r2 z1 z2 : float) :
  Float.leb r1 r2 = true -> Float.leb z1 z2 = true ->
  stock_bucket r2 z2 <= stock_bucket r1 z1.
Proof.
  intros Hr Hz. unfold stock_bucket.
  repeat match goal with
         | |- context [Float.ltb r2 ?t && Float.ltb z2 ?u] =>
             let E := fresh "E" in
             destruct (Float.ltb r2 t && Float.ltb z2 u) eqn:E;
             [rewrite (stock_test_anti t u r1 r2 z1 z2 Hr Hz E) |]
         end;
    repeat match goal with
           | |- context [Float.ltb r1 ?t && Float.ltb z1 ?u] =>
               destruct (Float.ltb r1 t && Float.ltb z1 u)
           end; lia.
Qed.

Lemma price_bucket_monotone (n1 n2 : Z) : n1 <= n2 -> price_bucket n1 <= price_bucket n2.
Proof.
  intros H. unfold price_bucket.
  repeat match goal with
         | |- context [?a <=? ?b] => destruct (Z.leb_spec a b)
         end; lia.
Qed.

(** C6, as the code has it. The five threshold-to-bucket chains of the
    scoring engine return a value in 0..4 for every argument, NaN and the
    infinities included: the price-to-bid ratio score of the ads module is in
    0..4, the effective-query score, the year-over-year score, the price
    score and the stock score are in 1..4.  Four of them are monotonically
    non-decreasing: the ads, query and year-over-year scores in their ratio
    (whenever [r1 <= r2] holds as a float comparison) and the price score in
    its count of segments.  The stock score is monotonically non-increasing
    in each of its two ratios, the coefficient of variation and the share of
    days without stock: it tests [<] against ascending thresholds. *)
Theorem threshold_scores_bounded_and_monotone
  (r r1 r2 z z1 z2 : float) (n n1 n2 : Z) :
  Float.leb r1 r2 = true -> Float.leb z1 z2 = true -> n1 <= n2 ->
  (0 <= _get_ratio_score r <= 4
   /\ 1 <= query_efficiency_score r <= 4
   /\ 1 <= yoy_change_score r <= 4
   /\ 1 <= price_bucket n <= 4
   /\ 1 <= stock_bucket r z <= 4)
  /\ (_get_ratio_score r1 <= _get_ratio_score r2
      /\ query_efficiency_score r1 <= query_efficiency_score r2
      /\ yoy_change_score r1 <= yoy_change_score r2
      /\ price_bucket n1 <= price_bucket n2)
  /\ stock_bucket r2 z2 <= stock_bucket r1 z1.
Proof.
  intros Hle Hz Hn. split; [| split].
  - pose proof (_get_ratio_score_range r).
    pose proof (query_efficiency_score_range r).
    pose proof (yoy_change_score_range r).
    pose proof (price_bucket_range n).
    pose proof (stock_bucket_range r z). lia.
  - split; [| split; [| split]]; [| | | apply price_bucket_monotone, Hn];
      unfold _get_ratio_score, query_efficiency_score, yoy_change_score, yoy_bucket;
      bucket_mono Hle.
  - apply stock_bucket_antitone; assumption.
Qed.

Lemma threshold_scores_witness :
  (Float.leb (Float.of_Z 1) (Float.of_Z 5) = true
   /\ Float.leb (Float.of_Z 0) (Float.of_Z 15) = true
   /\ 1 <= 3)
  /\ _get_ratio_score (Float.of_Z 1) <= _get_ratio_score (Float.of_Z 5)
  /\ stock_bucket (Float.of_Z 5) (Float.of_Z 15) <= stock_bucket (Float.of_Z 1) (Float.of_Z 0).
Proof.
  split; [split; [reflexivity | split; [reflexivity | lia]] |].
  destruct (threshold_scores_bounded_and_monotone
              S754_nan (Float.of_Z 1) (Float.of_Z 5)
              (Float.of_Z 0) (Float.of_Z 0) (Float.of_Z 15) 0 1 3)
    as (_ & (H & _) & Hstock); [reflexivity | reflexivity | lia |].
  split; [exact H | exact Hstock].
Defined.

(** C6 as worded fails on the stock chain: a coefficient of variation of 0.1
    is below one of 0.8, and with no day without stock the first scores 4
    and the second 1. *)
Lemma stock_score_decreases_in_its_ratios :
  let low := Float.div (Float.of_Z 1) (Float.of_Z 10) in
  let high := Float.div (Float.of_Z 8) (Float.of_Z 10) in
  Float.leb low high = true
  /\ stock_bucket low (Float.of_Z 0) = 4
  /\ stock_bucket high (Float.of_Z 0) = 1
  /\ ~ stock_bucket low (Float.of_Z 0) <= stock_bucket high (Float.of_Z 0).
Proof.
  cbv zeta. repeat (split; [vm_compute; reflexivity |]).
  vm_compute. intros H. apply H. reflexivity.
Qed.

(** ** Niche rating *)

(** C4. The rating lookup is total and its ranges do not overlap: a
    composite score in 1..5 is rated poor, 6..10 average, 11..15 good and
    16..20 excellent, each such score lying in exactly one range of the
    table; a score outside every range (0, or anything below 1 or above 20)
    lies in no range and gets the fallback rating poor. *)
Theorem niche_rating_total_and_disjoint (s t : Z) :
  0 <= s <= 20 -> (t < 1 \/ 20 < t) ->
  (_get_niche_rating s = "poor"%string <-> 0 <= s <= 5)
  /\ (_get_niche_rating s = "average"%string <-> 6 <= s <= 10)
  /\ (_get_niche_rating s = "good"%string <-> 11 <= s <= 15)
  /\ (_get_niche_rating s = "excellent"%string <-> 16 <= s <= 20)
  /\ (1 <= s -> matching_ratings s = [_get_niche_rating s])
  /\ matching_ratings 0 = []
  /\ matching_ratings t = []
  /\ _get_niche_rating t = "poor"%string.
Proof.
  intros Hs Ht.
  assert (Hout : matching_ratings t = [] /\ _get_niche_rating t = "poor"%string).
  { unfold matching_ratings, _get_niche_rating, TOTAL_SCORE_RANGES; simpl.
    repeat match goal with
           | |- context [Z.leb ?a ?b] => destruct (Z.leb_spec a b); simpl; try lia
           end; auto. }
  assert (Hcases : s = 0 \/ s = 1 \/ s = 2 \/ s = 3 \/ s = 4 \/ s = 5 \/ s = 6 \/ s = 7
                   \/ s = 8 \/ s = 9 \/ s = 10 \/ s = 11 \/ s = 12 \/ s = 13 \/ s = 14
                   \/ s = 15 \/ s = 16 \/ s = 17 \/ s = 18 \/ s = 19 \/ s = 20) by lia.
  destruct Hout as [Hm Hr].
  repeat destruct Hcases as [-> | Hcases]; try subst s;
    (repeat split; try exact Hm; try exact Hr; try reflexivity;
     try (intros; lia); try (intros; discriminate)).
Qed.

Lemma niche_rating_witness :
  0 <= 12 <= 20 /\ (0 < 1 \/ 20 < 0)
  /\ matching_ratings 12 = [_get_niche_rating 12]
  /\ _get_niche_rating 0 = "poor"%string.
Proof.
  assert (H1 : 0 <= 12 <= 20) by lia.
  assert (H2 : 0 < 1 \/ 20 < 0) by (left; lia).
  pose proof (niche_rating_total_and_disjoint 12 0 H1 H2) as H.
  split; [exact H1 |]. split; [exact H2 |].
  split; [apply H; lia | apply H].
Defined.

(** ** Reasoning about function bodies *)

Section Triples.
Context {S : Type}.
Implicit Types (P I : S -> Prop) (E : pyexc -> S -> Prop).

Lemma triple_ret {A} P (a : A) (Q : A -> S -> Prop) E :
  (forall s, P s -> Q a s) -> triple P (mret a) Q E.
Proof. intros H s Hs. simpl. auto. Qed.

Lemma triple_bind {A B} P (m : SE S A) (f : A -> SE S B) (Q1 : A -> S -> Prop)
  (Q : B -> S -> Prop) E :
  triple P m Q1 E -> (forall a, triple (Q1 a) (f a) Q E) -> triple P (m ≫= f) Q E.
Proof.
  intros Hm Hf s Hs. unfold mbind, SE_bind. specialize (Hm s Hs).
  destruct (m s) as [[a | e] s']; [apply Hf, Hm | exact Hm].
Qed.

Lemma triple_conseq {A} P P' (m : SE S A) (Q Q' : A -> S -> Prop) E E' :
  triple P' m Q' E' ->
  (forall s, P s -> P' s) ->
  (forall a s, Q' a s -> Q a s) ->
  (forall e s, E' e s -> E e s) ->
  triple P m Q E.
Proof.
  intros Hm HP HQ HE s Hs. specialize (Hm s (HP s Hs)).
  destruct (m s) as [[a | e] s']; auto.
Qed.

Lemma triple_lift {A} P (r : result A) (Q : A -> S -> Prop) E :
  (forall s, P s -> match r with Ok a => Q a s | Raise e => E e s end) ->
  triple P (lift r) Q E.
Proof. intros H s Hs. unfold lift. specialize (H s Hs). destruct r; auto. Qed.

Lemma triple_get P (Q : S -> S -> Prop) E :
  (forall s, P s -> Q s s) -> triple P get Q E.
Proof. intros H s Hs. simpl. auto. Qed.

Lemma triple_modify P (f : S -> S) (Q : unit -> S -> Prop) E :
  (forall s, P s -> Q tt (f s)) -> triple P (modify f) Q E.
Proof. intros H s Hs. simpl. auto. Qed.

Lemma triple_try {A} P (body : SE S A) (handler : pyexc -> SE S A)
  (Q : A -> S -> Prop) (E1 E : pyexc -> S -> Prop) :
  triple P body Q E1 ->
  (forall e, triple (E1 e) (handler e) Q E) ->
  triple P (try_except body handler) Q E.
Proof.
  intros Hb Hh s Hs. unfold try_except. specialize (Hb s Hs).
  destruct (body s) as [[a | e] s']; [exact Hb | apply Hh, Hb].
Qed.

Lemma triple_if {A} P (b : bool) (m1 m2 : SE S A) (Q : A -> S -> Prop) E :
  (b = true -> triple P m1 Q E) -> (b = false -> triple P m2 Q E) ->
  triple P (if b then m1 else m2) Q E.
Proof. destruct b; auto. Qed.

Lemma triple_when P (b : bool) (m : SE S unit) (Q : unit -> S -> Prop) E :
  (b = true -> triple P m Q E) -> (b = false -> forall s, P s -> Q tt s) ->
  triple P (when b m) Q E.
Proof. destruct b; simpl; auto. intros _ H. apply triple_ret. auto. Qed.

(** A loop with an invariant indexed by the elements still to be visited. *)
Lemma triple_foldM {A B} (f : A -> B -> SE S A) (I : list B -> A -> S -> Prop) E
  (l : list B) (acc : A) :
  (forall acc b l', triple (I (b :: l') acc) (f acc b) (I l') E) ->
  triple (I l acc) (foldM f acc l) (I []) E.
Proof.
  intros Hf. revert acc. induction l as [| b l IH]; intros acc; simpl.
  - apply triple_ret. auto.
  - eapply triple_bind; [apply Hf | intros acc'; apply IH].
Qed.

Lemma preserves_ret {A} I (a : A) : preserves I (mret a).
Proof. apply triple_ret. auto. Qed.

Lemma preserves_bind {A B} I (m : SE S A) (f : A -> SE S B) :
  preserves I m -> (forall a, preserves I (f a)) -> preserves I (m ≫= f).
Proof. intros Hm Hf. eapply triple_bind; [exact Hm | exact Hf]. Qed.

Lemma preserves_lift {A} I (r : result A) : preserves I (lift r).
Proof. apply triple_lift. destruct r; auto. Qed.

Lemma preserves_get I : preserves I get.
Proof. apply triple_get. auto. Qed.

Lemma preserves_modify I (f : S -> S) :
  (forall s, I s -> I (f s)) -> preserves I (modify f).
Proof. intros H. apply triple_modify. auto. Qed.

Lemma preserves_try {A} I (body : SE S A) handler :
  preserves I body -> (forall e, preserves I (handler e)) ->
  preserves I (try_except body handler).
Proof. intros Hb Hh. eapply triple_try; [exact Hb | exact Hh]. Qed.

Lemma preserves_if {A} I (b : bool) (m1 m2 : SE S A) :
  preserves I m1 -> preserves I m2 -> preserves I (if b then m1 else m2).
Proof. destruct b; auto. Qed.

Lemma preserves_when I (b : bool) (m : SE S unit) :
  preserves I m -> preserves I (when b m).
Proof. destruct b; simpl; auto. intros _. apply preserves_ret. Qed.

Lemma preserves_for_each {A} I (f : A -> SE S unit) (l : list A) :
  (forall a, preserves I (f a)) -> preserves I (for_each f l).
Proof.
  intros Hf. induction l as [| a l IH]; simpl.
  - apply preserves_ret.
  - apply preserves_bind; [apply Hf | intros _; exact IH].
Qed.

Lemma preserves_foldM {A B} I (f : A -> B -> SE S A) (l : list B) (acc : A) :
  (forall acc b, preserves I (f acc b)) -> preserves I (foldM f acc l).
Proof.
  intros Hf. revert acc. induction l as [| b l IH]; intros acc; simpl.
  - apply preserves_ret.
  - apply preserves_bind; [apply Hf | intros acc'; apply IH].
Qed.

End Triples.

Lemma preserves_vdf (I : vscope -> Prop) : preserves I vdf.
Proof. intros s Hs. exact Hs. Qed.

Lemma preserves_df (I : scope -> Prop) : preserves I df.
Proof. intros s Hs. exact Hs. Qed.

(** One step through a body whose statements all keep the invariant. *)
Ltac preserves_step :=
  lazymatch goal with
  | |- preserves _ (mret _) => apply preserves_ret
  | |- preserves _ (lift _) => apply preserves_lift
  | |- preserves _ get => apply preserves_get
  | |- preserves _ vdf => apply preserves_vdf
  | |- preserves _ df => apply preserves_df
  | |- preserves _ (_ ≫= _) => apply preserves_bind; [| intros ?]
  | |- preserves _ (try_except _ _) => apply preserves_try; [| intros ?]
  | |- preserves _ (when _ _) => apply preserves_when
  | |- preserves _ (for_each _ _) => apply preserves_for_each; intros ?
  | |- preserves _ (foldM _ _ _) => apply preserves_foldM; intros ? ?
  | |- preserves _ (modify _) =>
      apply preserves_modify; intros ? ?; unfold no_error in *; simpl;
      first [ solve [auto]
            | rewrite lookup_insert_ne by discriminate; solve [auto]
            | unfold quiet in *; simpl;
              match goal with H : _ /\ _ |- _ => destruct H end;
              split;
              [ assumption
              | first [ assumption
                      | apply Forall_app; split; [assumption | repeat constructor] ] ]
            | match goal with
              | |- context [match ?x with _ => _ end] =>
                  destruct x as [[] |]; simpl; try rewrite lookup_insert_ne by discriminate;
                  solve [auto]
              end ]
  | |- preserves _ (match ?x with _ => _ end) => destruct x
  | |- preserves _ (analysis_set _ _) => unfold analysis_set
  | |- preserves _ (analysis_set_in _ _ _) => unfold analysis_set_in
  | |- preserves _ (return_with_analysis _) => unfold return_with_analysis
  | |- preserves _ (warnings_append _) => unfold warnings_append
  | |- preserves _ (errors_append _) => unfold errors_append
  | |- preserves _ _ => progress cbv zeta
  end.

(** ** The validator only reads its tables *)

Ltac as_preserves :=
  lazymatch goal with
  | |- triple ?P ?m _ _ => let P' := eval cbv beta in P in change (preserves P' m)
  end.

Ltac preserves_steps := try as_preserves; repeat preserves_step.

Lemma vcall_frame {A} (body : V A) (d : DataFrame) :
  preserves (fun s => vframe s = d) body -> snd (vcall body d) = d.
Proof.
  intros H. unfold vcall.
  specialize (H {| vframe := d; warnings := []; errors := [] |} eq_refl).
  destruct (body _) as [[a | e] s]; exact H.
Qed.

Lemma _validate_trends_data_frame (d : DataFrame) : snd (_validate_trends_data d) = d.
Proof.
  apply vcall_frame.
  unfold check_required, check_trend_dates, check_numeric_column, check_trend_consistency,
    warnings_append, errors_append.
  preserves_steps.
Qed.

Lemma _validate_queries_data_frame (d : DataFrame) : snd (_validate_queries_data d) = d.
Proof.
  apply vcall_frame.
  unfold check_required, warnings_append, errors_append.
  preserves_steps.
Qed.

Lemma _validate_price_data_frame (d : DataFrame) : snd (_validate_price_data d) = d.
Proof.
  apply vcall_frame.
  unfold check_required, check_price_ranges, check_price_revenue, check_price_consistency,
    warnings_append, errors_append.
  preserves_steps.
Qed.

Lemma _validate_days_data_frame (d : DataFrame) : snd (_validate_days_data d) = d.
Proof.
  apply vcall_frame.
  unfold check_required, warnings_append, errors_append.
  preserves_steps.
Qed.

Lemma _validate_products_data_frame (d : DataFrame) : snd (_validate_products_data d) = d.
Proof.
  apply vcall_frame.
  unfold check_required, warnings_append, errors_append.
  preserves_steps.
Qed.

Lemma _validate_by_type_frame (d : DataFrame) (data_type : string) :
  snd (_validate_by_type d data_type) = d.
Proof.
  unfold _validate_by_type.
  repeat match goal with |- context [String.eqb ?a ?b] => destruct (String.eqb a b) end;
    auto using _validate_trends_data_frame, _validate_queries_data_frame,
      _validate_price_data_frame, _validate_days_data_frame, _validate_products_data_frame.
Qed.

(** A call on a stored table that leaves the table as it was leaves the
    whole mapping as it was. *)
Lemma on_table_frame {A} (key : string) (method : DataFrame -> result A * DataFrame)
  (tables0 : gmap string DataFrame) :
  (forall d, snd (method d) = d) ->
  preserves (fun tables => tables = tables0) (on_table key method).
Proof.
  intros Hm tables ->. unfold on_table.
  destruct (tables0 !! key) as [d |] eqn:Hd; [| reflexivity].
  specialize (Hm d). destruct (method d) as [r d']. simpl in Hm. subst d'.
  rewrite (insert_id _ _ _ Hd). destruct r; reflexivity.
Qed.

Lemma validate_all_data_tables (loaded_data : gmap string DataFrame) :
  snd (validate_all_data loaded_data) = loaded_data.
Proof.
  unfold validate_all_data.
  assert (H : preserves (fun tables : gmap string DataFrame => tables = loaded_data)
                (foldM
                   (fun validation_results data_type =>
                      r ← on_table data_type (fun d => _validate_by_type d data_type);
                      mret (match r with
                            | Some v => <[data_type := v]> validation_results
                            | None => validation_results
                            end))
                   (∅ : gmap string validation) (map fst (map_to_list loaded_data)))).
  { apply preserves_foldM. intros acc data_type.
    apply preserves_bind.
    - apply on_table_frame. intros d. apply _validate_by_type_frame.
    - intros r. apply preserves_ret. }
  specialize (H loaded_data eq_refl).
  destruct (foldM _ _ _ loaded_data) as [[results | e] tables]; exact H.
Qed.

(** C8. [validate_all_data] leaves every input table as it was: after the
    call, returned or raised, the mapping holds exactly the tables it held
    before (same rows, same columns, same values); what the call produces is
    the dict of validation results. *)
Theorem validate_all_data_leaves_tables_unchanged (loaded_data : gmap string DataFrame) :
  snd (validate_all_data loaded_data) = loaded_data.
Proof. exact (validate_all_data_tables loaded_data). Qed.

(** ** What the scoring engine does to its tables *)

Lemma call_triple {A} (init : gmap string value) (body : M A) (d : DataFrame)
  (Q : A -> scope -> Prop) (E : pyexc -> scope -> Prop) :
  triple (fun s => s = {| frame := d; analysis := init |}) body Q E ->
  match call init body d with
  | (Ok a, d') => exists s, Q a s /\ frame s = d'
  | (Raise e, d') => exists s, E e s /\ frame s = d'
  end.
Proof.
  intros H. unfold call. specialize (H _ eq_refl).
  destruct (body _) as [[a | e] s]; eauto.
Qed.

Lemma call_frame {A} (init : gmap string value) (body : M A) (d d' : DataFrame) :
  triple (fun s => frame s = d) body (fun _ s => frame s = d') (fun _ s => frame s = d') ->
  snd (call init body d) = d'.
Proof.
  intros H. unfold call.
  specialize (H {| frame := d; analysis := init |} eq_refl).
  destruct (body _) as [[a | e] s]; exact H.
Qed.

Lemma call_frame_same {A} (init : gmap string value) (body : M A) (d : DataFrame) :
  preserves (fun s => frame s = d) body -> snd (call init body d) = d.
Proof. apply call_frame. Qed.

Ltac unfold_scope_ops :=
  unfold analysis_set, analysis_set_in, return_with_analysis.

Section ScoringFrames.
Context {R : Reductions}.

Lemma _calculate_query_score_frame (d : DataFrame) : snd (_calculate_query_score d) = d.
Proof. apply call_frame_same. unfold_scope_ops. preserves_steps. Qed.

Lemma _calculate_price_score_frame (d : DataFrame) : snd (_calculate_price_score d) = d.
Proof. apply call_frame_same. unfold_scope_ops. preserves_steps. Qed.

Lemma _calculate_ads_score_frame (d : DataFrame) : snd (_calculate_ads_score d) = d.
Proof. apply call_frame_same. unfold ads_scoring. preserves_steps. Qed.

Lemma getitem_setitem_ne (d : DataFrame) (c c' : string) (s : Series) :
  c <> c' -> getitem (setitem d c s) c' = getitem d c'.
Proof. intros H. unfold getitem, setitem. simpl. now rewrite lookup_insert_ne. Qed.

Lemma getitem_setitem_eq (d : DataFrame) (c : string) (s : Series) :
  getitem (setitem d c s) c = Ok s.
Proof. unfold getitem, setitem. simpl. now rewrite lookup_insert_eq. Qed.

(** The two assignments either both happen or, when the date column is
    missing or is not a datetime column, none does. *)
Lemma time_columns_run (date_col year_col month_col : string) (d : DataFrame)
  (a : gmap string value) :
  year_col <> date_col ->
  (d0 ← df;
   date ← lift (getitem d0 date_col);
   year ← lift (dt_field ts_year date);
   df_setitem year_col year;;
   d1 ← df;
   date ← lift (getitem d1 date_col);
   month ← lift (dt_field ts_month date);
   df_setitem month_col month) {| frame := d; analysis := a |}
  = match columns d !! date_col with
    | Some (TimeSeries ts) =>
        (Ok tt, {| frame := setitem (setitem d year_col (field_values ts_year ts))
                                    month_col (field_values ts_month ts);
                   analysis := a |})
    | Some _ =>
        (Raise (AttributeError "Can only use .dt accessor with datetimelike values"),
         {| frame := d; analysis := a |})
    | None => (Raise (KeyError date_col), {| frame := d; analysis := a |})
    end.
Proof.
  intros Hne. unfold mbind, SE_bind, df, lift, df_setitem, modify. simpl.
  unfold getitem at 1.
  destruct (columns d !! date_col) as [[xs | ts | os] |] eqn:Hcol; simpl; try reflexivity.
  rewrite getitem_setitem_ne by exact Hne. unfold getitem. rewrite Hcol. reflexivity.
Qed.

Lemma trend_time_columns_frame (d : DataFrame) :
  triple (fun s => frame s = d) trend_time_columns
    (fun _ s => frame s = trend_frame d) (fun _ s => frame s = trend_frame d).
Proof.
  intros [fr a] Hs. simpl in Hs. subst fr.
  unfold trend_time_columns. rewrite time_columns_run by discriminate.
  unfold trend_frame.
  destruct (columns d !! "Месяц"%string) as [[xs | ts | os] |]; reflexivity.
Qed.

Lemma trend_scoring_frame (d : DataFrame) :
  preserves (fun s => frame s = d) trend_scoring.
Proof.
  unfold trend_scoring, metric_step. unfold_scope_ops. preserves_steps.
Qed.

Lemma _calculate_trend_score_frame (d : DataFrame) :
  snd (_calculate_trend_score d) = trend_frame d.
Proof.
  apply call_frame.
  eapply triple_bind with (Q1 := fun _ s => frame s = trend_frame d).
  - eapply triple_try with (E1 := fun _ s => frame s = trend_frame d).
    + eapply triple_bind; [apply trend_time_columns_frame |].
      intros []. apply trend_scoring_frame.
    + intros e. unfold_scope_ops. preserves_steps.
  - intros final_score. unfold_scope_ops. preserves_steps.
Qed.

Lemma stock_time_columns_frame (d : DataFrame) :
  has_col d "Остаток" && has_col d "Дата" = true ->
  triple (fun s => frame s = d) stock_time_columns
    (fun _ s => frame s = stock_frame d) (fun _ s => frame s = stock_frame d).
Proof.
  intros Hcols [fr a] Hs. simpl in Hs. subst fr.
  unfold stock_time_columns. rewrite time_columns_run by discriminate.
  unfold stock_frame. rewrite Hcols.
  destruct (columns d !! "Дата"%string) as [[xs | ts | os] |]; reflexivity.
Qed.

Lemma stock_scoring_frame (d : DataFrame) :
  preserves (fun s => frame s = d) stock_scoring.
Proof. unfold stock_scoring. unfold_scope_ops. preserves_steps. Qed.

Lemma _calculate_stock_score_frame (d : DataFrame) :
  snd (_calculate_stock_score d) = stock_frame d.
Proof.
  apply call_frame.
  eapply triple_bind with (Q1 := fun _ s => frame s = stock_frame d).
  - eapply triple_try with (E1 := fun _ s => frame s = stock_frame d).
    + eapply triple_bind with (Q1 := fun d' s => d' = d /\ frame s = d).
      { intros s Hs. simpl. auto. }
      intros d' s [-> Hs].
      destruct (has_col d "Остаток" && has_col d "Дата") eqn:Hcols.
      * revert s Hs.
        change (triple (fun s => frame s = d) (stock_time_columns;; stock_scoring)
                  (fun _ s => frame s = stock_frame d) (fun _ s => frame s = stock_frame d)).
        eapply triple_bind; [apply (stock_time_columns_frame d Hcols) |].
        intros []. apply stock_scoring_frame.
      * assert (Hd : stock_frame d = d) by (unfold stock_frame; now rewrite Hcols).
        rewrite Hd. revert s Hs. unfold_scope_ops.
        change (preserves (fun s : scope => frame s = d)
                  (modify (fun sc => {| frame := frame sc;
                                        analysis := <["error"%string :=
                                          VStr "Отсутствуют необходимые колонки для анализа остатков"]>
                                          (analysis sc) |});; mret 0)).
        preserves_steps.
    + intros e. unfold_scope_ops. preserves_steps.
  - intros score. unfold_scope_ops. preserves_steps.
Qed.

End ScoringFrames.

(** ** How a module method ends *)

Lemma triple_weaken_exc {S A} (I : S -> Prop) (m : SE S A) :
  preserves I m -> triple I m (fun _ => I) (fun _ _ => True).
Proof. intros H. eapply triple_conseq; [exact H | | |]; simpl; auto. Qed.

Lemma triple_false {S A} (m : SE S A) Q E : triple (fun _ : S => False) m Q E.
Proof. intros s []. Qed.

(** One statement of a body that keeps the invariant [I], exceptions being
    left to the enclosing handler. *)
Ltac chain_step :=
  lazymatch goal with
  | |- triple ?I (_ ≫= _) _ _ =>
      eapply triple_bind with (Q1 := fun _ => I);
      [ apply triple_weaken_exc; solve [repeat preserves_step] | intros ? ]
  | |- triple _ (match ?x with _ => _ end) _ _ => destruct x eqn:?
  | |- triple _ _ _ _ => progress cbv zeta
  end.

Lemma handler_fails (e : pyexc) (P : scope -> Prop) :
  triple P (analysis_set "error" (VExc e);; mret 0)
    (fun score s => score = 0 /\ is_Some (analysis s !! "error"%string))
    (fun _ _ => False).
Proof.
  intros s _. simpl. split; [reflexivity |]. rewrite lookup_insert_eq. eauto.
Qed.

Lemma missing_column_fails (msg : string) (P : scope -> Prop) :
  triple P (analysis_set "error" (VStr msg);; mret 0)
    (fun score s => (1 <= score <= 4 /\ no_error s)
                    \/ (score = 0 /\ is_Some (analysis s !! "error"%string)))
    (fun _ _ => True).
Proof.
  intros s _. simpl. right. split; [reflexivity |]. rewrite lookup_insert_eq. eauto.
Qed.

(** A method made of a [try] block that ends scored or failed, a handler
    that records the exception, and the final [return score, analysis]. *)
Lemma module_outcome (init : gmap string value) (body : M Z) (d : DataFrame) :
  init !! "error"%string = None ->
  triple no_error body
    (fun score s => (1 <= score <= 4 /\ no_error s)
                    \/ (score = 0 /\ is_Some (analysis s !! "error"%string)))
    (fun _ _ => True) ->
  exists score a d',
    call init
      (score ← try_except body (fun e => analysis_set "error" (VExc e);; mret 0);
       return_with_analysis score) d
    = (Ok (score, a), d')
    /\ (scored score a \/ failed score a).
Proof.
  intros Hinit Hbody.
  assert (T : triple (fun s => s = {| frame := d; analysis := init |})
                (score ← try_except body (fun e => analysis_set "error" (VExc e);; mret 0);
                 return_with_analysis score)
                (fun r s => scored (fst r) (snd r) \/ failed (fst r) (snd r))
                (fun _ _ => False)).
  { eapply triple_bind with
      (Q1 := fun score s => (1 <= score <= 4 /\ no_error s)
                            \/ (score = 0 /\ is_Some (analysis s !! "error"%string))).
    - eapply triple_try with (E1 := fun _ _ => True).
      + intros s ->. apply (Hbody {| frame := d; analysis := init |} Hinit).
      + intros e s _. right. apply (handler_fails e (fun _ => True) s I).
    - intros sc s Hs. simpl. exact Hs. }
  pose proof (call_triple _ _ d _ _ T) as H.
  destruct (call init _ d) as [[[score a] | e] d'].
  - destruct H as (s & Hs & _). eauto.
  - destruct H as (s & [] & _).
Qed.

Section ModuleOutcomes.
Context {R : Reductions}.

Lemma _calculate_query_score_outcome (d : DataFrame) :
  exists score a d',
    _calculate_query_score d = (Ok (score, a), d') /\ (scored score a \/ failed score a).
Proof.
  apply module_outcome; [reflexivity |].
  repeat chain_step.
  - apply triple_ret. intros s Hs. left. split; [apply query_efficiency_score_range | exact Hs].
  - apply missing_column_fails.
Qed.

Lemma _calculate_price_score_outcome (d : DataFrame) :
  exists score a d',
    _calculate_price_score d = (Ok (score, a), d') /\ (scored score a \/ failed score a).
Proof.
  apply module_outcome; [reflexivity |].
  repeat chain_step.
  - apply triple_ret. intros s Hs. left. split; [apply price_bucket_range | exact Hs].
  - apply missing_column_fails.
Qed.

Lemma _calculate_stock_score_outcome (d : DataFrame) :
  exists score a d',
    _calculate_stock_score d = (Ok (score, a), d') /\ (scored score a \/ failed score a).
Proof.
  apply module_outcome; [reflexivity |].
  unfold stock_time_columns, stock_scoring, df_setitem.
  repeat chain_step.
  - apply triple_ret. intros s Hs. left. split; [apply stock_bucket_range | exact Hs].
  - apply missing_column_fails.
Qed.

(** No assignment of [_calculate_ads_score] binds [avg_cmp_top10], the name
    read by the first ratio. *)
Lemma avg_cmp_top10_unbound (avg_cpm_top10 avg_price_top10 : float) :
  load_name (<[ "avg_price_top10"%string := avg_price_top10 ]>
               {[ "avg_cpm_top10"%string := avg_cpm_top10 ]}) "avg_cmp_top10"
  = Raise (NameError "avg_cmp_top10").
Proof.
  unfold load_name.
  rewrite lookup_insert_ne by discriminate.
  rewrite lookup_singleton_ne by discriminate.
  reflexivity.
Qed.

Ltac ads_step :=
  lazymatch goal with
  | |- triple _ (lift (load_name _ "avg_cmp_top10") ≫= _) _ _ => fail
  | |- _ => chain_step
  end.

(** The [try] block never reaches its last statement: it returns early with
    score 0 and an [error] entry, or it raises. *)
Lemma ads_scoring_fails :
  triple (fun _ => True) ads_scoring
    (fun r _ => fst r = 0 /\ is_Some (snd r !! "error"%string)) (fun _ _ => True).
Proof.
  unfold ads_scoring.
  repeat ads_step.
  - apply triple_ret. intros s0 _. simpl. split; [reflexivity |].
    rewrite lookup_singleton_eq. eauto.
  - eapply triple_bind with (Q1 := fun _ _ => False);
      [ apply triple_lift; intros s0 _; rewrite avg_cmp_top10_unbound; exact I
      | intros ?; apply triple_false ].
Qed.

(** The ads method ends with score 0 and an [error] entry on every frame:
    either a column is missing or unusable, or a group is empty, or the
    unbound name is read. *)
Lemma _calculate_ads_score_outcome (d : DataFrame) :
  exists a, _calculate_ads_score d = (Ok (0, a), d) /\ is_Some (a !! "error"%string).
Proof.
  pose proof (_calculate_ads_score_frame d) as Hframe.
  unfold _calculate_ads_score in *.
  match goal with
  | |- context [call ?i ?b d] =>
      assert (T : triple (fun s => s = {| frame := d; analysis := i |}) b
                    (fun r _ => fst r = 0 /\ is_Some (snd r !! "error"%string))
                    (fun _ _ => False));
      [| pose proof (call_triple i b d _ _ T) as H;
         destruct (call i b d) as [[[score a] | e] d'] ]
  end.
  - eapply triple_try with (E1 := fun _ _ => True).
    + eapply triple_conseq; [apply ads_scoring_fails | | |]; simpl; auto.
    + intros e0 s0 _. simpl. split; [reflexivity |]. rewrite lookup_insert_eq. eauto.
  - simpl in Hframe. subst d'. destruct H as (s & [Hs1 Hs2] & _).
    simpl in Hs1, Hs2. subst score. eauto.
  - destruct H as (s & [] & _).
Qed.

Lemma _calculate_yoy_score_range (d : DataFrame) (metric_col : string) :
  1 <= fst (_calculate_yoy_score d metric_col) <= 4.
Proof.
  unfold _calculate_yoy_score.
  destruct (groupby_mean d "Год" metric_col) as [yearly_data | e]; simpl; [| lia].
  destruct (length yearly_data <? 2)%nat; simpl; [lia |].
  destruct (yoy_changes_of (map snd yearly_data)) as [| c cs]; simpl; [lia |].
  pose proof (yoy_change_score_range (np_mean (c :: cs))) as H.
  unfold yoy_change_score in H.
  destruct (yoy_bucket (np_mean (c :: cs))) as [score trend]. simpl in *. lia.
Qed.

(** The binary64 quotient of the sum of at most five scores by their number
    truncates to the integer quotient. *)
Lemma int_of_mean (n sum : Z) :
  1 <= n <= 5 -> n <= sum <= 4 * n ->
  py_int (Float.div (Float.of_Z sum) (Float.of_Z n)) = Ok (sum / n) /\ 1 <= sum / n <= 4.
Proof.
  intros Hn Hsum.
  assert (Hn' : n = 1 \/ n = 2 \/ n = 3 \/ n = 4 \/ n = 5) by lia.
  assert (Hsum' : sum = 1 \/ sum = 2 \/ sum = 3 \/ sum = 4 \/ sum = 5 \/ sum = 6 \/ sum = 7
                  \/ sum = 8 \/ sum = 9 \/ sum = 10 \/ sum = 11 \/ sum = 12 \/ sum = 13
                  \/ sum = 14 \/ sum = 15 \/ sum = 16 \/ sum = 17 \/ sum = 18 \/ sum = 19
                  \/ sum = 20) by lia.
  destruct Hn' as [-> | [-> | [-> | [-> | ->]]]];
    repeat (destruct Hsum' as [-> | Hsum']; [try lia; vm_compute; repeat split; congruence |]);
    try lia; subst; vm_compute; repeat split; congruence.
Qed.

Lemma sum_of_scores (scores : list Z) :
  Forall (fun z => 1 <= z <= 4) scores ->
  Z.of_nat (length scores) <= fold_right Z.add 0 scores <= 4 * Z.of_nat (length scores).
Proof.
  induction 1 as [| z zs Hz _ IH]; simpl length; simpl fold_right; [lia |].
  rewrite Nat2Z.inj_succ. lia.
Qed.

Lemma final_trend_score (scores : list Z) :
  scores <> [] -> (length scores <= 5)%nat -> Forall (fun z => 1 <= z <= 4) scores ->
  exists z, py_int (np_mean_ints scores) = Ok z /\ 1 <= z <= 4.
Proof.
  intros Hne Hlen Hall. unfold np_mean_ints.
  pose proof (sum_of_scores scores Hall) as Hsum.
  assert (1 <= Z.of_nat (length scores) <= 5)
    by (destruct scores; [congruence | simpl length in *; lia]).
  destruct (int_of_mean (Z.of_nat (length scores)) (fold_right Z.add 0 scores)) as [Hint Hr];
    [lia | lia |].
  eauto.
Qed.

Lemma analysis_set_in_no_error (outer k : string) (v : value) (s : scope) :
  outer <> "error"%string -> no_error s ->
  no_error (snd (analysis_set_in outer k v s)).
Proof.
  intros Hne Hs. unfold analysis_set_in, modify, no_error in *. simpl.
  destruct (analysis s !! outer) as [[] |]; simpl; try exact Hs.
  rewrite lookup_insert_ne by exact Hne. exact Hs.
Qed.

Lemma metric_step_inv (ok : Z -> Prop) (d : DataFrame) (metric : string * string)
  (remaining : list (string * string)) (scores : list Z) :
  (forall c, In c (map snd metrics) -> has_col d c = true ->
             ok (fst (_calculate_yoy_score d c))) ->
  triple (trend_loop_inv ok d (metric :: remaining) scores) (metric_step scores metric)
    (trend_loop_inv ok d remaining) (fun _ _ => False).
Proof.
  intros Hok s (Hne & Hfr & Hall & Hlen & visited & Hm & Habs).
  destruct metric as [metric_key metric_col].
  assert (Hin : In metric_col (map snd metrics)).
  { rewrite Hm, map_app. apply in_or_app. right. left. reflexivity. }
  assert (Hm' : metrics = (visited ++ [(metric_key, metric_col)]) ++ remaining)
    by (rewrite Hm; now rewrite <- app_assoc).
  unfold metric_step, mbind, SE_bind, df. rewrite Hfr.
  destruct (has_col d metric_col) eqn:Hcol.
  - pose proof (Hok metric_col Hin Hcol) as Hrange.
    destruct (_calculate_yoy_score d metric_col) as [yoy_score yoy_change].
    simpl in Hrange.
    pose proof (analysis_set_in_no_error "yoy_changes" metric_key yoy_change s
                  ltac:(discriminate) Hne) as H1.
    destruct (analysis_set_in "yoy_changes" metric_key yoy_change s) as [[[] | e] s1] eqn:E1;
      [| unfold analysis_set_in, modify in E1; discriminate].
    assert (Hfr1 : frame s1 = d)
      by (unfold analysis_set_in, modify in E1; injection E1 as <-; exact Hfr).
    simpl in H1.
    pose proof (analysis_set_in_no_error "score_breakdown" metric_key (VInt yoy_score) s1
                  ltac:(discriminate) H1) as H2.
    destruct (analysis_set_in "score_breakdown" metric_key (VInt yoy_score) s1)
      as [[[] | e] s2] eqn:E2;
      [| unfold analysis_set_in, modify in E2; discriminate].
    assert (Hfr2 : frame s2 = d)
      by (unfold analysis_set_in, modify in E2; injection E2 as <-; exact Hfr1).
    simpl in H2. simpl.
    repeat split; try assumption.
    + apply Forall_app. split; [exact Hall | constructor; [exact Hrange | constructor]].
    + rewrite length_app. simpl in *. lia.
    + exists (visited ++ [(metric_key, metric_col)]). split; [exact Hm' |].
      intros Hnil. destruct scores; discriminate.
  - simpl. repeat split; try assumption.
    + simpl in Hlen. lia.
    + exists (visited ++ [(metric_key, metric_col)]). split; [exact Hm' |].
      intros Hnil. apply Forall_app. split; [auto | constructor; [exact Hcol | constructor]].
Qed.

(** The loop over [metrics] from a state without [error] entry. *)
Lemma metrics_loop (ok : Z -> Prop) (d : DataFrame) :
  (forall c, In c (map snd metrics) -> has_col d c = true ->
             ok (fst (_calculate_yoy_score d c))) ->
  triple (fun s => no_error s /\ frame s = d) (foldM metric_step [] metrics)
    (trend_loop_inv ok d []) (fun _ _ => False).
Proof.
  intros Hok.
  eapply triple_conseq;
    [ apply (triple_foldM metric_step (trend_loop_inv ok d) (fun _ _ => False) metrics []);
      intros; apply metric_step_inv; exact Hok
    | | auto | auto ].
  intros s [Hne Hfr]. repeat split; auto.
  exists []. split; [reflexivity | constructor].
Qed.

Lemma trend_scoring_outcome (d : DataFrame) :
  triple (fun s => no_error s /\ frame s = d) trend_scoring
    (fun score s => (1 <= score <= 4 /\ no_error s)
                    \/ (score = 0 /\ no_error s /\ no_metric_column d))
    (fun _ _ => True).
Proof.
  unfold trend_scoring.
  do 4 chain_step.
  eapply triple_bind with (Q1 := trend_loop_inv (fun z => 1 <= z <= 4) d []).
  - eapply triple_conseq; [apply (metrics_loop (fun z => 1 <= z <= 4) d) | auto | auto |].
    + intros c _ _. apply _calculate_yoy_score_range.
    + intros e s [].
  - intros scores s (Hne & Hfr & Hall & Hlen & visited & Hm & Habs).
    destruct scores as [| z zs].
    + simpl. right. repeat split.
      * unfold no_error in *. simpl. now rewrite lookup_insert_ne by discriminate.
      * rewrite app_nil_r in Hm. unfold no_metric_column. rewrite Hm. auto.
    + destruct (final_trend_score (z :: zs)) as (final & Hfinal & Hr);
        [discriminate | simpl in *; lia | exact Hall |].
      unfold mbind, SE_bind, lift. rewrite Hfinal. simpl. left. split; [exact Hr |].
      unfold no_error in *. simpl. now rewrite lookup_insert_ne by discriminate.
Qed.

Lemma has_col_setitem_ne (d : DataFrame) (c c' : string) (s : Series) :
  c <> c' -> has_col (setitem d c s) c' = has_col d c'.
Proof. intros H. unfold has_col, setitem. simpl. now rewrite lookup_insert_ne. Qed.

Lemma no_metric_column_trend_frame (d : DataFrame) :
  no_metric_column (trend_frame d) -> no_metric_column d.
Proof.
  unfold no_metric_column, trend_frame.
  destruct (columns d !! "Месяц"%string) as [[xs | ts | os] |]; auto.
  unfold metrics. intros H.
  repeat match goal with
         | H : Forall _ (_ :: _) |- _ => inversion H; clear H; subst
         end.
  repeat constructor; simpl in *;
    rewrite !has_col_setitem_ne in * by discriminate; assumption.
Qed.

(** The trend method returns on every frame, and ends scored, failed or,
    when the frame has none of the metric columns, unscored. *)
Lemma _calculate_trend_score_outcome (d : DataFrame) :
  exists score a d',
    _calculate_trend_score d = (Ok (score, a), d')
    /\ (scored score a \/ failed score a \/ unscored d score a).
Proof.
  unfold _calculate_trend_score.
  match goal with
  | |- context [call ?i ?b d] =>
      assert (T : triple (fun s => s = {| frame := d; analysis := i |}) b
                    (fun r _ => scored (fst r) (snd r) \/ failed (fst r) (snd r)
                                \/ unscored d (fst r) (snd r))
                    (fun _ _ => False));
      [| pose proof (call_triple i b d _ _ T) as H;
         destruct (call i b d) as [[[score a] | e] d'] ]
  end.
  - eapply triple_bind with
      (Q1 := fun score s => (1 <= score <= 4 /\ no_error s)
                            \/ (score = 0 /\ is_Some (analysis s !! "error"%string))
                            \/ (score = 0 /\ no_error s /\ no_metric_column d)).
    + eapply triple_try with (E1 := fun _ _ => True).
      * eapply triple_bind with
          (Q1 := fun _ s => no_error s /\ frame s = trend_frame d).
        -- intros s ->. unfold trend_time_columns.
           rewrite time_columns_run by discriminate. unfold trend_frame.
           destruct (columns d !! "Месяц"%string) as [[xs | ts | os] |]; try exact I.
           split; reflexivity.
        -- intros []. eapply triple_conseq;
             [apply (trend_scoring_outcome (trend_frame d)) | auto | | auto].
           intros score s [H | (H1 & H2 & H3)]; [left; exact H |].
           right. right. repeat split; auto using no_metric_column_trend_frame.
      * intros e s _. right. left. apply (handler_fails e (fun _ => True) s I).
    + intros score s Hs. simpl. unfold scored, failed, unscored. exact Hs.
  - destruct H as (s & Hs & _). eauto.
  - destruct H as (s & [] & _).
Qed.

End ModuleOutcomes.

(** ** The composite score *)

Lemma alter_absent {A} (f : A -> A) (key : string) (m : gmap string A) :
  m !! key = None -> alter f key m = m.
Proof.
  intros H. apply map_eq. intros j. destruct (decide (key = j)) as [<- | Hne].
  - rewrite lookup_alter_eq, H. reflexivity.
  - now rewrite lookup_alter_ne.
Qed.

Lemma alter_present {A} (f : A -> A) (key : string) (m : gmap string A) (x : A) :
  m !! key = Some x -> alter f key m = <[key := f x]> m.
Proof.
  intros H. apply map_eq. intros j. destruct (decide (key = j)) as [<- | Hne].
  - rewrite lookup_alter_eq, lookup_insert_eq, H. reflexivity.
  - now rewrite lookup_alter_ne, lookup_insert_ne.
Qed.

Lemma on_table_run (key : string)
  (method : DataFrame -> result (Z * gmap string value) * DataFrame)
  (f : DataFrame -> DataFrame) (tables : gmap string DataFrame) :
  (forall d, exists sa, method d = (Ok sa, f d) /\ 0 <= fst sa <= 4) ->
  exists r, on_table key method tables = (Ok r, alter f key tables)
            /\ module_result method tables key r.
Proof.
  intros H. unfold on_table, module_result.
  destruct (tables !! key) as [d |] eqn:Hd.
  - destruct (H d) as (sa & Hrun & Hrange). rewrite Hrun.
    exists (Some sa). rewrite (alter_present f key tables d Hd). simpl. auto.
  - exists None. rewrite (alter_absent f key tables Hd). auto.
Qed.

Lemma score_of_range method tables key r :
  module_result method tables key r -> 0 <= score_of r <= 4.
Proof.
  unfold module_result, score_of.
  destruct (tables !! key), r as [[score a] |]; simpl; intuition lia.
Qed.

Section CompositeScore.
Context {R : Reductions}.

Lemma trend_runs (d : DataFrame) :
  exists sa, _calculate_trend_score d = (Ok sa, trend_frame d) /\ 0 <= fst sa <= 4.
Proof.
  pose proof (_calculate_trend_score_frame d) as Hf.
  destruct (_calculate_trend_score_outcome d) as (score & a & d' & Hrun & Hout).
  rewrite Hrun in Hf. simpl in Hf. subst d'. exists (score, a). split; [exact Hrun |].
  unfold scored, failed, unscored in Hout. simpl. intuition lia.
Qed.

Lemma query_runs (d : DataFrame) :
  exists sa, _calculate_query_score d = (Ok sa, id d) /\ 0 <= fst sa <= 4.
Proof.
  pose proof (_calculate_query_score_frame d) as Hf.
  destruct (_calculate_query_score_outcome d) as (score & a & d' & Hrun & Hout).
  rewrite Hrun in Hf. simpl in Hf. subst d'. exists (score, a). split; [exact Hrun |].
  unfold scored, failed in Hout. simpl. intuition lia.
Qed.

Lemma price_runs (d : DataFrame) :
  exists sa, _calculate_price_score d = (Ok sa, id d) /\ 0 <= fst sa <= 4.
Proof.
  pose proof (_calculate_price_score_frame d) as Hf.
  destruct (_calculate_price_score_outcome d) as (score & a & d' & Hrun & Hout).
  rewrite Hrun in Hf. simpl in Hf. subst d'. exists (score, a). split; [exact Hrun |].
  unfold scored, failed in Hout. simpl. intuition lia.
Qed.

Lemma stock_runs (d : DataFrame) :
  exists sa, _calculate_stock_score d = (Ok sa, stock_frame d) /\ 0 <= fst sa <= 4.
Proof.
  pose proof (_calculate_stock_score_frame d) as Hf.
  destruct (_calculate_stock_score_outcome d) as (score & a & d' & Hrun & Hout).
  rewrite Hrun in Hf. simpl in Hf. subst d'. exists (score, a). split; [exact Hrun |].
  unfold scored, failed in Hout. simpl. intuition lia.
Qed.

Lemma ads_runs (d : DataFrame) :
  exists sa, _calculate_ads_score d = (Ok sa, id d) /\ 0 <= fst sa <= 4.
Proof.
  destruct (_calculate_ads_score_outcome d) as (a & Hrun & _).
  exists (0, a). split; [exact Hrun | simpl; lia].
Qed.

Lemma alter_id_tables (key : string) (tables : gmap string DataFrame) :
  alter id key tables = tables.
Proof. apply alter_id. reflexivity. Qed.

Lemma module_result_other_tables method (f : DataFrame -> DataFrame)
  (tables : gmap string DataFrame) (key key' : string) r :
  key <> key' ->
  module_result method (alter f key tables) key' r -> module_result method tables key' r.
Proof. intros Hne. unfold module_result. now rewrite lookup_alter_ne. Qed.

(** One run of [calculate_total_score]: it returns, every module result is
    the result of its method on the table loaded under its key, and the
    tables end as [scored_tables] describes. *)
Lemma calculate_total_score_run (loaded_data : gmap string DataFrame) :
  exists trends queries price stock ads r,
    calculate_total_score loaded_data = (Ok r, scored_tables loaded_data)
    /\ module_result _calculate_trend_score loaded_data "trends" trends
    /\ module_result _calculate_query_score loaded_data "queries" queries
    /\ module_result _calculate_price_score loaded_data "price" price
    /\ module_result _calculate_stock_score loaded_data "days" stock
    /\ module_result _calculate_ads_score loaded_data "products" ads
    /\ trend_score r = score_of trends
    /\ query_score r = score_of queries
    /\ price_score r = score_of price
    /\ stock_score r = score_of stock
    /\ ads_score r = score_of ads
    /\ total_score r = score_of trends + score_of queries + score_of price
                        + score_of stock + score_of ads
    /\ niche_rating r = _get_niche_rating (total_score r)
    /\ detailed_analysis r !! "trends"%string = snd <$> trends.
Proof.
  unfold calculate_total_score, scored_tables, mbind, SE_bind.
  destruct (on_table_run "trends" _ _ loaded_data trend_runs) as (trends & -> & Ht).
  destruct (on_table_run "queries" _ _ (alter trend_frame "trends" loaded_data) query_runs)
    as (queries & -> & Hq).
  rewrite alter_id_tables.
  destruct (on_table_run "price" _ _ (alter trend_frame "trends" loaded_data) price_runs)
    as (price & -> & Hp).
  rewrite alter_id_tables.
  destruct (on_table_run "days" _ _ (alter trend_frame "trends" loaded_data) stock_runs)
    as (stock & -> & Hs).
  destruct (on_table_run "products" _ _
              (alter stock_frame "days" (alter trend_frame "trends" loaded_data)) ads_runs)
    as (ads & -> & Ha).
  rewrite alter_id_tables.
  exists trends, queries, price, stock, ads. eexists. split; [reflexivity |].
  apply module_result_other_tables in Hq; [| discriminate].
  apply module_result_other_tables in Hp; [| discriminate].
  apply module_result_other_tables in Hs; [| discriminate].
  apply module_result_other_tables in Ha; [| discriminate].
  apply module_result_other_tables in Ha; [| discriminate].
  simpl. repeat split; try assumption.
  unfold record_analysis.
  destruct ads as [[? ?] |], stock as [[? ?] |], price as [[? ?] |], queries as [[? ?] |],
    trends as [[? ?] |]; simpl;
    repeat (rewrite lookup_insert_ne by discriminate);
    try rewrite lookup_insert_eq; try rewrite lookup_empty; reflexivity.
Qed.

(** C1. [calculate_total_score] returns for every mapping of loaded tables;
    its [total_score] is exactly the sum of the five module scores, each
    module score lies in 0..4, and the total lies in 0..20. *)
Theorem total_score_is_sum_within_0_20 (loaded_data : gmap string DataFrame) :
  exists r tables,
    calculate_total_score loaded_data = (Ok r, tables)
    /\ total_score r
       = trend_score r + query_score r + price_score r + stock_score r + ads_score r
    /\ 0 <= trend_score r <= 4
    /\ 0 <= query_score r <= 4
    /\ 0 <= price_score r <= 4
    /\ 0 <= stock_score r <= 4
    /\ 0 <= ads_score r <= 4
    /\ 0 <= total_score r <= 20.
Proof.
  destruct (calculate_total_score_run loaded_data)
    as (trends & queries & price & stock & ads & r & Hrun & Ht & Hq & Hp & Hs & Ha
        & E1 & E2 & E3 & E4 & E5 & Etotal & _).
  apply score_of_range in Ht, Hq, Hp, Hs, Ha.
  exists r, (scored_tables loaded_data). rewrite E1, E2, E3, E4, E5, Etotal.
  repeat split; try exact Hrun; lia.
Qed.

End CompositeScore.

(** ** The tables after scoring *)

Lemma trend_frame_keeps (d : DataFrame) :
  nrows (trend_frame d) = nrows d
  /\ forall c, c <> "Год"%string -> c <> "Месяц_номер"%string ->
               columns (trend_frame d) !! c = columns d !! c.
Proof.
  unfold trend_frame.
  destruct (columns d !! "Месяц"%string) as [[xs | ts | os] |]; simpl; split; auto.
  intros c H1 H2. now rewrite !lookup_insert_ne by congruence.
Qed.

Lemma stock_frame_keeps (d : DataFrame) :
  nrows (stock_frame d) = nrows d
  /\ forall c, c <> "Год"%string -> c <> "Месяц"%string ->
               columns (stock_frame d) !! c = columns d !! c.
Proof.
  unfold stock_frame.
  destruct (has_col d "Остаток" && has_col d "Дата"); [| split; auto].
  destruct (columns d !! "Дата"%string) as [[xs | ts | os] |]; simpl; split; auto.
  intros c H1 H2. now rewrite !lookup_insert_ne by congruence.
Qed.

Section TablesAfterScoring.
Context {R : Reductions}.

(** C9, as the code has it. [calculate_total_score] is a one-shot transform
    that leaves the queries, price and products tables (and any other entry
    of the mapping) as they were, but not the trends and days tables: on the
    trends table it sets the columns [Год] and [Месяц_номер] whenever
    [Месяц] is a datetime column, and on the days table it sets [Год] and
    [Месяц] whenever [Остаток] and [Дата] are present and [Дата] is a
    datetime column; the row count and every other column stay as they
    were. *)
Theorem scoring_only_sets_time_columns (loaded_data : gmap string DataFrame) :
  snd (calculate_total_score loaded_data) = scored_tables loaded_data
  /\ scored_tables loaded_data !! "trends"%string
     = trend_frame <$> loaded_data !! "trends"%string
  /\ scored_tables loaded_data !! "days"%string
     = stock_frame <$> loaded_data !! "days"%string
  /\ (forall key, key <> "trends"%string -> key <> "days"%string ->
                  scored_tables loaded_data !! key = loaded_data !! key)
  /\ (forall d, nrows (trend_frame d) = nrows d
                /\ forall c, c <> "Год"%string -> c <> "Месяц_номер"%string ->
                             columns (trend_frame d) !! c = columns d !! c)
  /\ (forall d, nrows (stock_frame d) = nrows d
                /\ forall c, c <> "Год"%string -> c <> "Месяц"%string ->
                             columns (stock_frame d) !! c = columns d !! c).
Proof.
  destruct (calculate_total_score_run loaded_data)
    as (trends & queries & price & stock & ads & r & Hrun & _).
  rewrite Hrun. unfold scored_tables. repeat split.
  - rewrite lookup_alter_ne by discriminate. apply lookup_alter_eq.
  - rewrite lookup_alter_eq. now rewrite lookup_alter_ne by discriminate.
  - intros key H1 H2. now rewrite !lookup_alter_ne by congruence.
  - apply trend_frame_keeps.
  - apply trend_frame_keeps.
  - apply stock_frame_keeps.
  - apply stock_frame_keeps.
Qed.

End TablesAfterScoring.

(** C9 as stated fails: scoring the demonstration trends table, which has
    no [Год] column, leaves a trends table that has one (and a
    [Месяц_номер] column as well). *)
Lemma scoring_adds_columns_to_trends :
  has_col sample_trends "Год" = false
  /\ has_col sample_trends "Месяц_номер" = false
  /\ (fun d' => (has_col d' "Год", has_col d' "Месяц_номер"))
       <$> snd (@calculate_total_score sequential_reductions
                  {[ "trends"%string := sample_trends ]}) !! "trends"%string
     = Some (true, true).
Proof. vm_compute. auto. Qed.

(** ** The ads score *)

(** C2 on the code. On a products table whose top-10 ratio is 5.0 (score 4)
    and whose top-100 ratio is 1.5 (score 1), the minimum of the two segment
    scores is 1, but [_calculate_ads_score] returns 0: reading the name
    [avg_cmp_top10], which is never assigned, raises [NameError], and the
    handler records it and returns 0. *)
Theorem ads_score_of_sample_products :
  _get_ratio_score (Float.div (sequential_mean [Float.of_Z 500])
                              (sequential_mean [Float.of_Z 100])) = 4
  /\ _get_ratio_score (Float.div (sequential_mean [Float.of_Z 500; Float.of_Z 100])
                                 (sequential_mean [Float.of_Z 100; Float.of_Z 300])) = 1
  /\ Z.min 4 1 = 1
  /\ score_and_error (fst (@_calculate_ads_score sequential_reductions sample_products))
     = Some (0, Some (VExc (NameError "avg_cmp_top10"))).
Proof. vm_compute. auto. Qed.

(** ** Score 0 and the error entry *)

Section MissingInputs.
Context {R : Reductions}.

Ltac run_missing H :=
  unfold call, try_except, mbind, SE_bind, df, analysis_set, return_with_analysis,
    modify, get, mret, SE_ret; simpl; rewrite H; simpl;
  rewrite lookup_insert_eq; reflexivity.

Lemma query_missing_column (d : DataFrame) :
  has_col d query_ratio_col = false ->
  score_and_error (fst (_calculate_query_score d))
  = Some (0, Some (VStr "Отсутствует коэффициент спрос/предложение")).
Proof. intros H. unfold _calculate_query_score. run_missing H. Qed.

Lemma price_missing_column (d : DataFrame) :
  has_col d revenue_col = false ->
  score_and_error (fst (_calculate_price_score d))
  = Some (0, Some (VStr "Отсутствует колонка 'Выручка на товар'")).
Proof. intros H. unfold _calculate_price_score. run_missing H. Qed.

Lemma stock_missing_column (d : DataFrame) :
  has_col d "Остаток" && has_col d "Дата" = false ->
  score_and_error (fst (_calculate_stock_score d))
  = Some (0, Some (VStr "Отсутствуют необходимые колонки для анализа остатков")).
Proof. intros H. unfold _calculate_stock_score. run_missing H. Qed.

Lemma trend_missing_column (d : DataFrame) :
  has_col d "Месяц" = false ->
  score_and_error (fst (_calculate_trend_score d))
  = Some (0, Some (VExc (KeyError "Месяц"))).
Proof.
  intros H. unfold _calculate_trend_score, call, try_except.
  unfold mbind at 1 2. unfold SE_bind at 1 2.
  unfold trend_time_columns. rewrite time_columns_run by discriminate.
  unfold has_col in H. destruct (columns d !! "Месяц"%string); [discriminate |].
  unfold mbind, SE_bind, analysis_set, return_with_analysis, modify, get, mret, SE_ret.
  simpl. rewrite lookup_insert_eq. reflexivity.
Qed.

End MissingInputs.

Lemma outcome_zero_iff_error (score : Z) (a : gmap string value) :
  scored score a \/ failed score a ->
  (score = 0 <-> is_Some (a !! "error"%string)) /\ (score <> 0 -> 1 <= score <= 4).
Proof.
  unfold scored, failed. intros [[Hr Hn] | [-> He]].
  - rewrite Hn. split; [split; [lia | intros [v Hv]; discriminate] | auto].
  - split; [tauto | lia].
Qed.

Lemma geb_leb_swap (x y : float) : Float.geb x y = true -> Float.leb y x = true.
Proof.
  unfold Float.geb, Float.leb, SFleb, SFcompare.
  destruct x as [sx | sx | | sx mx ex], y as [sy | sy | | sy my ey];
    repeat match goal with s : bool |- _ => destruct s end;
    simpl; intros H; try discriminate; try reflexivity;
    compare_cases; subst; try discriminate; try reflexivity; try lia.
Qed.

(** A ratio that reaches a threshold reaches every lower threshold. *)
Lemma geb_lower_threshold (ratio high low : float) :
  Float.geb high low = true -> Float.geb ratio high = true -> Float.geb ratio low = true.
Proof.
  intros Hhl Hr. exact (geb_leb_trans low high ratio Hhl (geb_leb_swap ratio high Hr)).
Qed.

Lemma _get_ratio_score_zero (ratio : float) :
  _get_ratio_score ratio = 0 <-> Float.geb ratio ADS_poor = false.
Proof.
  unfold _get_ratio_score.
  destruct (Float.geb ratio ADS_excellent) eqn:E4.
  { rewrite (geb_lower_threshold ratio ADS_excellent ADS_poor eq_refl E4).
    split; discriminate. }
  destruct (Float.geb ratio ADS_good) eqn:E3.
  { rewrite (geb_lower_threshold ratio ADS_good ADS_poor eq_refl E3).
    split; discriminate. }
  destruct (Float.geb ratio ADS_average) eqn:E2.
  { rewrite (geb_lower_threshold ratio ADS_average ADS_poor eq_refl E2).
    split; discriminate. }
  destruct (Float.geb ratio ADS_poor); split; congruence.
Qed.

Section ScoreZero.
Context {R : Reductions}.

Lemma error_of_outcome
  (method : DataFrame -> result (Z * gmap string value) * DataFrame)
  (d d' : DataFrame) (score : Z) (a : gmap string value) (v : value) :
  method d = (Ok (score, a), d') ->
  score_and_error (fst (method d)) = Some (0, Some v) ->
  a !! "error"%string = Some v.
Proof. intros -> H. simpl in H. congruence. Qed.

(** C3, as the code has it. Every module method returns on every frame
    (no exception escapes). For the query, price and stock modules the
    score is 0 exactly when the analysis carries an [error] entry, and is in
    1..4 otherwise; a missing required column gives the module's own
    absence message as that entry. For the trend module an [error] entry
    implies score 0 (a missing [Месяц] column gives the text of the
    [KeyError]), a non-zero score is in 1..4, and score 0 without an [error]
    entry happens only for a frame with none of the five metric columns.
    The price-to-bid bucket function of the ads module returns 0 for every
    ratio that does not reach 1.0, so there 0 is also the score of a
    computable ratio. *)
Theorem module_score_zero_and_error_entry (d : DataFrame) (ratio : float) :
  (exists score a d',
     _calculate_query_score d = (Ok (score, a), d')
     /\ (score = 0 <-> is_Some (a !! "error"%string))
     /\ (score <> 0 -> 1 <= score <= 4)
     /\ (has_col d query_ratio_col = false ->
         a !! "error"%string = Some (VStr "Отсутствует коэффициент спрос/предложение")))
  /\ (exists score a d',
        _calculate_price_score d = (Ok (score, a), d')
        /\ (score = 0 <-> is_Some (a !! "error"%string))
        /\ (score <> 0 -> 1 <= score <= 4)
        /\ (has_col d revenue_col = false ->
            a !! "error"%string = Some (VStr "Отсутствует колонка 'Выручка на товар'")))
  /\ (exists score a d',
        _calculate_stock_score d = (Ok (score, a), d')
        /\ (score = 0 <-> is_Some (a !! "error"%string))
        /\ (score <> 0 -> 1 <= score <= 4)
        /\ (has_col d "Остаток" && has_col d "Дата" = false ->
            a !! "error"%string
            = Some (VStr "Отсутствуют необходимые колонки для анализа остатков")))
  /\ (exists score a d',
        _calculate_trend_score d = (Ok (score, a), d')
        /\ (is_Some (a !! "error"%string) -> score = 0)
        /\ (score = 0 -> is_Some (a !! "error"%string) \/ no_metric_column d)
        /\ (score <> 0 -> 1 <= score <= 4)
        /\ (has_col d "Месяц" = false ->
            a !! "error"%string = Some (VExc (KeyError "Месяц"))))
  /\ 0 <= _get_ratio_score ratio <= 4
  /\ (_get_ratio_score ratio = 0 <-> Float.geb ratio ADS_poor = false).
Proof.
  repeat apply conj.
  - destruct (_calculate_query_score_outcome d) as (score & a & d' & Hrun & Hout).
    exists score, a, d'. destruct (outcome_zero_iff_error score a Hout) as [H1 H2].
    repeat split; try tauto.
    intros H. exact (error_of_outcome _ d d' score a _ Hrun (query_missing_column d H)).
  - destruct (_calculate_price_score_outcome d) as (score & a & d' & Hrun & Hout).
    exists score, a, d'. destruct (outcome_zero_iff_error score a Hout) as [H1 H2].
    repeat split; try tauto.
    intros H. exact (error_of_outcome _ d d' score a _ Hrun (price_missing_column d H)).
  - destruct (_calculate_stock_score_outcome d) as (score & a & d' & Hrun & Hout).
    exists score, a, d'. destruct (outcome_zero_iff_error score a Hout) as [H1 H2].
    repeat split; try tauto.
    intros H. exact (error_of_outcome _ d d' score a _ Hrun (stock_missing_column d H)).
  - destruct (_calculate_trend_score_outcome d) as (score & a & d' & Hrun & Hout).
    exists score, a, d'. unfold scored, failed, unscored in Hout.
    repeat split.
    + exact Hrun.
    + intros [v Hv]. destruct Hout as [[_ Hn] | [[H0 _] | [H0 _]]]; congruence.
    + intros H0. destruct Hout as [[Hr _] | [[_ He] | [_ [_ Hm]]]]; [lia | auto | auto].
    + destruct Hout as [[Hr _] | [[H0 _] | [H0 _]]]; lia.
    + destruct Hout as [[Hr _] | [[H0 _] | [H0 _]]]; lia.
    + intros H. exact (error_of_outcome _ d d' score a _ Hrun (trend_missing_column d H)).
  - apply _get_ratio_score_range.
  - apply _get_ratio_score_range.
  - apply _get_ratio_score_zero.
  - apply _get_ratio_score_zero.
Qed.

End ScoreZero.

(** C3 as stated fails twice. The ratio 0.5 is present and computable, and
    its score is 0, not one of 1..4. And a trends table that has its date
    column but none of the metric columns gets score 0 with no exception
    and no absence marker in the analysis. *)
Lemma score_zero_without_failure :
  _get_ratio_score (Float.div (Float.of_Z 1) (Float.of_Z 2)) = 0
  /\ score_and_error (fst (@_calculate_trend_score sequential_reductions sample_dates_only))
     = Some (0, None).
Proof. vm_compute. auto. Qed.

(** ** A trends report of a single year *)

Lemma length_insert_sorted (x : float) (l : list float) :
  length (insert_sorted x l) = S (length l).
Proof.
  induction l as [| y l IH]; simpl; [reflexivity |].
  destruct (Float.leb x y); simpl; [reflexivity | now rewrite IH].
Qed.

Lemma length_sort_keys (l : list float) : length (sort_keys l) = length l.
Proof.
  unfold sort_keys. induction l as [| x l IH]; simpl; [reflexivity |].
  now rewrite length_insert_sorted, IH.
Qed.

Lemma unique_incl (xs : list float) (y : float) : In y (unique xs) -> In y xs.
Proof.
  induction xs as [| x xs IH]; simpl; [auto |].
  intros [-> | H]; [auto |]. right. apply IH.
  apply List.filter_In in H. tauto.
Qed.

Lemma one_year_tail (x : float) (xs : list float) : one_year (x :: xs) -> one_year xs.
Proof. intros H y1 y2 H1 H2. apply H; right; assumption. Qed.

Lemma filter_filter_length {A} (p q : A -> bool) (l : list A) :
  (length (List.filter p (List.filter q l)) <= length (List.filter p l))%nat.
Proof.
  induction l as [| x l IH]; simpl; [lia |].
  destruct (q x), (p x) eqn:Hp; simpl; rewrite ?Hp; simpl; lia.
Qed.

Lemma filter_none {A} (p : A -> bool) (l : list A) :
  (forall x, In x l -> p x = false) -> List.filter p l = [].
Proof.
  induction l as [| x l IH]; intros H; simpl; [reflexivity |].
  rewrite (H x) by (left; reflexivity). apply IH. intros y Hy. apply H. right. exact Hy.
Qed.

(** Fewer than two distinct years give fewer than two groups. *)
Lemma one_year_groups (years : list float) :
  one_year years ->
  (length (List.filter (fun y => negb (Float.is_nan y)) (unique years)) <= 1)%nat.
Proof.
  induction years as [| x xs IH]; intros Hone; simpl; [lia |].
  specialize (IH (one_year_tail x xs Hone)).
  destruct (Float.is_nan x) eqn:Hx; simpl.
  - etransitivity; [apply filter_filter_length | exact IH].
  - assert (Hnil : List.filter (fun y => negb (Float.is_nan y))
                     (List.filter (fun y => negb (same_key x y)) (unique xs)) = []).
    { apply filter_none. intros y Hy.
      apply List.filter_In in Hy. destruct Hy as [Hy Hk].
      destruct (Float.is_nan y) eqn:Hnan; [reflexivity | exfalso].
      assert (Float.eqb x y = true)
        by (apply Hone; [left; reflexivity | right; now apply unique_incl | |]; assumption).
      unfold same_key in Hk. rewrite H in Hk. discriminate. }
    rewrite Hnil. simpl. lia.
Qed.

Lemma mapM_ok {A B} (f : A -> result B) (g : A -> B) (l : list A) :
  (forall x, In x l -> f x = Ok (g x)) -> mapM f l = Ok (map g l).
Proof.
  induction l as [| x l IH]; intros H; [reflexivity |].
  change (mapM f (x :: l)) with (y ← f x; k ← mapM f l; mret (y :: k)).
  rewrite (H x) by (left; reflexivity).
  rewrite IH by (intros y Hy; apply H; right; exact Hy).
  reflexivity.
Qed.

Section SingleYear.
Context {R : Reductions}.

Lemma groupby_mean_one_year (d : DataFrame) (metric_col : string) (years vals : list float) :
  columns d !! "Год"%string = Some (NumSeries years) ->
  columns d !! metric_col = Some (NumSeries vals) ->
  one_year years ->
  exists yearly_data,
    groupby_mean d "Год" metric_col = Ok yearly_data /\ (length yearly_data <= 1)%nat.
Proof.
  intros Hy Hv Hone. unfold groupby_mean, groupby, getitem. rewrite Hy, Hv. simpl.
  eexists. split.
  - apply mapM_ok with
      (g := fun g : float * Series =>
              (fst g, series_mean match snd g with NumSeries xs => xs | _ => [] end)).
    intros g Hg. apply in_map_iff in Hg. destruct Hg as (k & <- & _). reflexivity.
  - rewrite !length_map, length_sort_keys. apply one_year_groups. exact Hone.
Qed.

(** The first half of C10: with fewer than two distinct years the
    per-metric score is the neutral 2, with the explanatory message. *)
Lemma yoy_score_one_year (d : DataFrame) (metric_col : string) (years vals : list float) :
  columns d !! "Год"%string = Some (NumSeries years) ->
  columns d !! metric_col = Some (NumSeries vals) ->
  one_year years ->
  _calculate_yoy_score d metric_col = (2, not_enough_years).
Proof.
  intros Hy Hv Hone. unfold _calculate_yoy_score.
  destruct (groupby_mean_one_year d metric_col years vals Hy Hv Hone)
    as (yearly_data & -> & Hlen).
  simpl. destruct (Nat.ltb_spec (length yearly_data) 2); [reflexivity | lia].
Qed.

Lemma eqb_refl (x : float) : Float.is_nan x = false -> Float.eqb x x = true.
Proof.
  unfold Float.eqb, SFeqb, SFcompare.
  destruct x as [[] | [] | | [] m e]; simpl; intros H; try discriminate; try reflexivity;
    rewrite Z.compare_refl;
    change (Pos.compare_cont Eq m m) with (Pos.compare m m);
    rewrite Pos.compare_refl; reflexivity.
Qed.

Lemma one_year_of_single_year (ts : list (option Timestamp)) :
  single_year ts ->
  one_year (map (fun t => match t with
                          | Some t => Float.of_Z (ts_year t)
                          | None => Float.nan
                          end) ts).
Proof.
  intros Hs y1 y2 H1 H2 N1 N2.
  apply in_map_iff in H1. destruct H1 as ([t1 |] & <- & H1); [| discriminate].
  apply in_map_iff in H2. destruct H2 as ([t2 |] & <- & H2); [| discriminate].
  rewrite (Hs t1 t2 H1 H2) in *. apply eqb_refl. exact N2.
Qed.

Lemma select_length {A} (mask : list bool) (xs : list A) :
  length mask = length xs -> length (select mask xs) = length (List.filter id mask).
Proof.
  revert xs. induction mask as [| b mask IH]; intros [| x xs] H; simpl in *;
    try reflexivity; try discriminate.
  injection H as H. destruct b; simpl; now rewrite IH.
Qed.

Lemma select_incl {A} (mask : list bool) (xs : list A) (x : A) :
  In x (select mask xs) -> In x xs.
Proof.
  revert xs. induction mask as [| b mask IH]; intros [| y xs]; simpl; try tauto.
  destruct b; simpl; [intros [-> | H]; auto | auto].
Qed.

Lemma argmax_from_some (xs : list float) (best : option (nat * float)) (i : nat) :
  is_Some best \/ (exists x, In x xs /\ Float.is_nan x = false) ->
  is_Some (argmax_from best i xs).
Proof.
  revert best i. induction xs as [| x xs IH]; intros best i H; simpl.
  - destruct H as [H | (x & [] & _)]. exact H.
  - apply IH. destruct (Float.is_nan x) eqn:Hx.
    + destruct H as [H | (y & [-> | Hy] & Hn)]; [auto | congruence | eauto].
    + left. destruct best as [[j b] |]; [destruct (Float.gtb x b) |]; eauto.
Qed.

Lemma has_col_filter_rows (d : DataFrame) (mask : list bool) (c : string) :
  has_col (filter_rows d mask) c = has_col d c.
Proof.
  unfold has_col, filter_rows. simpl. rewrite lookup_fmap.
  destruct (columns d !! c); reflexivity.
Qed.

Lemma getitem_filter_rows (d : DataFrame) (mask : list bool) (c : string) (s : Series) :
  columns d !! c = Some s -> getitem (filter_rows d mask) c = Ok (select_series mask s).
Proof. intros H. unfold getitem, filter_rows. simpl. now rewrite lookup_fmap, H. Qed.

Lemma getitem_some (d : DataFrame) (c : string) (s : Series) :
  columns d !! c = Some s -> getitem d c = Ok s.
Proof. intros H. unfold getitem. now rewrite H. Qed.

(** The peak-month loop does not raise on a frame whose sales column has a
    value in every row. *)
Lemma peak_month_ok (d : DataFrame) (years : list float) (month_number : Series)
  (year : float) :
  columns d !! "Год"%string = Some (NumSeries years) ->
  columns d !! "Месяц_номер"%string = Some month_number ->
  sales_complete d (length years) ->
  peak_month d year = Ok tt.
Proof.
  intros Hy Hm Hsales. unfold peak_month. rewrite (getitem_some d _ _ Hy).
  unfold mbind at 1, result_bind at 1. simpl eq_scalar.
  set (mask := map (fun v => Float.eqb v year) years).
  rewrite has_col_filter_rows.
  destruct (negb (empty_frame (filter_rows d mask))) eqn:Hne; [| reflexivity].
  destruct Hsales as [Hnone | (xs & Hxs & Hlen & Hall)].
  - unfold has_col. rewrite Hnone. reflexivity.
  - unfold has_col. rewrite Hxs. simpl.
    rewrite (getitem_filter_rows d mask _ _ Hxs).
    rewrite (getitem_filter_rows d mask _ _ Hm).
    unfold mbind, result_bind, idxmax. simpl.
    destruct (argmax_from_some (select mask xs) None 0) as [[i x] Hmax].
    + right.
      assert (Hsel : length (select mask xs) = length (List.filter id mask))
        by (apply select_length; unfold mask; now rewrite length_map).
      unfold empty_frame, filter_rows in Hne. simpl in Hne.
      apply negb_true_iff, orb_false_iff in Hne. destruct Hne as [Hrows _].
      apply Nat.eqb_neq in Hrows.
      destruct (select mask xs) as [| x rest] eqn:Hs; [simpl in Hsel; lia |].
      exists x. split; [left; reflexivity |].
      assert (Hin : In x xs) by (apply (select_incl mask); rewrite Hs; left; reflexivity).
      rewrite Forall_forall in Hall. apply Hall. apply list_elem_of_In. exact Hin.
    + rewrite Hmax. reflexivity.
Qed.

Lemma forM_ok {A} (f : A -> result unit) (l : list A) :
  (forall a, f a = Ok tt) -> forM_ f l = Ok tt.
Proof.
  intros H. induction l as [| a l IH]; simpl; [reflexivity |].
  rewrite H. exact IH.
Qed.

Lemma sum_of_twos (scores : list Z) :
  Forall (fun z => z = 2) scores ->
  fold_right Z.add 0 scores = 2 * Z.of_nat (length scores).
Proof.
  induction 1 as [| z zs -> _ IH]; simpl length; simpl fold_right; [reflexivity |].
  rewrite Nat2Z.inj_succ, IH. lia.
Qed.

Lemma final_score_two (scores : list Z) :
  scores <> [] -> (length scores <= 5)%nat -> Forall (fun z => z = 2) scores ->
  py_int (np_mean_ints scores) = Ok 2.
Proof.
  intros Hne Hlen Hall. unfold np_mean_ints. rewrite (sum_of_twos scores Hall).
  assert (1 <= Z.of_nat (length scores) <= 5)
    by (destruct scores; [congruence | simpl length in *; lia]).
  destruct (int_of_mean (Z.of_nat (length scores)) (2 * Z.of_nat (length scores)))
    as [Hint _]; [lia | lia |].
  rewrite Hint. f_equal. apply Z.div_mul. lia.
Qed.

Lemma metric_column_name (c : string) :
  In c (map snd metrics) -> c <> "Год"%string /\ c <> "Месяц_номер"%string.
Proof.
  simpl. intros [<- | [<- | [<- | [<- | [<- | []]]]]]; split; discriminate.
Qed.

Lemma trend_frame_columns (d : DataFrame) (ts : list (option Timestamp)) :
  columns d !! "Месяц"%string = Some (TimeSeries ts) ->
  columns (trend_frame d) !! "Год"%string = Some (field_values ts_year ts)
  /\ columns (trend_frame d) !! "Месяц_номер"%string = Some (field_values ts_month ts)
  /\ forall c, c <> "Год"%string -> c <> "Месяц_номер"%string ->
               columns (trend_frame d) !! c = columns d !! c.
Proof.
  intros H. unfold trend_frame. rewrite H. simpl. repeat split.
  - rewrite lookup_insert_ne by discriminate. apply lookup_insert_eq.
  - apply lookup_insert_eq.
  - intros c H1 H2. now rewrite !lookup_insert_ne by congruence.
Qed.

(** The scoring part of the trend method on a single-year frame. *)
Lemma trend_scoring_one_year (d : DataFrame) (years : list float) (month_number : Series) :
  columns d !! "Год"%string = Some (NumSeries years) ->
  columns d !! "Месяц_номер"%string = Some month_number ->
  one_year years ->
  sales_complete d (length years) ->
  (forall c, In c (map snd metrics) -> numeric_if_present d c) ->
  ~ no_metric_column d ->
  triple (fun s => no_error s /\ frame s = d) trend_scoring
    (fun score s => score = 2 /\ no_error s) (fun _ _ => False).
Proof.
  intros Hy Hm Hone Hsales Hnum Hsome s [Hne Hfr].
  assert (Hok : forall c, In c (map snd metrics) -> has_col d c = true ->
                          fst (_calculate_yoy_score d c) = 2).
  { intros c Hc Hhas. destruct (Hnum c Hc) as [Hnone | [vals Hvals]].
    - unfold has_col in Hhas. rewrite Hnone in Hhas. discriminate.
    - now rewrite (yoy_score_one_year d c years vals Hy Hvals Hone). }
  pose proof (metrics_loop (fun z => z = 2) d Hok s (conj Hne Hfr)) as Hloop.
  unfold trend_scoring, mbind, SE_bind, df, lift. rewrite Hfr.
  rewrite (getitem_some d _ _ Hy). simpl numeric. cbv iota beta.
  rewrite (forM_ok (peak_month d) (unique years))
    by (intros year; exact (peak_month_ok d years month_number year Hy Hm Hsales)).
  destruct (foldM metric_step [] metrics s) as [[scores | e] s1]; [| destruct Hloop].
  destruct Hloop as (Hne1 & Hfr1 & Hall & Hlen & visited & Hvis & Habs).
  destruct scores as [| z zs].
  - exfalso. apply Hsome. rewrite app_nil_r in Hvis. unfold no_metric_column.
    rewrite Hvis. auto.
  - rewrite (final_score_two (z :: zs)); [| discriminate | simpl in *; lia | exact Hall].
    simpl. split; [reflexivity |].
    unfold no_error in *. simpl. now rewrite lookup_insert_ne by discriminate.
Qed.


End SingleYear.

Lemma sample_trends_single_year :
  single_year [timestamp 2023 1 19358; timestamp 2023 2 19389; timestamp 2023 3 19417].
Proof.
  intros t1 t2 [H1 | [H1 | [H1 | []]]] [H2 | [H2 | [H2 | []]]];
    injection H1 as <-; injection H2 as <-; reflexivity.
Defined.

Lemma sample_trends_metrics_numeric (c : string) :
  In c (map snd metrics) -> numeric_if_present sample_trends c.
Proof.
  intros [<- | [<- | [<- | [<- | [<- | []]]]]]; right; eexists; vm_compute; reflexivity.
Defined.

Lemma sample_trends_has_metric : ~ no_metric_column sample_trends.
Proof.
  intros H. inversion H as [| m ms Hm _]. vm_compute in Hm. discriminate.
Defined.
Lemma sample_trends_month : columns sample_trends !! "Месяц"%string = Some (TimeSeries [timestamp 2023 1 19358; timestamp 2023 2 19389; timestamp 2023 3 19417]).
Proof. vm_compute. reflexivity. Defined.
Lemma sample_trends_sales : sales_complete sample_trends 3.
Proof.
  right. exists (map Float.of_Z [1200; 1500; 1400]).
  repeat split; [vm_compute; repeat constructor].
Defined.



(** ** From upload to scoring *)

Section UploadToScoring.
Context {R : Reductions}.

(** C5, as the code has it. The validation results are stored next to the
    tables and nothing else is done with them: every table the file
    processor loaded is kept in the session whatever its classification,
    and the scoring engine is run on all of them, each module scoring the
    table loaded under its key. *)
Theorem loaded_tables_are_scored_whatever_the_validation
  (processed : gmap string DataFrame) (results : gmap string validation) (st : session) :
  size processed <> 0%nat ->
  fst (validate_all_data processed) = Ok results ->
  let uploaded := _process_uploaded_files processed st in
  loaded_data uploaded = processed
  /\ validation_results uploaded = results
  /\ exists trends queries price stock ads r,
       scoring_results (calculate_scoring uploaded) = Some r
       /\ fst (calculate_total_score processed) = Ok r
       /\ module_result _calculate_trend_score processed "trends" trends
       /\ module_result _calculate_query_score processed "queries" queries
       /\ module_result _calculate_price_score processed "price" price
       /\ module_result _calculate_stock_score processed "days" stock
       /\ module_result _calculate_ads_score processed "products" ads
       /\ trend_score r = score_of trends
       /\ query_score r = score_of queries
       /\ price_score r = score_of price
       /\ stock_score r = score_of stock
       /\ ads_score r = score_of ads.
Proof.
  intros Hsize Hvalid uploaded.
  assert (Hup : uploaded = {| loaded_data := processed;
                              validation_results := results;
                              scoring_results := scoring_results st |}).
  { unfold uploaded, _process_uploaded_files.
    destruct (Nat.eqb_spec (size processed) 0); [contradiction |].
    pose proof (validate_all_data_tables processed) as Hframe.
    destruct (validate_all_data processed) as [r tables].
    cbn [fst snd] in *. subst. reflexivity. }
  rewrite Hup. cbn [loaded_data validation_results scoring_results].
  split; [reflexivity |]. split; [reflexivity |].
  destruct (calculate_total_score_run processed)
    as (trends & queries & price & stock & ads & r & Hrun & Ht & Hq & Hp & Hs & Ha
        & E1 & E2 & E3 & E4 & E5 & _).
  exists trends, queries, price, stock, ads, r.
  unfold calculate_scoring. cbn [loaded_data]. rewrite Hrun.
  cbn [scoring_results fst]. repeat split; assumption.
Qed.

End UploadToScoring.

(** C5 as stated fails: the sample trends report is classified invalid
    (its second row has more products with sales than products), yet it is
    scored, and the trend module contributes 2 to the composite. *)
Lemma invalid_report_is_scored :
  valid <$> validation_results
              (@calculate_scoring sequential_reductions
                 (_process_uploaded_files sample_upload empty_session)) !! "trends"%string
  = Some false
  /\ trend_score <$> scoring_results
                       (@calculate_scoring sequential_reductions
                          (_process_uploaded_files sample_upload empty_session))
     = Some 2
  /\ total_score <$> scoring_results
                       (@calculate_scoring sequential_reductions
                          (_process_uploaded_files sample_upload empty_session))
     = Some 2.
Proof. vm_compute. auto. Qed.

Lemma sample_upload_not_empty : size sample_upload <> 0%nat.
Proof. vm_compute. discriminate. Defined.

Lemma loaded_tables_are_scored_witness :
  exists r,
    scoring_results
      (@calculate_scoring sequential_reductions
         (_process_uploaded_files sample_upload empty_session)) = Some r
    /\ fst (@calculate_total_score sequential_reductions sample_upload) = Ok r.
Proof.
  destruct (fst (validate_all_data sample_upload)) as [results | e] eqn:Hvalid;
    [| vm_compute in Hvalid; discriminate].
  pose proof (@loaded_tables_are_scored_whatever_the_validation sequential_reductions
                sample_upload results empty_session sample_upload_not_empty Hvalid) as H.
  cbv zeta in H.
  destruct H as (_ & _ & trends & queries & price & stock & ads & r & Hr & Hrun & _).
  exists r. split; assumption.
Defined.

(** ** Products with sales above products *)

Lemma vcall_triple {A} (body : V A) (d : DataFrame)
  (Q : A -> vscope -> Prop) (E : pyexc -> vscope -> Prop) :
  triple (fun s => s = {| vframe := d; warnings := []; errors := [] |}) body Q E ->
  match vcall body d with
  | (Ok a, d') => exists s, Q a s /\ vframe s = d'
  | (Raise e, d') => exists s, E e s /\ vframe s = d'
  end.
Proof.
  intros H. unfold vcall. specialize (H _ eq_refl).
  destruct (body _) as [[a | e] s]; eauto.
Qed.

Lemma count_true_pos (mask : list bool) (i : nat) :
  mask !! i = Some true -> 0 < count_true mask.
Proof.
  revert i. unfold count_true.
  induction mask as [| b mask IH]; intros i H; [discriminate |].
  destruct i as [| i]; simpl in H.
  - injection H as ->. simpl. lia.
  - specialize (IH i H). simpl. destruct b; simpl; lia.
Qed.

Lemma more_sales_counted (with_sales products : list float) :
  more_sales_row with_sales products ->
  0 < count_true (zip_with Float.gtb with_sales products).
Proof.
  intros (i & x & y & Hx & Hy & Hgt). apply (count_true_pos _ i).
  rewrite lookup_zip_with, Hx. simpl. rewrite Hy. simpl. now rewrite Hgt.
Qed.

Lemma is_empty_with {A} (l : list A) (x : A) : In x l -> is_empty l = false.
Proof. destruct l; simpl; [tauto | reflexivity]. Qed.

Lemma trend_consistency_recorded (d : DataFrame) (products with_sales : list float) :
  columns d !! "Товары"%string = Some (NumSeries products) ->
  columns d !! "Товары с продажами"%string = Some (NumSeries with_sales) ->
  more_sales_row with_sales products ->
  triple (quiet d) check_trend_consistency
    (fun _ s =>
       quiet d s
       /\ In (MoreSalesThanProducts (count_true (zip_with Float.gtb with_sales products)))
             (errors s))
    (fun _ => quiet d).
Proof.
  intros Hp Hws Hrow s [Hfr Hq].
  pose proof (more_sales_counted with_sales products Hrow) as Hpos.
  unfold check_trend_consistency, mbind, SE_bind, vdf, lift. rewrite Hfr.
  simpl forallb. unfold has_col. rewrite Hp, Hws. simpl andb. cbv iota. unfold when.
  rewrite (getitem_some d _ _ Hws), (getitem_some d _ _ Hp). simpl cmp_series. cbv iota beta.
  destruct (Z.ltb_spec 0 (count_true (zip_with Float.gtb with_sales products))); [| lia].
  simpl. split; [split; assumption |]. apply in_or_app. right. left. reflexivity.
Qed.

Lemma validation_failed_recorded (kind : report_kind) (d : DataFrame) (e : pyexc) :
  triple (quiet d) (errors_append (ValidationFailed kind e))
    (fun _ s => quiet d s /\ In (ValidationFailed kind e) (errors s)) (fun _ _ => False).
Proof.
  intros s [Hfr Hq]. simpl. split; [split; assumption |].
  apply in_or_app. right. left. reflexivity.
Qed.

(** The trends validator on a report with an inconsistent row. *)
Lemma _validate_trends_data_inconsistent (d : DataFrame) (products with_sales : list float) :
  columns d !! "Товары"%string = Some (NumSeries products) ->
  columns d !! "Товары с продажами"%string = Some (NumSeries with_sales) ->
  more_sales_row with_sales products ->
  exists v,
    _validate_trends_data d = (Ok v, d)
    /\ valid v = false
    /\ Forall (fun m => is_inconsistency m = false) (v_warnings v)
    /\ (In (MoreSalesThanProducts (count_true (zip_with Float.gtb with_sales products)))
           (v_errors v)
        \/ exists e, In (ValidationFailed Trends e) (v_errors v)).
Proof.
  intros Hp Hws Hrow.
  pose proof (_validate_trends_data_frame d) as Hframe.
  unfold _validate_trends_data in *.
  set (n := count_true (zip_with Float.gtb with_sales products)).
  match goal with
  | |- context [vcall ?b d] =>
      assert (T : triple (fun s => s = {| vframe := d; warnings := []; errors := [] |}) b
                    (fun v _ =>
                       valid v = false
                       /\ Forall (fun m => is_inconsistency m = false) (v_warnings v)
                       /\ (In (MoreSalesThanProducts n) (v_errors v)
                           \/ exists e, In (ValidationFailed Trends e) (v_errors v)))
                    (fun _ _ => False));
      [| pose proof (vcall_triple b d _ _ T) as H;
         destruct (vcall b d) as [[v | e] d'] ]
  end.
  - eapply triple_bind with
      (Q1 := fun _ s => quiet d s
                        /\ (In (MoreSalesThanProducts n) (errors s)
                            \/ exists e, In (ValidationFailed Trends e) (errors s))).
    + eapply triple_try with (E1 := fun _ => quiet d).
      * eapply triple_conseq with (P' := quiet d)
          (Q' := fun _ s => quiet d s /\ In (MoreSalesThanProducts n) (errors s))
          (E' := fun _ => quiet d);
          [| intros s ->; split; [reflexivity | constructor] | intros a s [H1 H2]; auto
           | auto ].
        eapply triple_bind with (Q1 := fun _ => quiet d);
          [unfold check_required; preserves_steps | intros _].
        eapply triple_bind with (Q1 := fun _ => quiet d);
          [unfold check_trend_dates; preserves_steps | intros _].
        eapply triple_bind with (Q1 := fun _ => quiet d);
          [unfold check_numeric_column; preserves_steps | intros _].
        exact (trend_consistency_recorded d products with_sales Hp Hws Hrow).
      * intros e. eapply triple_conseq;
          [apply (validation_failed_recorded Trends d e) | auto | | auto].
        intros a s [H1 H2]. eauto.
    + intros _ s [[Hfr Hq] Herr]. simpl. repeat split.
      * destruct Herr as [H | [e H]]; eapply is_empty_with; exact H.
      * exact Hq.
      * exact Herr.
  - simpl in Hframe. subst d'. destruct H as (s & Hs & _). eauto.
  - destruct H as (s & [] & _).
Qed.

Lemma gtb_not_nan (x y : float) :
  Float.gtb x y = true -> Float.is_nan x = false /\ Float.is_nan y = false.
Proof.
  unfold Float.gtb, SFcompare.
  destruct x as [| | |], y as [| | |]; simpl; intros H; try discriminate; auto.
Qed.

Lemma lookup_map {A B} (f : A -> B) (l : list A) (i : nat) (x : A) :
  l !! i = Some x -> map f l !! i = Some (f x).
Proof.
  revert i. induction l as [| a l IH]; intros [| i] H; simpl in *; try discriminate.
  - now injection H as ->.
  - apply IH, H.
Qed.

Lemma lookup_mask_and (a b : list bool) (i : nat) :
  a !! i = Some true -> b !! i = Some true -> mask_and a b !! i = Some true.
Proof.
  revert b i. induction a as [| x a IH]; intros [| y b] [| i] Ha Hb; simpl in *;
    try discriminate.
  - injection Ha as ->. injection Hb as ->. reflexivity.
  - apply IH; assumption.
Qed.

Lemma select_lookup {A} (mask : list bool) (xs ys : list A) (i : nat) (x y : A) :
  mask !! i = Some true -> xs !! i = Some x -> ys !! i = Some y ->
  exists j, select mask xs !! j = Some x /\ select mask ys !! j = Some y.
Proof.
  revert xs ys i.
  induction mask as [| b mask IH]; intros [| x0 xs] [| y0 ys] [| i] Hm Hx Hy;
    simpl in *; try discriminate.
  - injection Hm as ->. injection Hx as ->. injection Hy as ->. exists 0%nat. auto.
  - destruct (IH xs ys i Hm Hx Hy) as (j & H1 & H2).
    destruct b; [exists (S j) | exists j]; auto.
Qed.

Lemma has_col_getitem (d : DataFrame) (c : string) :
  has_col d c = true -> exists s, getitem d c = Ok s.
Proof. unfold has_col, getitem. destruct (columns d !! c); [eauto | discriminate]. Qed.

(** The rows kept by [dropna] on the two product columns include every row
    where one exceeds the other. *)
Lemma price_consistency_recorded (d : DataFrame) (products with_sales : list float) :
  columns d !! "Товары"%string = Some (NumSeries products) ->
  columns d !! "Товары с продажами"%string = Some (NumSeries with_sales) ->
  length products = nrows d ->
  more_sales_row with_sales products ->
  triple (quiet d) check_price_consistency
    (fun _ s => quiet d s /\ exists n, 0 < n /\ In (InconsistentSegments n) (errors s))
    (fun _ => quiet d).
Proof.
  intros Hp Hws Hlen (i & x & y & Hx & Hy & Hgt) s [Hfr Hq].
  destruct (gtb_not_nan x y Hgt) as [Nx Ny].
  unfold check_price_consistency, mbind, SE_bind, vdf, lift. rewrite Hfr.
  simpl forallb. unfold has_col. rewrite Hp, Hws. simpl andb. cbv iota. unfold when.
  unfold dropna.
  change (mapM ?f ["Товары"%string; "Товары с продажами"%string])
    with (a ← f "Товары"%string;
          k ← (b ← f "Товары с продажами"%string; k ← mret []; mret (b :: k));
          mret (a :: k)).
  cbv beta. rewrite (getitem_some d _ _ Hp), (getitem_some d _ _ Hws).
  unfold mbind, result_bind, mret, result_ret. cbn [fold_right isna].
  set (mask := mask_and (map negb (map Float.is_nan products))
                 (mask_and (map negb (map Float.is_nan with_sales))
                    (replicate (nrows d) true))).
  assert (Hmask : mask !! i = Some true).
  { unfold mask. apply lookup_mask_and; [| apply lookup_mask_and].
    - rewrite (lookup_map negb _ i (Float.is_nan y)) by (now apply lookup_map).
      now rewrite Ny.
    - rewrite (lookup_map negb _ i (Float.is_nan x)) by (now apply lookup_map).
      now rewrite Nx.
    - apply lookup_replicate_2. rewrite <- Hlen. eapply lookup_lt_Some, Hy. }
  pose proof (count_true_pos mask i Hmask) as Hrows.
  assert (Hkept : (0 <? len (filter_rows d mask)) = true)
    by (apply Z.ltb_lt; exact Hrows).
  rewrite Hkept.
  rewrite (getitem_filter_rows d mask _ _ Hws), (getitem_filter_rows d mask _ _ Hp).
  simpl select_series. simpl cmp_series. cbv iota beta.
  destruct (select_lookup mask with_sales products i x y Hmask Hx Hy) as (j & Hj1 & Hj2).
  assert (Hcount : 0 < count_true (zip_with Float.gtb (select mask with_sales)
                                     (select mask products)))
    by (apply more_sales_counted; exists j, x, y; auto).
  destruct (Z.ltb_spec 0 (count_true (zip_with Float.gtb (select mask with_sales)
                                        (select mask products)))); [| lia].
  simpl. split; [split; assumption |]. eexists. split; [exact Hcount |].
  apply in_or_app. right. left. reflexivity.
Qed.

Lemma price_checks_recorded (d : DataFrame) (products with_sales : list float) :
  columns d !! "Товары"%string = Some (NumSeries products) ->
  columns d !! "Товары с продажами"%string = Some (NumSeries with_sales) ->
  length products = nrows d ->
  more_sales_row with_sales products ->
  triple (quiet d)
    (check_price_ranges;; check_price_revenue;; check_price_consistency;;
     mret (None : option validation))
    (fun early s =>
       quiet d s /\ early = None
       /\ exists n, 0 < n /\ In (InconsistentSegments n) (errors s))
    (fun _ => quiet d).
Proof.
  intros Hp Hws Hlen Hrow.
  eapply triple_bind with (Q1 := fun _ => quiet d);
    [unfold check_price_ranges; preserves_steps | intros _].
  eapply triple_bind with (Q1 := fun _ => quiet d);
    [unfold check_price_revenue; preserves_steps | intros _].
  eapply triple_bind;
    [exact (price_consistency_recorded d products with_sales Hp Hws Hlen Hrow) | intros []].
  apply triple_ret. intros s [Hq Herr]. auto.
Qed.

Lemma quiet_initial (d : DataFrame) :
  quiet d {| vframe := d; warnings := []; errors := [] |}.
Proof. split; [reflexivity | constructor]. Qed.

(** The price validator on a report with an inconsistent row. *)
Lemma _validate_price_data_inconsistent (d : DataFrame) (products with_sales : list float) :
  columns d !! "Товары"%string = Some (NumSeries products) ->
  columns d !! "Товары с продажами"%string = Some (NumSeries with_sales) ->
  length products = nrows d ->
  more_sales_row with_sales products ->
  exists v,
    _validate_price_data d = (Ok v, d)
    /\ valid v = false
    /\ Forall (fun m => is_inconsistency m = false) (v_warnings v)
    /\ ((exists n, 0 < n /\ In (InconsistentSegments n) (v_errors v))
        \/ (exists e, In (ValidationFailed Price e) (v_errors v))
        \/ (exists missing_cols,
              missing_cols = missing_columns d ["От"; "До"; revenue_col]%string
              /\ missing_cols <> []
              /\ v_errors v = [MissingColumns missing_cols])).
Proof.
  intros Hp Hws Hlen Hrow.
  pose proof (_validate_price_data_frame d) as Hframe.
  unfold _validate_price_data in *.
  set (outcome := fun errs : list message =>
         (exists n, 0 < n /\ In (InconsistentSegments n) errs)
         \/ (exists e, In (ValidationFailed Price e) errs)
         \/ (exists missing_cols,
               missing_cols = missing_columns d ["От"; "До"; revenue_col]%string
               /\ missing_cols <> []
               /\ errs = [MissingColumns missing_cols])).
  match goal with
  | |- context [vcall ?b d] =>
      assert (T : triple (fun s => s = {| vframe := d; warnings := []; errors := [] |}) b
                    (fun v _ =>
                       valid v = false
                       /\ Forall (fun m => is_inconsistency m = false) (v_warnings v)
                       /\ outcome (v_errors v))
                    (fun _ _ => False));
      [| pose proof (vcall_triple b d _ _ T) as H;
         destruct (vcall b d) as [[v | e] d'] ]
  end.
  - eapply triple_bind with
      (Q1 := fun early s =>
               quiet d s
               /\ match early with
                  | Some v => valid v = false
                              /\ Forall (fun m => is_inconsistency m = false) (v_warnings v)
                              /\ outcome (v_errors v)
                  | None => (exists n, 0 < n /\ In (InconsistentSegments n) (errors s))
                            \/ (exists e, In (ValidationFailed Price e) (errors s))
                  end).
    + eapply triple_try with (E1 := fun _ => quiet d).
      * intros s ->. unfold mbind at 1, SE_bind at 1, vdf. cbn [vframe]. cbv zeta.
        destruct (negb (is_empty (missing_columns d ["От"; "До"; revenue_col]%string)))
          eqn:Hmiss.
        -- unfold mbind, SE_bind, errors_append, modify, get, mret, SE_ret. simpl.
           split; [split; [reflexivity | constructor] |].
           split; [reflexivity |]. split; [constructor |].
           right. right. eexists. split; [reflexivity |]. split; [| reflexivity].
           destruct (missing_columns d _); [discriminate | discriminate].
        -- pose proof (price_checks_recorded d products with_sales Hp Hws Hlen Hrow
                         {| vframe := d; warnings := []; errors := [] |}
                         (quiet_initial d)) as Hrest.
           destruct ((check_price_ranges;; check_price_revenue;; check_price_consistency;;
                      mret (None : option validation))
                       {| vframe := d; warnings := []; errors := [] |})
             as [[early | e] s'].
           ++ destruct Hrest as (Hq & -> & Herr). auto.
           ++ exact Hrest.
      * intros e s Hq. simpl. split.
        -- destruct Hq as [Hfr Hq]. split; assumption.
        -- right. exists e. apply in_or_app. right. left. reflexivity.
    + intros [v |] s [[Hfr Hq] Hearly].
      * simpl. exact Hearly.
      * assert (Hne : is_empty (errors s) = false).
        { destruct Hearly as [(n & _ & Hin) | (e & Hin)]; eapply is_empty_with; exact Hin. }
        unfold mbind, SE_bind, get, vdf. rewrite Hfr.
        destruct (forallb (has_col d) ["От"; "До"]%string && (0 <? len d)) eqn:Hcols.
        -- simpl in Hcols. apply andb_true_iff in Hcols. destruct Hcols as [Hcols _].
           apply andb_true_iff in Hcols. destruct Hcols as [Hfrom Hto].
           apply andb_true_iff in Hto. destruct Hto as [Hto _].
           destruct (has_col_getitem d _ Hfrom) as [sf Hsf].
           destruct (has_col_getitem d _ Hto) as [st Hst].
           unfold lift. rewrite Hsf, Hst. simpl.
           repeat split; [exact Hne | exact Hq |]. unfold outcome. tauto.
        -- simpl. repeat split; [exact Hne | exact Hq |]. unfold outcome. tauto.
  - simpl in Hframe. subst d'. destruct H as (s & Hs & _). eauto.
  - destruct H as (s & [] & _).
Qed.


Lemma sample_trends_products :
  columns sample_trends !! "Товары"%string = Some (numbers [100; 110; 120]).
Proof. vm_compute. reflexivity. Defined.

Lemma sample_trends_with_sales :
  columns sample_trends !! "Товары с продажами"%string = Some (numbers [60; 130; 70]).
Proof. vm_compute. reflexivity. Defined.

Lemma sample_trends_more_sales :
  more_sales_row (map Float.of_Z [60; 130; 70]) (map Float.of_Z [100; 110; 120]).
Proof.
  exists 1%nat, (Float.of_Z 130), (Float.of_Z 110). repeat split; vm_compute; reflexivity.
Defined.


(** On the sample reports the inconsistency is the error recorded. *)
Example inconsistency_recorded_as_error :
  errors_of (fst (_validate_trends_data sample_trends)) = Some [MoreSalesThanProducts 1]
  /\ errors_of (fst (_validate_price_data sample_price)) = Some [InconsistentSegments 1].
Proof. vm_compute. auto. Qed.


(** * Further properties *)

(** ** The composite score in closed form *)

Section ClosedFormProps.
Context {R : Reductions}.

Lemma module_result_run method tables key r :
  module_result method tables key r -> r = module_run method (tables !! key).
Proof.
  unfold module_result, module_run.
  destruct (tables !! key) as [d |], r as [sa |]; try tauto.
  intros [-> _]. reflexivity.
Qed.

Lemma calculate_total_score_scoring_of (loaded_data : gmap string DataFrame) :
  calculate_total_score loaded_data = (Ok (scoring_of loaded_data), scored_tables loaded_data).
Proof.
  unfold calculate_total_score, scored_tables, scoring_of, mbind, SE_bind.
  destruct (on_table_run "trends" _ _ loaded_data trend_runs) as (trends & -> & Ht).
  destruct (on_table_run "queries" _ _ (alter trend_frame "trends" loaded_data) query_runs)
    as (queries & -> & Hq).
  rewrite alter_id_tables.
  destruct (on_table_run "price" _ _ (alter trend_frame "trends" loaded_data) price_runs)
    as (price & -> & Hp).
  rewrite alter_id_tables.
  destruct (on_table_run "days" _ _ (alter trend_frame "trends" loaded_data) stock_runs)
    as (stock & -> & Hs).
  destruct (on_table_run "products" _ _
              (alter stock_frame "days" (alter trend_frame "trends" loaded_data)) ads_runs)
    as (ads & -> & Ha).
  rewrite alter_id_tables.
  apply module_result_other_tables in Hq; [| discriminate].
  apply module_result_other_tables in Hp; [| discriminate].
  apply module_result_other_tables in Hs; [| discriminate].
  apply module_result_other_tables in Ha; [| discriminate].
  apply module_result_other_tables in Ha; [| discriminate].
  apply module_result_run in Ht, Hq, Hp, Hs, Ha. subst.
  reflexivity.
Qed.

End ClosedFormProps.

Section ModuleRuns.
Context {R : Reductions}.

Lemma module_run_ads (d : option DataFrame) :
  score_of (module_run _calculate_ads_score d) = 0.
Proof.
  destruct d as [d |]; [| reflexivity]. simpl.
  destruct (_calculate_ads_score_outcome d) as (a & -> & _). reflexivity.
Qed.

Lemma module_run_range method (d : option DataFrame) :
  (forall d, exists sa f, method d = (Ok sa, f) /\ 0 <= fst sa <= 4) ->
  0 <= score_of (module_run method d) <= 4.
Proof.
  intros H. destruct d as [d |]; simpl; [| lia].
  destruct (H d) as (sa & f & -> & Hr). simpl. destruct sa. exact Hr.
Qed.

Lemma scoring_of_ranges (loaded_data : gmap string DataFrame) :
  0 <= trend_score (scoring_of loaded_data) <= 4
  /\ 0 <= query_score (scoring_of loaded_data) <= 4
  /\ 0 <= price_score (scoring_of loaded_data) <= 4
  /\ 0 <= stock_score (scoring_of loaded_data) <= 4
  /\ ads_score (scoring_of loaded_data) = 0.
Proof.
  unfold scoring_of, results_of. cbn [trend_score query_score price_score stock_score ads_score].
  repeat split; try apply module_run_ads;
    apply module_run_range; intros d.
  all: first [ destruct (trend_runs d) as (sa & H1 & H2); solve [eauto]
             | destruct (query_runs d) as (sa & H1 & H2); solve [eauto]
             | destruct (price_runs d) as (sa & H1 & H2); solve [eauto]
             | destruct (stock_runs d) as (sa & H1 & H2); solve [eauto] ].
Qed.

End ModuleRuns.

(** ** The rating, the headline and the ads module *)

Lemma _get_niche_rating_buckets (total : Z) :
  0 <= total <= 20 ->
  _get_niche_rating total
  = if 16 <=? total then "excellent"%string
    else if 11 <=? total then "good"%string
    else if 6 <=? total then "average"%string
    else "poor"%string.
Proof.
  intros H.
  assert (Hc : total = 0 \/ total = 1 \/ total = 2 \/ total = 3 \/ total = 4 \/ total = 5
               \/ total = 6 \/ total = 7 \/ total = 8 \/ total = 9 \/ total = 10
               \/ total = 11 \/ total = 12 \/ total = 13 \/ total = 14 \/ total = 15
               \/ total = 16 \/ total = 17 \/ total = 18 \/ total = 19 \/ total = 20) by lia.
  repeat destruct Hc as [-> | Hc]; try subst total; reflexivity.
Qed.

Lemma _get_niche_rating_above (total : Z) :
  20 < total -> _get_niche_rating total = "poor"%string.
Proof.
  intros H. unfold _get_niche_rating, TOTAL_SCORE_RANGES; simpl.
  repeat match goal with
         | |- context [Z.leb ?a ?b] => destruct (Z.leb_spec a b); simpl; try lia
         end; auto.
Qed.

(** X4. For a total between 0 and 20 the first recommendation is the one of
    the rating that [_get_niche_rating] gives.  Above 20 the two disagree:
    the rating falls back to "poor", the first recommendation is the one of
    an excellent niche. *)
Theorem rating_and_headline_recommendation (total trend query ads : Z) :
  (0 <= total <= 20 ->
   hd ""%string (_generate_recommendations total trend query ads)
   = if String.eqb (_get_niche_rating total) "excellent"
     then "🟢 Отличная ниша для входа! Высокий потенциал роста."%string
     else if String.eqb (_get_niche_rating total) "good"
     then "🟡 Хорошая ниша с умеренными рисками."%string
     else if String.eqb (_get_niche_rating total) "average"
     then "🟠 Средняя ниша. Требуется детальный анализ конкурентов."%string
     else "🔴 Сложная ниша. Высокие риски входа."%string)
  /\ (20 < total ->
      _get_niche_rating total = "poor"%string
      /\ hd ""%string (_generate_recommendations total trend query ads)
         = "🟢 Отличная ниша для входа! Высокий потенциал роста."%string).
Proof.
  split.
  - intros H. rewrite (_get_niche_rating_buckets total H).
    unfold _generate_recommendations, total_recommendation. cbn [app hd].
    destruct (16 <=? total); [reflexivity |].
    destruct (11 <=? total); [reflexivity |].
    destruct (6 <=? total); reflexivity.
  - intros H. split; [apply _get_niche_rating_above, H |].
    unfold _generate_recommendations, total_recommendation. cbn [app hd].
    destruct (Z.leb_spec 16 total); [reflexivity | lia].
Qed.

Lemma rating_and_headline_witness :
  hd ""%string (_generate_recommendations 12 3 3 0)
  = "🟡 Хорошая ниша с умеренными рисками."%string
  /\ _get_niche_rating 21 = "poor"%string.
Proof.
  destruct (rating_and_headline_recommendation 12 3 3 0) as [H _].
  destruct (rating_and_headline_recommendation 21 3 3 0) as [_ H'].
  split; [rewrite H by lia; reflexivity | apply H'; lia].
Defined.

Section AdsCap.
Context {R : Reductions}.

(** X3. [calculate_total_score] returns on every mapping with an ads score
    of 0 and a total of at most 16, the sum of the other four modules; the
    rating is "excellent" only for a total of exactly 16, and the last
    recommendation is always the one for an ads score of at most 2. *)
Theorem ads_module_caps_the_composite (loaded_data : gmap string DataFrame) :
  exists r,
    fst (calculate_total_score loaded_data) = Ok r
    /\ ads_score r = 0
    /\ detailed_analysis r !! "ads"%string
       = snd <$> module_run _calculate_ads_score (loaded_data !! "products"%string)
    /\ 0 <= total_score r <= 16
    /\ (niche_rating r = "excellent"%string <-> total_score r = 16)
    /\ last (recommendations r)
       = Some "🎯 Высокие рекламные ставки относительно чека. Ниша может быть перегрета."%string.
Proof.
  exists (scoring_of loaded_data).
  rewrite calculate_total_score_scoring_of. split; [reflexivity |].
  destruct (scoring_of_ranges loaded_data) as (Ht & Hq & Hp & Hs & Ha).
  split; [exact Ha |].
  unfold scoring_of, results_of in *.
  cbn [trend_score query_score price_score stock_score ads_score total_score niche_rating
       recommendations detailed_analysis] in *.
  rewrite Ha in *.
  split.
  { destruct (module_run _calculate_ads_score _) as [[score a] |]; simpl.
    - apply lookup_insert_eq.
    - unfold record_analysis.
      repeat match goal with
             | |- context [match ?x with _ => _ end] => destruct x as [[? ?] |]
             end; repeat (rewrite lookup_insert_ne by discriminate); apply lookup_empty. }
  split; [lia |]. split.
  - rewrite _get_niche_rating_buckets by lia.
    match goal with |- context [16 <=? ?t] => destruct (Z.leb_spec 16 t) end.
    + split; [lia | reflexivity].
    + repeat match goal with |- context [?a <=? ?b] => destruct (a <=? b) end;
        split; first [discriminate | lia].
  - unfold _generate_recommendations. cbn [Z.leb Z.compare].
    rewrite !last_app. reflexivity.
Qed.

End AdsCap.

(** ** Running the module methods *)

Lemma bind_lift {S A B} (r : result A) (f : A -> SE S B) (s : S) :
  (lift r ≫= f) s = match r with Ok a => f a s | Raise e => (Raise e, s) end.
Proof. destruct r; reflexivity. Qed.

Lemma bind_df {B} (f : DataFrame -> M B) (s : scope) : (df ≫= f) s = f (frame s) s.
Proof. reflexivity. Qed.

Lemma bind_modify {S B} (g : S -> S) (f : unit -> SE S B) (s : S) :
  (modify g ≫= f) s = f tt (g s).
Proof. reflexivity. Qed.

Lemma bind_ret {S A B} (a : A) (f : A -> SE S B) (s : S) : (mret a ≫= f) s = f a s.
Proof. reflexivity. Qed.

Lemma bind_try {S A B} (body : SE S A) (handler : pyexc -> SE S A) (f : A -> SE S B) (s : S) :
  (try_except body handler ≫= f) s
  = match body s with
    | (Ok a, s') => f a s'
    | (Raise e, s') => (handler e ≫= f) s'
    end.
Proof.
  unfold mbind at 1, SE_bind at 1, try_except.
  destruct (body s) as [[a | e] s']; reflexivity.
Qed.

Lemma bind_analysis_set {B} (k : string) (v : value) (f : unit -> M B) (s : scope) :
  (analysis_set k v ≫= f) s
  = f tt {| frame := frame s; analysis := <[k := v]> (analysis s) |}.
Proof. reflexivity. Qed.

Lemma run_return_with_analysis (score : Z) (s : scope) :
  return_with_analysis score s = (Ok (score, analysis s), s).
Proof. reflexivity. Qed.

Lemma run_ret {S A} (a : A) (s : S) : (mret a : SE S A) s = (Ok a, s).
Proof. reflexivity. Qed.

Lemma leb_geb_swap (x y : float) : Float.leb y x = true -> Float.geb x y = true.
Proof.
  unfold Float.geb, Float.leb, SFleb, SFcompare.
  destruct x as [sx | sx | | sx mx ex], y as [sy | sy | | sy my ey];
    repeat match goal with s : bool |- _ => destruct s end;
    simpl; intros H; try discriminate; try reflexivity;
    compare_cases; subst; try discriminate; try reflexivity; try lia.
Qed.

Lemma leb_trans (x y z : float) :
  Float.leb x y = true -> Float.leb y z = true -> Float.leb x z = true.
Proof.
  intros H1 H2. apply geb_leb_swap.
  exact (geb_leb_trans x y z (leb_geb_swap y x H1) H2).
Qed.

Lemma count_true_exists {A} (p : A -> bool) (xs : list A) (x : A) :
  In x xs -> p x = true -> 0 < count_true (map p xs).
Proof.
  intros Hin Hp. unfold count_true.
  induction xs as [| y ys IH]; [destruct Hin |].
  simpl. destruct Hin as [-> | Hin].
  - rewrite Hp. simpl. lia.
  - specialize (IH Hin). destruct (p y); simpl; lia.
Qed.

Section AdsName.
Context {R : Reductions}.

Lemma mean_of_num (xs : list float) : mean_of (NumSeries xs) = Ok (series_mean xs).
Proof. reflexivity. Qed.

(** X1. On every products table the ads module returns, with score 0, the
    table as it received it and an [error] entry in its analysis: a column
    is missing or unusable, one of the two position groups is empty, or the
    unbound name [avg_cmp_top10] is read. *)
Theorem ads_score_is_zero_on_every_table (d : DataFrame) :
  exists a, _calculate_ads_score d = (Ok (0, a), d) /\ is_Some (a !! "error"%string).
Proof. exact (_calculate_ads_score_outcome d). Qed.

(** X2. On a products table whose position, bid and price columns are
    numeric and that has a product in the top 10, the ads module returns
    score 0 and its [error] entry is the NameError on [avg_cmp_top10]: the
    first ratio is never computed. *)
Theorem ads_score_reads_an_unbound_name (d : DataFrame) (position cpm price : list float)
  (p : float) :
  columns d !! "Category position avg"%string = Some (NumSeries position) ->
  columns d !! "Search cpm avg"%string = Some (NumSeries cpm) ->
  columns d !! "Final price"%string = Some (NumSeries price) ->
  In p position -> Float.leb p (Float.of_Z 10) = true ->
  score_and_error (fst (_calculate_ads_score d))
  = Some (0, Some (VExc (NameError "avg_cmp_top10"))).
Proof.
  intros Hpos Hcpm Hprice Hin Hp.
  assert (H10 : 0 < count_true (map (fun v => Float.leb v (Float.of_Z 10)) position))
    by (apply (count_true_exists _ position p Hin Hp)).
  assert (H100 : 0 < count_true (map (fun v => Float.leb v (Float.of_Z 100)) position)).
  { apply (count_true_exists _ position p Hin).
    apply (leb_trans p (Float.of_Z 10)); [exact Hp | reflexivity]. }
  assert (E10 : (len (filter_rows d (map (fun v => Float.leb v (Float.of_Z 10)) position)) =? 0)
                = false)
    by (apply Z.eqb_neq;
        change (count_true (map (fun v => Float.leb v (Float.of_Z 10)) position) <> 0); lia).
  assert (E100 : (len (filter_rows d (map (fun v => Float.leb v (Float.of_Z 100)) position)) =? 0)
                 = false)
    by (apply Z.eqb_neq;
        change (count_true (map (fun v => Float.leb v (Float.of_Z 100)) position) <> 0); lia).
  unfold _calculate_ads_score, call, try_except, ads_scoring.
  rewrite bind_df. cbn [frame].
  rewrite (getitem_some d _ _ Hpos).
  repeat first [rewrite bind_lift | progress cbn [cmp_scalar] | progress cbv zeta].
  rewrite E10, E100. cbn [orb].
  repeat first
    [ rewrite bind_lift
    | rewrite (getitem_filter_rows d _ _ _ Hcpm)
    | rewrite (getitem_filter_rows d _ _ _ Hprice)
    | rewrite avg_cmp_top10_unbound
    | progress cbn [select_series]
    | rewrite mean_of_num ].
  unfold analysis_set, return_with_analysis. rewrite bind_modify.
  unfold mbind, SE_bind, get, mret, SE_ret. cbn [fst score_and_error analysis].
  rewrite lookup_insert_eq. reflexivity.
Qed.

End AdsName.

(** ** The year-over-year and query scores *)

Lemma has_col_some (d : DataFrame) (c : string) (s : Series) :
  columns d !! c = Some s -> has_col d c = true.
Proof. intros H. unfold has_col. now rewrite H. Qed.

Lemma has_col_none (d : DataFrame) (c : string) :
  columns d !! c = None -> has_col d c = false.
Proof. intros H. unfold has_col. now rewrite H. Qed.

Lemma getitem_has_col (d : DataFrame) (c : string) :
  has_col d c = true -> exists s, getitem d c = Ok s.
Proof.
  unfold has_col, getitem. destruct (columns d !! c); [eauto | discriminate].
Qed.

Lemma getitem_none (d : DataFrame) (c : string) :
  columns d !! c = None -> getitem d c = Raise (KeyError c).
Proof. intros H. unfold getitem. now rewrite H. Qed.

Section YoyAndQuery.
Context {R : Reductions}.

Lemma groupby_mean_numeric (d : DataFrame) (key col : string) (keys vals : list float) :
  columns d !! key = Some (NumSeries keys) ->
  columns d !! col = Some (NumSeries vals) ->
  exists yearly_data, groupby_mean d key col = Ok yearly_data.
Proof.
  intros Hk Hv. unfold groupby_mean, groupby, getitem. rewrite Hk, Hv. simpl.
  eexists.
  apply mapM_ok with
    (g := fun g : float * Series =>
            (fst g, series_mean match snd g with NumSeries xs => xs | _ => [] end)).
  intros g Hg. apply in_map_iff in Hg. destruct Hg as (k & <- & _). reflexivity.
Qed.

(** X5. [_calculate_yoy_score] returns on every table and metric a score
    between 1 and 4.  With a numeric year column and a numeric metric
    column it returns either 2 with a message or the bucket of an average
    change together with its trend label; without the year column, or
    without the metric column, it returns 1 with the KeyError of the
    column as [error]. *)
Theorem yoy_score_and_its_error_entry (d : DataFrame) (metric_col : string) :
  1 <= fst (_calculate_yoy_score d metric_col) <= 4
  /\ (forall years vals,
        columns d !! "Год"%string = Some (NumSeries years) ->
        columns d !! metric_col = Some (NumSeries vals) ->
        (exists text, _calculate_yoy_score d metric_col
                      = (2, VDict [("message"%string, VStr text)]))
        \/ (exists avg_yoy_change,
              _calculate_yoy_score d metric_col
              = (fst (yoy_bucket avg_yoy_change),
                 VDict [("trend"%string, VStr (snd (yoy_bucket avg_yoy_change)))])))
  /\ (columns d !! "Год"%string = None ->
      _calculate_yoy_score d metric_col = (1, VDict [("error"%string, VExc (KeyError "Год"))]))
  /\ (forall years,
        columns d !! "Год"%string = Some (NumSeries years) ->
        columns d !! metric_col = None ->
        _calculate_yoy_score d metric_col
        = (1, VDict [("error"%string, VExc (KeyError metric_col))])).
Proof.
  split; [apply _calculate_yoy_score_range |]. split; [| split].
  - intros years vals Hy Hv. unfold _calculate_yoy_score.
    destruct (groupby_mean_numeric d _ _ years vals Hy Hv) as (yearly_data & ->).
    cbv zeta. cbn [mbind result_bind].
    destruct (length yearly_data <? 2)%nat; [left; eauto |].
    destruct (yoy_changes_of (map snd yearly_data)) as [| c cs]; [left; eauto |].
    right. exists (np_mean (c :: cs)).
    destruct (yoy_bucket (np_mean (c :: cs))) as [score trend]. reflexivity.
  - intros Hy. unfold _calculate_yoy_score, groupby_mean, groupby.
    rewrite (getitem_none d _ Hy). reflexivity.
  - intros years Hy Hv. unfold _calculate_yoy_score, groupby_mean, groupby.
    rewrite (getitem_some d _ _ Hy), (getitem_none d _ Hv). reflexivity.
Qed.

Lemma nlargest_select_ok (d : DataFrame) (by_col : string) (xs : list float)
  (cols : list string) :
  columns d !! by_col = Some (NumSeries xs) ->
  Forall (fun c => has_col d c = true) cols ->
  nlargest_select d by_col cols = Ok tt.
Proof.
  intros Hby Hcols. unfold nlargest_select. rewrite (getitem_some d _ _ Hby).
  cbn [mbind result_bind].
  induction Hcols as [| c cols Hc _ IH]; [reflexivity |].
  cbn [forM_]. destruct (getitem_has_col d c Hc) as [s ->]. exact IH.
Qed.

Lemma _calculate_query_score_value (d : DataFrame) (ratio : list float) :
  columns d !! query_ratio_col = Some (NumSeries ratio) ->
  has_col d "Ключевое слово" = true ->
  has_col d "Частота WB" = true ->
  has_col d "Товаров в запросе" = true ->
  let effective_queries := count_true (map (fun v => Float.geb v (Float.of_Z 2)) ratio) in
  snd (_calculate_query_score d) = d
  /\ score_and_error (fst (_calculate_query_score d))
     = if 0 <? len d
       then Some (query_efficiency_score
                    (Float.mul (Float.div (Float.of_Z effective_queries) (Float.of_Z (len d)))
                               (Float.of_Z 100)),
                  None)
       else Some (0, Some (VExc (UnboundLocalError "efficiency_ratio"))).
Proof.
  intros Hratio Hk Hf Hp effective_queries.
  split; [apply _calculate_query_score_frame |].
  assert (Hn : nlargest_select d query_ratio_col
                 ["Ключевое слово"; "Частота WB"; "Товаров в запросе"; query_ratio_col]%string
               = Ok tt).
  { apply (nlargest_select_ok d _ ratio); [exact Hratio |].
    repeat constructor; try assumption. exact (has_col_some d _ _ Hratio). }
  unfold _calculate_query_score, call.
  rewrite bind_try, bind_df. cbn [frame].
  rewrite (has_col_some d _ _ Hratio).
  rewrite (getitem_some d _ _ Hratio).
  repeat first [rewrite bind_lift | progress cbn [cmp_scalar] | progress cbv zeta].
  rewrite bind_analysis_set.
  rewrite Hn. rewrite bind_lift.
  change (len (filter_rows d (map (fun v => Float.geb v (Float.of_Z 2)) ratio)))
    with effective_queries.
  destruct (0 <? len d).
  - cbn [load_local]. rewrite bind_lift, bind_analysis_set, run_ret.
    rewrite run_return_with_analysis. cbn [fst score_and_error analysis].
    rewrite lookup_insert_ne by discriminate.
    rewrite lookup_insert_ne by discriminate.
    reflexivity.
  - cbn [load_local]. rewrite bind_lift.
    unfold mbind at 1, SE_bind at 1.
    rewrite bind_analysis_set, run_ret, run_return_with_analysis.
    cbn [fst score_and_error analysis].
    rewrite lookup_insert_eq. reflexivity.
Qed.

(** X6. On a queries table with its three required columns and a numeric
    ratio column, the query module leaves the table as it is; on a table
    with rows it returns, without [error] entry, the bucket of the
    percentage of rows whose ratio is at least 2; on a table without rows
    it returns 0 with an UnboundLocalError on [efficiency_ratio]. *)
Theorem query_score_is_the_bucket_of_the_effective_share (d : DataFrame) (ratio : list float) :
  columns d !! query_ratio_col = Some (NumSeries ratio) ->
  has_col d "Ключевое слово" = true ->
  has_col d "Частота WB" = true ->
  has_col d "Товаров в запросе" = true ->
  let effective_queries := count_true (map (fun v => Float.geb v (Float.of_Z 2)) ratio) in
  snd (_calculate_query_score d) = d
  /\ score_and_error (fst (_calculate_query_score d))
     = if 0 <? len d
       then Some (query_efficiency_score
                    (Float.mul (Float.div (Float.of_Z effective_queries) (Float.of_Z (len d)))
                               (Float.of_Z 100)),
                  None)
       else Some (0, Some (VExc (UnboundLocalError "efficiency_ratio"))).
Proof. exact (_calculate_query_score_value d ratio). Qed.

End YoyAndQuery.

(** ** The price and trend scores *)

Section PriceAndTrend.
Context {R : Reductions}.

Lemma median_of_num (xs : list float) : median_of (NumSeries xs) = Ok (series_median xs).
Proof. reflexivity. Qed.

Lemma idxmax_some (xs : list float) (x : float) :
  In x xs -> Float.is_nan x = false -> exists i, idxmax (NumSeries xs) = Ok i.
Proof.
  intros Hin Hx. unfold idxmax. cbn [numeric mbind result_bind].
  destruct (argmax_from_some xs None 0) as [[i y] ->]; eauto.
Qed.


(** X8. On a table whose month column is absent or is not a datetime
    column, the trend module leaves the table as it is and returns 0 with
    the exception of the first assignment as [error]: a KeyError when the
    column is absent, an AttributeError when it is not datetime. *)
Theorem trend_score_needs_a_datetime_month (d : DataFrame) :
  (forall ts, columns d !! "Месяц"%string <> Some (TimeSeries ts)) ->
  snd (_calculate_trend_score d) = d
  /\ score_and_error (fst (_calculate_trend_score d))
     = Some (0, Some (VExc (match columns d !! "Месяц"%string with
                            | Some _ => AttributeError
                                          "Can only use .dt accessor with datetimelike values"
                            | None => KeyError "Месяц"
                            end))).
Proof.
  intros Hm. split.
  - rewrite _calculate_trend_score_frame. unfold trend_frame.
    destruct (columns d !! "Месяц"%string) as [[xs | ts | os] |]; try reflexivity.
    destruct (Hm ts eq_refl).
  - unfold _calculate_trend_score, call. rewrite bind_try.
    unfold mbind at 1, SE_bind at 1.
    unfold trend_time_columns. rewrite time_columns_run by discriminate.
    destruct (columns d !! "Месяц"%string) as [[xs | ts | os] |];
      try destruct (Hm ts eq_refl);
      unfold mbind at 1, SE_bind at 1;
      rewrite bind_analysis_set, run_ret, run_return_with_analysis;
      cbn [fst score_and_error analysis]; rewrite lookup_insert_eq; reflexivity.
Qed.

End PriceAndTrend.

(** ** Scoring twice *)

Lemma setitem_twice (d : DataFrame) (c1 c2 : string) (s1 s2 : Series) :
  setitem (setitem (setitem (setitem d c1 s1) c2 s2) c1 s1) c2 s2
  = setitem (setitem d c1 s1) c2 s2.
Proof.
  unfold setitem. simpl. f_equal. apply map_eq. intros k.
  destruct (decide (c2 = k)) as [<- | H2].
  - now rewrite !lookup_insert_eq.
  - rewrite (lookup_insert_ne _ c2 k) by exact H2.
    rewrite (lookup_insert_ne (<[c1:=s1]> (columns d)) c2 k) by exact H2.
    destruct (decide (c1 = k)) as [<- | H1].
    + now rewrite !lookup_insert_eq.
    + rewrite (lookup_insert_ne _ c1 k) by exact H1.
      now rewrite (lookup_insert_ne _ c2 k) by exact H2.
Qed.

Lemma trend_frame_idempotent (d : DataFrame) : trend_frame (trend_frame d) = trend_frame d.
Proof.
  destruct (columns d !! "Месяц"%string) as [[xs | ts | os] |] eqn:Hcol;
    try (unfold trend_frame; rewrite Hcol; cbn iota; now rewrite Hcol).
  destruct (trend_frame_columns d ts Hcol) as (_ & _ & Hother).
  unfold trend_frame at 1. rewrite Hother by discriminate. rewrite Hcol.
  unfold trend_frame. rewrite Hcol. apply setitem_twice.
Qed.

Lemma stock_frame_idempotent (d : DataFrame) : stock_frame (stock_frame d) = stock_frame d.
Proof.
  unfold stock_frame at 2 3.
  destruct (has_col d "Остаток" && has_col d "Дата") eqn:Hcols;
    [| unfold stock_frame; now rewrite Hcols].
  destruct (columns d !! "Дата"%string) as [[xs | ts | os] |] eqn:Hcol;
    try (unfold stock_frame; rewrite Hcols, Hcol; reflexivity).
  unfold stock_frame.
  rewrite !has_col_setitem_ne by discriminate. rewrite Hcols.
  unfold setitem at 1 2. cbn [columns].
  rewrite !lookup_insert_ne by discriminate. rewrite Hcol.
  apply setitem_twice.
Qed.

Lemma scored_tables_lookup (loaded_data : gmap string DataFrame) (k : string) :
  scored_tables loaded_data !! k
  = (if String.eqb k "days" then stock_frame
     else if String.eqb k "trends" then trend_frame else id) <$> loaded_data !! k.
Proof.
  unfold scored_tables.
  destruct (String.eqb_spec k "days") as [-> | Hd].
  - rewrite lookup_alter_eq. now rewrite lookup_alter_ne by discriminate.
  - rewrite lookup_alter_ne by congruence.
    destruct (String.eqb_spec k "trends") as [-> | Ht].
    + now rewrite lookup_alter_eq.
    + rewrite lookup_alter_ne by congruence. now destruct (loaded_data !! k).
Qed.

Lemma scored_tables_idempotent (loaded_data : gmap string DataFrame) :
  scored_tables (scored_tables loaded_data) = scored_tables loaded_data.
Proof.
  apply map_eq. intros k. rewrite !scored_tables_lookup.
  destruct (loaded_data !! k) as [d |]; [| reflexivity]. simpl. f_equal.
  destruct (String.eqb k "days"); [apply stock_frame_idempotent |].
  destruct (String.eqb k "trends"); [apply trend_frame_idempotent | reflexivity].
Qed.

Lemma bind_run {S A B} (m : SE S A) (f : A -> SE S B) (s : S) :
  (m ≫= f) s = match m s with (Ok a, s') => f a s' | (Raise e, s') => (Raise e, s') end.
Proof. reflexivity. Qed.

Lemma trend_time_columns_run (d : DataFrame) (a : gmap string value) :
  trend_time_columns {| frame := d; analysis := a |}
  = (time_result (columns d !! "Месяц"%string) "Месяц",
     {| frame := trend_frame d; analysis := a |}).
Proof.
  unfold trend_time_columns. rewrite time_columns_run by discriminate.
  unfold trend_frame, time_result.
  destruct (columns d !! "Месяц"%string) as [[xs | ts | os] |]; reflexivity.
Qed.

Lemma stock_time_columns_run (d : DataFrame) (a : gmap string value) :
  has_col d "Остаток" && has_col d "Дата" = true ->
  stock_time_columns {| frame := d; analysis := a |}
  = (time_result (columns d !! "Дата"%string) "Дата",
     {| frame := stock_frame d; analysis := a |}).
Proof.
  intros Hcols.
  unfold stock_time_columns. rewrite time_columns_run by discriminate.
  unfold stock_frame, time_result. rewrite Hcols.
  destruct (columns d !! "Дата"%string) as [[xs | ts | os] |]; reflexivity.
Qed.

Section ScoringTwice.
Context {R : Reductions}.

Lemma trend_score_of_scored_frame (d : DataFrame) :
  fst (_calculate_trend_score (trend_frame d)) = fst (_calculate_trend_score d).
Proof.
  unfold _calculate_trend_score, call. rewrite !bind_try.
  rewrite !(bind_run trend_time_columns). rewrite !trend_time_columns_run.
  rewrite trend_frame_idempotent.
  destruct (trend_frame_keeps d) as [_ Hother].
  rewrite (Hother "Месяц"%string) by discriminate.
  reflexivity.
Qed.

Lemma stock_score_of_scored_frame (d : DataFrame) :
  fst (_calculate_stock_score (stock_frame d)) = fst (_calculate_stock_score d).
Proof.
  destruct (has_col d "Остаток" && has_col d "Дата") eqn:Hcols;
    [| unfold stock_frame; now rewrite Hcols].
  assert (Hcols' : has_col (stock_frame d) "Остаток" && has_col (stock_frame d) "Дата" = true).
  { unfold has_col in *. destruct (stock_frame_keeps d) as [_ Hother].
    rewrite !Hother by discriminate. exact Hcols. }
  unfold _calculate_stock_score, call. rewrite !bind_try, !bind_df. cbn [frame].
  rewrite Hcols, Hcols'.
  rewrite !(bind_run stock_time_columns).
  rewrite (stock_time_columns_run d _ Hcols), (stock_time_columns_run _ _ Hcols').
  rewrite stock_frame_idempotent.
  destruct (stock_frame_keeps d) as [_ Hother].
  rewrite (Hother "Дата"%string) by discriminate.
  reflexivity.
Qed.

Lemma module_run_fmap method (f : DataFrame -> DataFrame) (d : option DataFrame) :
  (forall d, fst (method (f d)) = fst (method d)) ->
  module_run method (f <$> d) = module_run method d.
Proof. intros H. destruct d as [d |]; simpl; [now rewrite H | reflexivity]. Qed.

Lemma scoring_of_scored_tables (loaded_data : gmap string DataFrame) :
  scoring_of (scored_tables loaded_data) = scoring_of loaded_data.
Proof.
  unfold scoring_of. rewrite !scored_tables_lookup. cbn [String.eqb Ascii.eqb Bool.eqb].
  rewrite (module_run_fmap _ trend_frame _ trend_score_of_scored_frame).
  rewrite (module_run_fmap _ stock_frame _ stock_score_of_scored_frame).
  rewrite !(module_run_fmap _ id) by reflexivity.
  reflexivity.
Qed.

(** X9. Scoring the tables that a first call of [calculate_total_score]
    left behind returns the same results and leaves the tables as they
    are. *)
Theorem scoring_again_returns_the_same (loaded_data : gmap string DataFrame) :
  exists r,
    calculate_total_score loaded_data = (Ok r, scored_tables loaded_data)
    /\ calculate_total_score (scored_tables loaded_data) = (Ok r, scored_tables loaded_data).
Proof.
  exists (scoring_of loaded_data). split; [apply calculate_total_score_scoring_of |].
  rewrite calculate_total_score_scoring_of.
  now rewrite scoring_of_scored_tables, scored_tables_idempotent.
Qed.

(** X10. The results of [calculate_total_score] depend on the tables under
    the five keys "trends", "queries", "price", "days" and "products" only:
    two mappings that agree on them get the same results. *)
Theorem scoring_depends_on_its_five_tables_only (loaded_data other : gmap string DataFrame) :
  (forall key, In key ["trends"; "queries"; "price"; "days"; "products"]%string ->
               loaded_data !! key = other !! key) ->
  fst (calculate_total_score loaded_data) = fst (calculate_total_score other).
Proof.
  intros H. rewrite !calculate_total_score_scoring_of. cbn [fst]. f_equal.
  unfold scoring_of.
  rewrite !H by (simpl; tauto). reflexivity.
Qed.

End ScoringTwice.

(** ** Running the validators *)

Lemma try_except_append (body : V unit) (kind : report_kind) (s : vscope) :
  exists s', try_except body (fun e => errors_append (ValidationFailed kind e)) s = (Ok tt, s').
Proof. unfold try_except. destruct (body s) as [[[] | e] s']; eauto. Qed.

Lemma bind_get {S B} (f : S -> SE S B) (s : S) : (get ≫= f) s = f s s.
Proof. reflexivity. Qed.

Lemma bind_vdf {B} (f : DataFrame -> V B) (s : vscope) : (vdf ≫= f) s = f (vframe s) s.
Proof. reflexivity. Qed.

Lemma is_empty_nil {A} (l : list A) : is_empty l = true <-> l = [].
Proof. destruct l; simpl; split; congruence. Qed.

Lemma _validate_trends_data_returns (d : DataFrame) :
  exists v, _validate_trends_data d = (Ok v, d) /\ valid v = is_empty (v_errors v).
Proof.
  pose proof (_validate_trends_data_frame d) as Hf.
  unfold _validate_trends_data, vcall in *. rewrite bind_run in *.
  destruct (try_except_append
              (check_required trends_fields;;
               check_trend_dates;;
               for_each check_numeric_column ["Продажи"; "Выручка, ₽"; "Товары"; "Бренды"]%string;;
               check_trend_consistency) Trends
              {| vframe := d; warnings := []; errors := [] |}) as [s' Hs].
  rewrite Hs in *. cbn in Hf. subst d. eexists. split; reflexivity.
Qed.

Ltac after_try kind :=
  match goal with
  | |- context [try_except ?b ?h ?s] =>
      let s' := fresh "st" in
      let Hs := fresh "Hs" in
      destruct (try_except_append b kind s) as [s' Hs]; rewrite Hs in *
  end.

Lemma _validate_days_data_returns (d : DataFrame) :
  exists v, _validate_days_data d = (Ok v, d) /\ valid v = is_empty (v_errors v).
Proof.
  pose proof (_validate_days_data_frame d) as Hf.
  unfold _validate_days_data, vcall in *. rewrite bind_run in *.
  after_try Days. cbn in Hf. subst d. eexists. split; reflexivity.
Qed.

Lemma triple_true {S A} (P : S -> Prop) (m : SE S A) :
  triple P m (fun _ _ => True) (fun _ _ => True).
Proof. intros s _. destruct (m s) as [[a | e] s']; exact I. Qed.

Lemma price_early_return (d : DataFrame) (s : vscope) :
  exists early s',
    try_except
      (d ← vdf;
       if negb (is_empty (missing_columns d ["От"; "До"; revenue_col]%string)) then
         errors_append (MissingColumns (missing_columns d ["От"; "До"; revenue_col]%string));;
         s ← get;
         mret (Some {| valid := false;
                       v_warnings := warnings s;
                       v_errors := errors s;
                       extra := [("records_count"%string, VInt (len d))] |})
       else
         check_price_ranges;;
         check_price_revenue;;
         check_price_consistency;;
         mret None)
      (fun e => errors_append (ValidationFailed Price e);; mret None) s
    = (Ok early, s')
    /\ match early with
       | Some r => valid r = is_empty (v_errors r)
       | None => True
       end.
Proof.
  unfold try_except. rewrite bind_run. cbn [vdf]. cbv zeta.
  destruct (negb (is_empty (missing_columns (vframe s) ["От"; "До"; revenue_col]%string))).
  - cbn. eexists _, _. split; [reflexivity |]. cbn. now destruct (errors s).
  - rewrite (bind_run check_price_ranges).
    destruct (check_price_ranges s) as [[[] | e] s1];
      [| cbn; eexists _, _; split; [reflexivity | exact I]].
    rewrite (bind_run check_price_revenue).
    destruct (check_price_revenue s1) as [[[] | e] s2];
      [| cbn; eexists _, _; split; [reflexivity | exact I]].
    rewrite (bind_run check_price_consistency).
    destruct (check_price_consistency s2) as [[[] | e] s3];
      cbn; eexists _, _; split; try reflexivity; exact I.
Qed.

Lemma _validate_price_data_returns (d : DataFrame) :
  exists v, _validate_price_data d = (Ok v, d) /\ valid v = is_empty (v_errors v).
Proof.
  pose proof (_validate_price_data_frame d) as Hf.
  unfold _validate_price_data, vcall in *. rewrite bind_run in *.
  destruct (price_early_return d {| vframe := d; warnings := []; errors := [] |})
    as (early & s' & Hrun & Hearly).
  rewrite Hrun in *. destruct early as [r |].
  - cbn in *. subst d. eauto.
  - rewrite bind_get, bind_vdf in *.
    destruct (forallb (has_col (vframe s')) ["От"; "До"]%string && (0 <? len (vframe s'))) eqn:Hc.
    + apply andb_prop in Hc. destruct Hc as [Hc _]. cbn [forallb] in Hc.
      apply andb_prop in Hc. destruct Hc as [H1 Hc]. apply andb_prop in Hc. destruct Hc as [H2 _].
      destruct (getitem_has_col _ _ H1) as [s1 E1].
      destruct (getitem_has_col _ _ H2) as [s2 E2].
      rewrite E1, E2 in *. cbn in *. subst d. eauto.
    + cbn in *. subst d. eauto.
Qed.

Ltac after_try_frame kind d :=
  match goal with
  | |- context [try_except ?b ?h ?s0] =>
      let Hp := fresh "Hp" in
      let s' := fresh "st" in
      let Hs := fresh "Hs" in
      assert (Hp : preserves (fun sc => vframe sc = d) (try_except b h))
        by (unfold check_required, check_trend_dates, check_numeric_column,
              check_trend_consistency, check_price_ranges, check_price_revenue,
              check_price_consistency, warnings_append, errors_append;
            preserves_steps);
      specialize (Hp s0 eq_refl);
      destruct (try_except_append b kind s0) as [s' Hs]; rewrite Hs in *;
      cbn beta iota in Hp
  end.

Lemma result_bind_ok {A B} (a : A) (f : A -> result B) : (Ok a ≫= f) = f a.
Proof. reflexivity. Qed.

Lemma result_bind_raise {A B} (e : pyexc) (f : A -> result B) : (Raise e ≫= f) = Raise e.
Proof. reflexivity. Qed.

Lemma bind_assoc_run {S A B C} (m : SE S A) (f : A -> SE S B) (g : B -> SE S C) (s : S) :
  ((m ≫= f) ≫= g) s = (m ≫= fun a => f a ≫= g) s.
Proof.
  unfold mbind, SE_bind. destruct (m s) as [[a | e] s']; reflexivity.
Qed.

Ltac run_v :=
  repeat first [ rewrite bind_lift | rewrite run_ret | rewrite bind_get | rewrite bind_vdf
               | rewrite bind_ret | rewrite result_bind_ok | rewrite result_bind_raise
               | progress cbn beta iota ].

Lemma cmp_scalar_raises (op op' : float -> float -> bool) (s : Series) (x x' : float)
  (e : pyexc) :
  cmp_scalar op s x = Raise e -> cmp_scalar op' s x' = Raise e.
Proof.
  destruct s as [xs | ts | os]; simpl; intros H; try discriminate; exact H.
Qed.

Lemma cmp_scalar_returns (op op' : float -> float -> bool) (s : Series) (x x' : float)
  (mask : list bool) :
  cmp_scalar op s x = Ok mask -> exists mask', cmp_scalar op' s x' = Ok mask'.
Proof.
  destruct s as [xs | ts | os]; simpl; intros H; eauto; try discriminate.
Qed.

Lemma _validate_queries_data_returns (d : DataFrame) :
  (forall s, columns d !! query_ratio_col = Some s ->
             exists mask, cmp_scalar Float.geb s (Float.of_Z 2) = Ok mask) ->
  exists v, _validate_queries_data d = (Ok v, d) /\ valid v = is_empty (v_errors v).
Proof.
  intros Hratio.
  unfold _validate_queries_data, vcall. rewrite bind_run.
  after_try_frame Queries d.
  rewrite bind_get, bind_vdf, Hp.
  destruct (columns d !! query_ratio_col) as [s |] eqn:Hcol.
  - destruct (Hratio s eq_refl) as [mask Hmask].
    rewrite (has_col_some d _ _ Hcol). unfold count_effective.
    rewrite (getitem_some d _ _ Hcol). rewrite result_bind_ok, Hmask.
    run_v. rewrite Hp. eauto.
  - rewrite (has_col_none d _ Hcol). run_v. rewrite Hp. eauto.
Qed.

Lemma _validate_queries_data_raises (d : DataFrame) (s : Series) (e : pyexc) :
  columns d !! query_ratio_col = Some s ->
  cmp_scalar Float.geb s (Float.of_Z 2) = Raise e ->
  _validate_queries_data d = (Raise e, d).
Proof.
  intros Hcol Hraise.
  unfold _validate_queries_data, vcall. rewrite bind_run.
  after_try_frame Queries d.
  rewrite bind_get, bind_vdf, Hp.
  rewrite (has_col_some d _ _ Hcol). unfold count_effective.
  rewrite (getitem_some d _ _ Hcol). rewrite result_bind_ok, Hraise.
  run_v. now rewrite Hp.
Qed.

Lemma count_top_run (d : DataFrame) (s : Series) (n : Z) :
  columns d !! "Category position avg"%string = Some s ->
  count_top d n = (mask ← cmp_scalar Float.leb s (Float.of_Z n); Ok (count_true mask)).
Proof. intros H. unfold count_top. now rewrite (getitem_some d _ _ H). Qed.

Lemma _validate_products_data_returns (d : DataFrame) :
  (forall s, columns d !! "Category position avg"%string = Some s ->
             exists mask, cmp_scalar Float.leb s (Float.of_Z 10) = Ok mask) ->
  exists v, _validate_products_data d = (Ok v, d) /\ valid v = is_empty (v_errors v).
Proof.
  intros Hposition.
  unfold _validate_products_data, vcall. rewrite bind_run.
  after_try_frame Products d.
  rewrite bind_get, bind_vdf, Hp.
  destruct (columns d !! "Category position avg"%string) as [s |] eqn:Hcol.
  - destruct (Hposition s eq_refl) as [mask Hmask].
    destruct (cmp_scalar_returns Float.leb Float.leb s _ (Float.of_Z 100) mask Hmask)
      as [mask' Hmask'].
    rewrite (has_col_some d _ _ Hcol).
    rewrite (count_top_run d s 10 Hcol), (count_top_run d s 100 Hcol), Hmask, Hmask'.
    run_v. rewrite Hp. eauto.
  - rewrite (has_col_none d _ Hcol). run_v. rewrite Hp. eauto.
Qed.

Lemma _validate_products_data_raises (d : DataFrame) (s : Series) (e : pyexc) :
  columns d !! "Category position avg"%string = Some s ->
  cmp_scalar Float.leb s (Float.of_Z 10) = Raise e ->
  _validate_products_data d = (Raise e, d).
Proof.
  intros Hcol Hraise.
  unfold _validate_products_data, vcall. rewrite bind_run.
  after_try_frame Products d.
  rewrite bind_get, bind_vdf, Hp.
  rewrite (has_col_some d _ _ Hcol).
  rewrite (count_top_run d s 10 Hcol), Hraise.
  run_v. now rewrite Hp.
Qed.

(** ** One result per table *)

Lemma validate_step_run (loaded_data : gmap string DataFrame)
  (acc : gmap string validation) (k : string) :
  validate_step acc k loaded_data
  = match loaded_data !! k with
    | Some d =>
        match fst (_validate_by_type d k) with
        | Ok v => (Ok (<[k := v]> acc), loaded_data)
        | Raise e => (Raise e, loaded_data)
        end
    | None => (Ok acc, loaded_data)
    end.
Proof.
  unfold validate_step. rewrite bind_run. unfold on_table.
  destruct (loaded_data !! k) as [d |] eqn:Hd; [| reflexivity].
  pose proof (_validate_by_type_frame d k) as Hf.
  destruct (_validate_by_type d k) as [r d']. simpl in Hf. subst d'.
  rewrite (insert_id _ _ _ Hd). destruct r; reflexivity.
Qed.

Lemma validate_loop (loaded_data : gmap string DataFrame) (l : list string) :
  forall acc : gmap string validation,
  NoDup l ->
  (forall k, In k l -> acc !! k = None) ->
  match foldM validate_step acc l loaded_data with
  | (Ok results, tables) =>
      tables = loaded_data
      /\ (forall k, In k l -> results !! k = loaded_data !! k ≫= fun d => validated d k)
      /\ (forall k, ~ In k l -> results !! k = acc !! k)
      /\ (forall k d, In k l -> loaded_data !! k = Some d -> is_Some (validated d k))
  | (Raise e, tables) =>
      tables = loaded_data
      /\ exists k d, In k l /\ loaded_data !! k = Some d
                     /\ fst (_validate_by_type d k) = Raise e
  end.
Proof.
  induction l as [| k l IH]; intros acc Hnd Hacc.
  - simpl. repeat split; intros; tauto.
  - apply NoDup_cons in Hnd. destruct Hnd as [Hk Hnd].
    rewrite list_elem_of_In in Hk.
    cbn [foldM]. rewrite bind_run, validate_step_run.
    destruct (loaded_data !! k) as [d |] eqn:Hd.
    + destruct (fst (_validate_by_type d k)) as [v | e] eqn:Hv.
      * specialize (IH (<[k := v]> acc) Hnd).
        destruct (foldM validate_step (<[k := v]> acc) l loaded_data) as [[results | e] tables].
        -- destruct IH as (Ht & Hin & Hout & Hret).
           { intros k' Hk'. rewrite lookup_insert_ne by (intros <-; contradiction).
             apply Hacc. right. exact Hk'. }
           split; [exact Ht |]. repeat split.
           ++ intros k' [<- | Hk'].
              ** rewrite (Hout k) by exact Hk.
                 rewrite lookup_insert_eq, Hd. simpl. unfold validated. now rewrite Hv.
              ** apply Hin, Hk'.
           ++ intros k' Hk'. rewrite Hout by (intros H; apply Hk'; right; exact H).
              apply lookup_insert_ne. intros <-. apply Hk'. left. reflexivity.
           ++ intros k' d' [<- | Hk'] Hd'.
              ** rewrite Hd in Hd'. injection Hd' as <-. unfold validated. rewrite Hv. eauto.
              ** eapply Hret; eauto.
        -- destruct IH as (Ht & k' & d' & Hk' & Hd' & He).
           { intros k' Hk'. rewrite lookup_insert_ne by (intros <-; contradiction).
             apply Hacc. right. exact Hk'. }
           split; [exact Ht |].
           exists k', d'. repeat split; auto. right. exact Hk'.
      * split; [reflexivity |]. exists k, d. repeat split; auto. left. reflexivity.
    + specialize (IH acc Hnd).
      destruct (foldM validate_step acc l loaded_data) as [[results | e] tables].
      * destruct IH as (Ht & Hin & Hout & Hret).
        { intros k' Hk'. apply Hacc. right. exact Hk'. }
        split; [exact Ht |]. repeat split.
        -- intros k' [<- | Hk'].
           ++ rewrite (Hout k) by exact Hk. rewrite Hd. simpl. apply Hacc. left. reflexivity.
           ++ apply Hin, Hk'.
        -- intros k' Hk'. apply Hout. intros H. apply Hk'. right. exact H.
        -- intros k' d' [<- | Hk'] Hd'; [congruence | eapply Hret; eauto].
      * destruct IH as (Ht & k' & d' & Hk' & Hd' & He).
        { intros k' Hk'. apply Hacc. right. exact Hk'. }
        split; [exact Ht |].
        exists k', d'. repeat split; auto. right. exact Hk'.
Qed.

Lemma keys_of_map (loaded_data : gmap string DataFrame) (k : string) :
  In k (map fst (map_to_list loaded_data)) <-> is_Some (loaded_data !! k).
Proof.
  rewrite in_map_iff. split.
  - intros ([k' d] & <- & Hin). apply list_elem_of_In, elem_of_map_to_list in Hin. eauto.
  - intros [d Hd]. exists (k, d). split; [reflexivity |].
    apply list_elem_of_In, elem_of_map_to_list. exact Hd.
Qed.

Lemma validate_all_data_results (loaded_data : gmap string DataFrame) :
  match fst (validate_all_data loaded_data) with
  | Ok validation_results =>
      forall data_type,
        match loaded_data !! data_type with
        | Some d => exists v, fst (_validate_by_type d data_type) = Ok v
                              /\ validation_results !! data_type = Some v
        | None => validation_results !! data_type = None
        end
  | Raise e =>
      exists data_type d,
        loaded_data !! data_type = Some d /\ fst (_validate_by_type d data_type) = Raise e
  end.
Proof.
  unfold validate_all_data.
  change (foldM _ ∅ ?l loaded_data) with (foldM validate_step ∅ l loaded_data).
  pose proof (validate_loop loaded_data (map fst (map_to_list loaded_data)) ∅
                (NoDup_fst_map_to_list loaded_data) (fun k _ => lookup_empty k)) as H.
  destruct (foldM validate_step ∅ _ loaded_data) as [[results | e] tables]; cbn [fst].
  - destruct H as (_ & Hin & Hout & Hret). intros k.
    destruct (loaded_data !! k) as [d |] eqn:Hd.
    + assert (Hk : In k (map fst (map_to_list loaded_data))) by (apply keys_of_map; eauto).
      destruct (Hret k d Hk Hd) as [v Hv]. exists v.
      rewrite (Hin k Hk), Hd. simpl. split; [| exact Hv].
      unfold validated in Hv. destruct (fst (_validate_by_type d k)); congruence.
    + rewrite Hout; [apply lookup_empty |].
      intros Hk. apply keys_of_map in Hk. rewrite Hd in Hk. destruct Hk; discriminate.
  - destruct H as (_ & k & d & _ & Hd & He). eauto.
Qed.

(** X11. When [validate_all_data] returns, its dict has one result per
    loaded table, the one [_validate_by_type] returns for that table under
    its key, and no other key.  When it raises, the exception is the one a
    validator raised on one of the loaded tables. *)
Theorem validate_all_data_gives_one_result_per_table (loaded_data : gmap string DataFrame) :
  match fst (validate_all_data loaded_data) with
  | Ok validation_results =>
      forall data_type,
        match loaded_data !! data_type with
        | Some d => exists v, fst (_validate_by_type d data_type) = Ok v
                              /\ validation_results !! data_type = Some v
        | None => validation_results !! data_type = None
        end
  | Raise e =>
      exists data_type d,
        loaded_data !! data_type = Some d /\ fst (_validate_by_type d data_type) = Raise e
  end.
Proof. exact (validate_all_data_results loaded_data). Qed.

(** ** Verdicts and exceptions *)

Lemma validator_cases (P : string -> Prop) (data_type : string) :
  (data_type = "trends"%string -> P "trends"%string) ->
  (data_type = "queries"%string -> P "queries"%string) ->
  (data_type = "price"%string -> P "price"%string) ->
  (data_type = "days"%string -> P "days"%string) ->
  (data_type = "products"%string -> P "products"%string) ->
  (data_type <> "trends"%string -> data_type <> "queries"%string ->
   data_type <> "price"%string -> data_type <> "days"%string ->
   data_type <> "products"%string -> P data_type) ->
  P data_type.
Proof.
  intros H1 H2 H3 H4 H5 H6.
  destruct (String.eqb_spec data_type "trends") as [-> | N1]; [auto |].
  destruct (String.eqb_spec data_type "queries") as [-> | N2]; [auto |].
  destruct (String.eqb_spec data_type "price") as [-> | N3]; [auto |].
  destruct (String.eqb_spec data_type "days") as [-> | N4]; [auto |].
  destruct (String.eqb_spec data_type "products") as [-> | N5]; [auto |].
  auto.
Qed.

Lemma _validate_by_type_other (d : DataFrame) (data_type : string) :
  data_type <> "trends"%string -> data_type <> "queries"%string ->
  data_type <> "price"%string -> data_type <> "days"%string ->
  data_type <> "products"%string ->
  _validate_by_type d data_type
  = (Ok {| valid := true; v_warnings := []; v_errors := []; extra := [] |}, d).
Proof.
  intros N1 N2 N3 N4 N5. unfold _validate_by_type.
  repeat match goal with
         | |- context [String.eqb ?a ?b] => destruct (String.eqb_spec a b); [congruence |]
         end.
  reflexivity.
Qed.

Lemma _validate_by_type_verdict (d : DataFrame) (data_type : string) (v : validation) :
  fst (_validate_by_type d data_type) = Ok v -> valid v = is_empty (v_errors v).
Proof.
  apply (validator_cases
    (fun t => fst (_validate_by_type d t) = Ok v -> valid v = is_empty (v_errors v))).
  - intros _. cbn [_validate_by_type String.eqb Ascii.eqb Bool.eqb].
    destruct (_validate_trends_data_returns d) as (v' & -> & Hv'). cbn. congruence.
  - intros _. change (_validate_by_type d "queries") with (_validate_queries_data d).
    destruct (columns d !! query_ratio_col) as [s |] eqn:Hcol.
    + destruct (cmp_scalar Float.geb s (Float.of_Z 2)) as [mask | e] eqn:Hmask.
      * destruct (_validate_queries_data_returns d) as (v' & -> & Hv'); [| cbn; congruence].
        intros s' Hs'. rewrite Hcol in Hs'. injection Hs' as <-. eauto.
      * rewrite (_validate_queries_data_raises d s e Hcol Hmask). discriminate.
    + destruct (_validate_queries_data_returns d) as (v' & -> & Hv'); [| cbn; congruence].
      intros s' Hs'. congruence.
  - intros _. change (_validate_by_type d "price") with (_validate_price_data d).
    destruct (_validate_price_data_returns d) as (v' & -> & Hv'). cbn. congruence.
  - intros _. change (_validate_by_type d "days") with (_validate_days_data d).
    destruct (_validate_days_data_returns d) as (v' & -> & Hv'). cbn. congruence.
  - intros _. change (_validate_by_type d "products") with (_validate_products_data d).
    destruct (columns d !! "Category position avg"%string) as [s |] eqn:Hcol.
    + destruct (cmp_scalar Float.leb s (Float.of_Z 10)) as [mask | e] eqn:Hmask.
      * destruct (_validate_products_data_returns d) as (v' & -> & Hv'); [| cbn; congruence].
        intros s' Hs'. rewrite Hcol in Hs'. injection Hs' as <-. eauto.
      * rewrite (_validate_products_data_raises d s e Hcol Hmask). discriminate.
    + destruct (_validate_products_data_returns d) as (v' & -> & Hv'); [| cbn; congruence].
      intros s' Hs'. congruence.
  - intros N1 N2 N3 N4 N5. rewrite _validate_by_type_other by assumption.
    cbn. intros [= <-]. reflexivity.
Qed.

(** X12. In every result that [_validate_by_type] returns, [valid] is true
    exactly when the list of errors is empty; warnings never make a report
    invalid. *)
Theorem verdict_is_valid_exactly_without_errors (d : DataFrame) (data_type : string)
  (v : validation) :
  fst (_validate_by_type d data_type) = Ok v ->
  (valid v = true <-> v_errors v = []).
Proof.
  intros H. rewrite <- is_empty_nil. now rewrite (_validate_by_type_verdict d data_type v H).
Qed.

(** X13. The trends and days validators, and the default case of an unknown
    type, return on every table and leave it as it is: their [return]
    statement reads the date range through [_get_date_range], which
    swallows every exception.  The price validator takes [min] and [max] of
    the two range columns in its [return] statement, outside the [try]
    block: it returns, and leaves the table as it is, on every table whose
    range columns are numeric when present.  The queries validator raises
    exactly when the comparison [>= 2.0] on the ratio column raises, the
    products validator exactly when the comparison [<= 10] on the position
    column raises: both comparisons are made again outside the [try] block,
    and the exception is the one of the comparison. *)
Theorem validators_return_or_raise (d : DataFrame) (data_type : string) (e : pyexc) :
  (data_type <> "queries"%string -> data_type <> "products"%string ->
   (data_type = "price"%string ->
    numeric_if_present d "От" /\ numeric_if_present d "До") ->
   exists v, _validate_by_type d data_type = (Ok v, d))
  /\ (fst (_validate_by_type d "queries") = Raise e
      <-> exists s, columns d !! query_ratio_col = Some s
                    /\ cmp_scalar Float.geb s (Float.of_Z 2) = Raise e)
  /\ (fst (_validate_by_type d "products") = Raise e
      <-> exists s, columns d !! "Category position avg"%string = Some s
                    /\ cmp_scalar Float.leb s (Float.of_Z 10) = Raise e).
Proof.
  split; [| split].
  - intros N1 N2 _. revert N1 N2.
    apply (validator_cases
      (fun t => t <> "queries"%string -> t <> "products"%string ->
                exists v, _validate_by_type d t = (Ok v, d))); try congruence.
    + intros _ _ _. destruct (_validate_trends_data_returns d) as (v & Hv & _). eauto.
    + intros _ _ _. destruct (_validate_price_data_returns d) as (v & Hv & _). eauto.
    + intros _ _ _. destruct (_validate_days_data_returns d) as (v & Hv & _). eauto.
    + intros N1 N2 N3 N4 N5 _ _. rewrite _validate_by_type_other by assumption. eauto.
  - change (_validate_by_type d "queries") with (_validate_queries_data d). split.
    + intros H. destruct (columns d !! query_ratio_col) as [s |] eqn:Hcol.
      * destruct (cmp_scalar Float.geb s (Float.of_Z 2)) as [mask | e'] eqn:Hmask.
        -- destruct (_validate_queries_data_returns d) as (v' & Hv' & _).
           ++ intros s' Hs'. rewrite Hcol in Hs'. injection Hs' as <-. eauto.
           ++ rewrite Hv' in H. discriminate.
        -- rewrite (_validate_queries_data_raises d s e' Hcol Hmask) in H.
           injection H as <-. eauto.
      * destruct (_validate_queries_data_returns d) as (v' & Hv' & _).
        -- intros s' Hs'. congruence.
        -- rewrite Hv' in H. discriminate.
    + intros (s & Hcol & Hraise). now rewrite (_validate_queries_data_raises d s e Hcol Hraise).
  - change (_validate_by_type d "products") with (_validate_products_data d). split.
    + intros H. destruct (columns d !! "Category position avg"%string) as [s |] eqn:Hcol.
      * destruct (cmp_scalar Float.leb s (Float.of_Z 10)) as [mask | e'] eqn:Hmask.
        -- destruct (_validate_products_data_returns d) as (v' & Hv' & _).
           ++ intros s' Hs'. rewrite Hcol in Hs'. injection Hs' as <-. eauto.
           ++ rewrite Hv' in H. discriminate.
        -- rewrite (_validate_products_data_raises d s e' Hcol Hmask) in H.
           injection H as <-. eauto.
      * destruct (_validate_products_data_returns d) as (v' & Hv' & _).
        -- intros s' Hs'. congruence.
        -- rewrite Hv' in H. discriminate.
    + intros (s & Hcol & Hraise). now rewrite (_validate_products_data_raises d s e Hcol Hraise).
Qed.

(** X14. When the validator of one uploaded table raises,
    [_process_uploaded_files] stores nothing: the session keeps its tables
    and its validation results, also for the other tables of the upload. *)
Theorem upload_is_dropped_when_a_validator_raises
  (processed : gmap string DataFrame) (st : session) (data_type : string) (d : DataFrame)
  (e : pyexc) :
  processed !! data_type = Some d ->
  fst (_validate_by_type d data_type) = Raise e ->
  _process_uploaded_files processed st = st.
Proof.
  intros Hd He. unfold _process_uploaded_files.
  destruct (size processed =? 0)%nat; [reflexivity |].
  pose proof (validate_all_data_results processed) as H.
  destruct (validate_all_data processed) as [[results | e'] tables]; [| reflexivity].
  cbn [fst] in H. specialize (H data_type). rewrite Hd in H.
  destruct H as (v & Hv & _). congruence.
Qed.

(** ** What a validator may file *)

Section ValidatorInvariant.
Variable kind : report_kind.
Variable J : vscope -> Prop.
Hypothesis J_error :
  forall s m, J s -> reports_error kind m = true ->
              J {| vframe := vframe s; warnings := warnings s; errors := errors s ++ [m] |}.
Hypothesis J_warning :
  forall s m, J s -> reports_warning kind m = true ->
              J {| vframe := vframe s; warnings := warnings s ++ [m]; errors := errors s |}.

Ltac inv_step :=
  lazymatch goal with
  | |- preserves _ (mret _) => apply preserves_ret
  | |- preserves _ (lift _) => apply preserves_lift
  | |- preserves _ get => apply preserves_get
  | |- preserves _ vdf => apply preserves_vdf
  | |- preserves _ (_ ≫= _) => apply preserves_bind; [| intros ?]
  | |- preserves _ (try_except _ _) => apply preserves_try; [| intros ?]
  | |- preserves _ (when _ _) => apply preserves_when
  | |- preserves _ (for_each _ _) => apply preserves_for_each; intros ?
  | |- preserves _ (warnings_append _) =>
      apply preserves_modify; intros ? ?; apply J_warning; [assumption | reflexivity]
  | |- preserves _ (errors_append _) =>
      apply preserves_modify; intros ? ?; apply J_error; [assumption | reflexivity]
  | |- preserves _ (match ?x with _ => _ end) => destruct x
  | |- preserves _ _ => progress cbv zeta
  end.

Lemma check_trend_dates_inv : kind = Trends -> preserves J check_trend_dates.
Proof. intros ->. unfold check_trend_dates. repeat inv_step. Qed.

Lemma check_numeric_column_inv (col : string) : kind = Trends -> preserves J (check_numeric_column col).
Proof. intros ->. unfold check_numeric_column. repeat inv_step. Qed.

Lemma check_trend_consistency_inv : kind = Trends -> preserves J check_trend_consistency.
Proof. intros ->. unfold check_trend_consistency. repeat inv_step. Qed.

Variable d : DataFrame.
Hypothesis J_required :
  triple (fun s => s = {| vframe := d; warnings := []; errors := [] |})
    (check_required (required_columns kind)) (fun _ => J) (fun _ _ => False).

Lemma handler_inv (e : pyexc) :
  triple J (errors_append (ValidationFailed kind e)) (fun _ => J) (fun _ _ => False).
Proof.
  apply triple_modify. intros s Hs. apply J_error; [exact Hs |].
  simpl. now destruct kind.
Qed.

Lemma try_part_inv (rest : V unit) :
  preserves J rest ->
  triple (fun s => s = {| vframe := d; warnings := []; errors := [] |})
    (try_except (check_required (required_columns kind);; rest)
       (fun e => errors_append (ValidationFailed kind e)))
    (fun _ => J) (fun _ _ => False).
Proof.
  intros Hrest. eapply triple_try with (E1 := fun _ => J).
  - eapply triple_bind with (Q1 := fun _ => J).
    + eapply triple_conseq; [exact J_required | auto | auto |]. intros e s [].
    + intros []. exact Hrest.
  - intros e. apply handler_inv.
Qed.

Ltac finish_with st HJ :=
  rewrite bind_get, bind_vdf;
  repeat match goal with |- context [if ?b then _ else _] => destruct b end;
  repeat first
    [ rewrite bind_assoc_run
    | rewrite bind_lift;
      match goal with
      | |- context [match ?r with Ok _ => _ | Raise _ => _ end] => destruct r
      end ];
  run_v; cbn [fst]; intros v Hv; try discriminate; injection Hv as <-;
  exists st; (split; [exact HJ | repeat split]).

Ltac open_validator T :=
  rewrite bind_run;
  match goal with
  | |- context [try_except ?b ?h ?s0] =>
      let H := fresh "H" in
      pose proof (T s0 eq_refl) as H;
      let st := fresh "st" in
      destruct (try_except b h s0) as [[[] | ?] st]; [finish_with st H | destruct H]
  end.

Lemma _validate_trends_data_inv :
  kind = Trends ->
  forall v, fst (_validate_trends_data d) = Ok v -> exists s, J s /\ verdict_of s v.
Proof.
  intros Hk.
  assert (Hrest : preserves J
    (check_trend_dates;;
     for_each check_numeric_column ["Продажи"; "Выручка, ₽"; "Товары"; "Бренды"]%string;;
     check_trend_consistency)).
  { repeat first [ apply check_trend_dates_inv; exact Hk
                 | apply check_numeric_column_inv; exact Hk
                 | apply check_trend_consistency_inv; exact Hk
                 | apply preserves_for_each; intros ?
                 | apply preserves_bind; [| intros ?] ]. }
  assert (T := try_part_inv _ Hrest).
  rewrite Hk in T. cbn [required_columns] in T.
  unfold _validate_trends_data, vcall. open_validator T.
Qed.

Ltac inline_validator Hk :=
  rewrite bind_run;
  match goal with
  | |- context [try_except (check_required ?cols ≫= ?f) ?h ?s0] =>
      let Hrest := fresh "Hrest" in
      assert (Hrest : preserves J (f tt)) by (cbv beta; rewrite Hk in *; repeat inv_step);
      let T := fresh "T" in
      pose proof (try_part_inv (f tt) Hrest s0 eq_refl) as T;
      rewrite Hk in T; cbn [required_columns] in T; cbv beta in T;
      let st := fresh "st" in
      destruct (try_except (check_required cols ≫= f) h s0) as [[[] | ?] st];
      [finish_with st T | destruct T]
  end.

Lemma _validate_queries_data_inv :
  kind = Queries ->
  forall v, fst (_validate_queries_data d) = Ok v -> exists s, J s /\ verdict_of s v.
Proof. intros Hk. unfold _validate_queries_data, vcall. inline_validator Hk. Qed.

Lemma _validate_days_data_inv :
  kind = Days ->
  forall v, fst (_validate_days_data d) = Ok v -> exists s, J s /\ verdict_of s v.
Proof. intros Hk. unfold _validate_days_data, vcall. inline_validator Hk. Qed.

Lemma _validate_products_data_inv :
  kind = Products ->
  forall v, fst (_validate_products_data d) = Ok v -> exists s, J s /\ verdict_of s v.
Proof. intros Hk. unfold _validate_products_data, vcall. inline_validator Hk. Qed.

Lemma price_checks_inv :
  kind = Price ->
  triple J (check_price_ranges;; check_price_revenue;; check_price_consistency;;
            (mret None : V (option validation)))
    (fun early s => early = None /\ J s) (fun _ => J).
Proof.
  intros Hk.
  assert (H1 : preserves J check_price_ranges)
    by (unfold check_price_ranges; rewrite Hk in *; repeat inv_step).
  assert (H2 : preserves J check_price_revenue)
    by (unfold check_price_revenue; rewrite Hk in *; repeat inv_step).
  assert (H3 : preserves J check_price_consistency)
    by (unfold check_price_consistency; rewrite Hk in *; repeat inv_step).
  eapply triple_bind; [exact H1 | intros []].
  eapply triple_bind; [exact H2 | intros []].
  eapply triple_bind; [exact H3 | intros []].
  apply triple_ret. auto.
Qed.

Lemma _validate_price_data_inv :
  kind = Price ->
  forall v, fst (_validate_price_data d) = Ok v -> exists s, J s /\ verdict_of s v.
Proof.
  intros Hk.
  pose proof (J_required _ eq_refl) as H0. rewrite Hk in H0.
  unfold check_required in H0. rewrite bind_vdf in H0. cbn [vframe required_columns] in H0.
  pose proof (price_checks_inv Hk) as Hchecks.
  unfold _validate_price_data, vcall. rewrite bind_run. unfold try_except.
  rewrite bind_vdf. cbn [vframe].
  destruct (negb (is_empty (missing_columns d ["От"; "До"; revenue_col]%string))).
  - cbn in H0. cbn. intros v [= <-]. eexists. split; [exact H0 | repeat split].
  - cbn in H0. specialize (Hchecks _ H0).
    match goal with
    | |- context [match ?m ?s0 with _ => _ end] =>
        match type of Hchecks with
        | context [m s0] => destruct (m s0) as [[early | e] st]
        end
    end.
    + destruct Hchecks as [-> HJ]. finish_with st HJ.
    + rewrite bind_run. cbn [errors_append modify].
      assert (HJ := J_error _ (ValidationFailed Price e) Hchecks ltac:(rewrite Hk; reflexivity)).
      rewrite run_ret. cbn iota beta.
      match goal with
      | |- context [?m ?s0] =>
          match s0 with
          | {| vframe := _; warnings := _; errors := _ ++ _ |} => finish_with s0 HJ
          end
      end.
Qed.

End ValidatorInvariant.

Lemma _validate_by_type_kind (d : DataFrame) (data_type : string) (kind : report_kind) :
  report_kind_of data_type = Some kind ->
  _validate_by_type d data_type = validator_of kind d.
Proof.
  unfold report_kind_of, _validate_by_type.
  repeat match goal with
         | |- context [String.eqb ?a ?b] => destruct (String.eqb a b)
         end; intros [= <-]; reflexivity.
Qed.

Lemma validator_of_inv (kind : report_kind) (J : vscope -> Prop) (d : DataFrame) :
  (forall s m, J s -> reports_error kind m = true ->
               J {| vframe := vframe s; warnings := warnings s; errors := errors s ++ [m] |}) ->
  (forall s m, J s -> reports_warning kind m = true ->
               J {| vframe := vframe s; warnings := warnings s ++ [m]; errors := errors s |}) ->
  triple (fun s => s = {| vframe := d; warnings := []; errors := [] |})
    (check_required (required_columns kind)) (fun _ => J) (fun _ _ => False) ->
  forall v, fst (validator_of kind d) = Ok v -> exists s, J s /\ verdict_of s v.
Proof.
  intros He Hw Hr. destruct kind eqn:Hk; cbn [validator_of].
  - eapply _validate_trends_data_inv; eauto.
  - eapply _validate_queries_data_inv; eauto.
  - eapply _validate_price_data_inv; eauto.
  - eapply _validate_days_data_inv; eauto.
  - eapply _validate_products_data_inv; eauto.
Qed.

Lemma check_required_run (d : DataFrame) (required : list string) :
  check_required required {| vframe := d; warnings := []; errors := [] |}
  = (Ok tt, {| vframe := d; warnings := [];
               errors := if is_empty (missing_columns d required) then []
                         else [MissingColumns (missing_columns d required)] |}).
Proof.
  unfold check_required. rewrite bind_vdf. cbn [vframe].
  destruct (is_empty (missing_columns d required)); reflexivity.
Qed.

(** X15. In a result returned for one of the five report types, every entry
    of [errors] is the missing-columns message or one of the error messages
    of that report type, and every entry of [warnings] is one of the
    warnings of that report type: no finding is filed in the other list or
    under another report. *)
Theorem findings_are_filed_by_kind (d : DataFrame) (data_type : string) (kind : report_kind)
  (v : validation) :
  report_kind_of data_type = Some kind ->
  fst (_validate_by_type d data_type) = Ok v ->
  Forall (fun m => is_missing_columns m || reports_error kind m = true) (v_errors v)
  /\ Forall (fun m => reports_warning kind m = true) (v_warnings v).
Proof.
  intros Hkind Hv. rewrite (_validate_by_type_kind d data_type kind Hkind) in Hv.
  destruct (validator_of_inv kind
              (fun s => Forall (fun m => is_missing_columns m || reports_error kind m = true)
                          (errors s)
                        /\ Forall (fun m => reports_warning kind m = true) (warnings s))
              d) with (v := v) as (s & [HE HW] & Hve & Hvw & _).
  - intros s m [HE HW] Hm. cbn. split; [| exact HW].
    apply Forall_app. split; [exact HE |]. constructor; [| constructor].
    rewrite Hm. apply orb_true_r.
  - intros s m [HE HW] Hm. cbn. split; [exact HE |].
    apply Forall_app. split; [exact HW |]. constructor; [exact Hm | constructor].
  - intros s ->. rewrite check_required_run. cbn.
    destruct (is_empty _); split; repeat constructor.
  - exact Hv.
  - rewrite Hve, Hvw. split; assumption.
Qed.

(** X16. When a table lacks required columns of its report type, the result
    is invalid and its first error is the missing-columns message listing
    exactly these columns, in the order of the required list; no result
    holds a missing-columns message with other columns or with none. *)
Theorem missing_required_columns_come_first (d : DataFrame) (data_type : string)
  (kind : report_kind) (v : validation) :
  report_kind_of data_type = Some kind ->
  fst (_validate_by_type d data_type) = Ok v ->
  let missing_cols := missing_columns d (required_columns kind) in
  (missing_cols <> [] ->
   valid v = false /\ exists rest, v_errors v = MissingColumns missing_cols :: rest)
  /\ (forall cols, In (MissingColumns cols) (v_errors v) ->
                   cols = missing_cols /\ missing_cols <> []).
Proof.
  intros Hkind Hv missing_cols. rewrite (_validate_by_type_kind d data_type kind Hkind) in Hv.
  destruct (validator_of_inv kind
              (fun s => exists rest,
                   errors s = (if is_empty missing_cols then []
                               else [MissingColumns missing_cols]) ++ rest
                   /\ Forall (fun m => is_missing_columns m = false) rest)
              d) with (v := v) as (s & (rest & Herr & Hrest) & Hve & _ & Hvalid).
  - intros s m (rest & Herr & Hrest) Hm. cbn. exists (rest ++ [m]). split.
    + now rewrite Herr, app_assoc.
    + apply Forall_app. split; [exact Hrest |]. constructor; [| constructor].
      destruct m; try reflexivity; discriminate.
  - intros s m (rest & Herr & Hrest) Hm. cbn. exists rest. split; assumption.
  - intros s ->. rewrite check_required_run. cbn. exists []. split; [| constructor].
    fold missing_cols. now rewrite app_nil_r.
  - exact Hv.
  - rewrite Hvalid, Hve, Herr. split.
    + intros Hne. destruct missing_cols as [| c cs]; [congruence |]. cbn. eauto.
    + intros cols Hin. apply in_app_or in Hin. destruct Hin as [Hin | Hin].
      * destruct missing_cols as [| c cs]; [destruct Hin |]. cbn in Hin.
        destruct Hin as [[= <-] | []]. split; [reflexivity | discriminate].
      * rewrite Forall_forall in Hrest. apply list_elem_of_In, Hrest in Hin. discriminate.
Qed.

(** ** The validation summary *)

Lemma total_length_nonneg {A} (f : validation -> list A) (items : list (string * validation)) :
  0 <= total_length f items.
Proof.
  unfold total_length. induction items as [| item items IH]; simpl; lia.
Qed.

Lemma total_errors_zero (items : list (string * validation)) :
  (forall item, In item items -> valid (snd item) = is_empty (v_errors (snd item))) ->
  total_length v_errors items = 0
  <-> List.filter (fun item => negb (valid (snd item))) items = [].
Proof.
  induction items as [| item items IH]; intros Hv; [simpl; tauto |].
  pose proof (total_length_nonneg v_errors items) as Hpos.
  specialize (IH (fun i Hi => Hv i (or_intror Hi))).
  specialize (Hv item (or_introl eq_refl)).
  unfold total_length in *. cbn [map fold_right List.filter]. rewrite Hv.
  destruct (v_errors (snd item)) as [| m ms]; cbn [is_empty negb length].
  - rewrite Z.add_0_l. exact IH.
  - split; [| discriminate]. rewrite Nat2Z.inj_succ. lia.
Qed.

Lemma filter_partition_length {A} (p : A -> bool) (l : list A) :
  (length (List.filter p l) + length (List.filter (fun x => negb (p x)) l) = length l)%nat.
Proof.
  induction l as [| x l IH]; simpl; [reflexivity |].
  destruct (p x); simpl; lia.
Qed.

(** X17. For the results of [validate_all_data], the summary counts one file
    per loaded table, the valid files and the files with errors add up to
    the total, and [overall_valid] holds exactly when no file has errors,
    which is exactly when all files are valid. *)
Theorem validation_summary_is_consistent (loaded_data : gmap string DataFrame)
  (validation_results : gmap string validation) :
  fst (validate_all_data loaded_data) = Ok validation_results ->
  let s := get_validation_summary validation_results in
  total_files s = Z.of_nat (size loaded_data)
  /\ valid_files s + Z.of_nat (length (files_with_errors s)) = total_files s
  /\ (overall_valid s = true <-> files_with_errors s = [])
  /\ (overall_valid s = true <-> valid_files s = total_files s).
Proof.
  intros Hrun s.
  pose proof (validate_all_data_results loaded_data) as Hres. rewrite Hrun in Hres.
  assert (Hverdict : forall item, In item (map_to_list validation_results) ->
                                  valid (snd item) = is_empty (v_errors (snd item))).
  { intros [k v] Hin. apply list_elem_of_In, elem_of_map_to_list in Hin.
    specialize (Hres k). destruct (loaded_data !! k) as [d |]; [| congruence].
    destruct Hres as (v' & Hv' & Hk). rewrite Hk in Hin. injection Hin as <-.
    exact (_validate_by_type_verdict d k v' Hv'). }
  assert (Hdom : dom validation_results = dom loaded_data).
  { apply set_eq. intros k. rewrite !elem_of_dom. specialize (Hres k).
    destruct (loaded_data !! k) as [d |].
    - destruct Hres as (v & _ & ->). split; eauto.
    - rewrite Hres. split; intros [x Hx]; discriminate. }
  pose proof (filter_partition_length (fun item : string * validation => valid (snd item))
                (map_to_list validation_results)) as Hpart.
  cbv beta in Hpart.
  pose proof (total_errors_zero (map_to_list validation_results) Hverdict) as Hzero.
  unfold s, get_validation_summary.
  cbn [total_files valid_files files_with_errors overall_valid].
  rewrite length_map. repeat split.
  - rewrite length_map_to_list. f_equal. rewrite <- !size_dom. now rewrite Hdom.
  - lia.
  - rewrite Z.eqb_eq, Hzero. intros ->. reflexivity.
  - rewrite Z.eqb_eq, Hzero. intros H. apply map_eq_nil in H. exact H.
  - rewrite Z.eqb_eq, Hzero. intros H. rewrite H in Hpart. simpl in Hpart. lia.
  - rewrite Z.eqb_eq, Hzero. intros H.
    set (bad := List.filter (fun item : string * validation => negb (valid (snd item)))
                  (map_to_list validation_results)) in *.
    destruct bad as [| x l]; [reflexivity | simpl in Hpart; lia].
Qed.

(** ** The tables of the file processor *)

Lemma select_map {A B} (g : A -> B) (mask : list bool) (xs : list A) :
  select mask (map g xs) = map g (select mask xs).
Proof.
  revert xs. induction mask as [| b mask IH]; intros [| x xs]; simpl; try reflexivity.
  destruct b; simpl; now rewrite IH.
Qed.

Lemma select_field_values (field : Timestamp -> Z) (mask : list bool)
  (ts : list (option Timestamp)) :
  select_series mask (field_values field ts) = field_values field (select mask ts).
Proof. unfold field_values. simpl. now rewrite select_map. Qed.

Lemma setitem_same (d : DataFrame) (c : string) (s : Series) :
  columns d !! c = Some s -> setitem d c s = d.
Proof.
  intros H. destruct d as [n cols]. unfold setitem. simpl in *. f_equal.
  now apply insert_id.
Qed.

Lemma columns_filter_rows (d : DataFrame) (mask : list bool) (c : string) :
  columns (filter_rows d mask) !! c = select_series mask <$> columns d !! c.
Proof. unfold filter_rows. simpl. apply lookup_fmap. Qed.

Lemma columns_setitem_eq (d : DataFrame) (c : string) (s : Series) :
  columns (setitem d c s) !! c = Some s.
Proof. unfold setitem. simpl. apply lookup_insert_eq. Qed.

Lemma columns_setitem_ne (d : DataFrame) (c c' : string) (s : Series) :
  c <> c' -> columns (setitem d c s) !! c' = columns d !! c'.
Proof. intros H. unfold setitem. simpl. now apply lookup_insert_ne. Qed.

Lemma dropna_one (d : DataFrame) (c : string) (s : Series) :
  columns d !! c = Some s ->
  dropna d [c] = Ok (filter_rows d (mask_and (map negb (isna s)) (replicate (nrows d) true))).
Proof.
  intros H. unfold dropna.
  change (mapM ?f [c]) with (y ← f c; k ← mapM f []; mret (y :: k)).
  cbv beta. rewrite (getitem_some d c s H). reflexivity.
Qed.

Lemma dropna_filters (d d' : DataFrame) (subset : list string) :
  dropna d subset = Ok d' -> exists mask, d' = filter_rows d mask.
Proof.
  unfold dropna. destruct (mapM _ subset) as [masks | e]; simpl; [| discriminate].
  intros [= <-]. eauto.
Qed.

Section Processed.
Context {C : Conversions}.

Lemma processed_some (body : SE DataFrame (option DataFrame)) (df d' : DataFrame) :
  fst (processed body df) = Some d' -> exists d1, body df = (Ok (Some d'), d1).
Proof.
  unfold processed, try_except.
  destruct (body df) as [[[r |] | e] d1]; simpl; intros H; try discriminate.
  injection H as <-. eauto.
Qed.

(** The shape of a processed trends table. *)
Lemma _process_trends_data_some (df d' : DataFrame) :
  fst (_process_trends_data df) = Some d' ->
  exists (parsed : list (option Timestamp)) (mask : list bool),
    d' = filter_rows
           (setitem (setitem (setitem df "Месяц" (TimeSeries parsed))
                             "Год" (field_values ts_year parsed))
                    "Месяц_номер" (field_values ts_month parsed))
           mask.
Proof.
  intros H. apply processed_some in H. destruct H as [d1 H].
  rewrite bind_get in H.
  destruct (negb (forallb (has_col df) ["Месяц"; "Продажи"; "Выручка, ₽"]%string)) eqn:Hreq;
    [discriminate |].
  apply negb_false_iff in Hreq. cbn [forallb] in Hreq.
  apply andb_prop in Hreq. destruct Hreq as [Hmonth _].
  destruct (getitem_has_col df _ Hmonth) as [month Hm].
  rewrite Hm, bind_lift in H.
  destruct (to_datetime month) as [parsed | e]; rewrite bind_lift in H; [| discriminate].
  rewrite bind_modify, bind_get in H.
  rewrite getitem_setitem_eq, bind_lift in H. cbn [dt_field] in H.
  rewrite bind_lift, bind_modify, bind_get in H.
  rewrite getitem_setitem_ne, getitem_setitem_eq, bind_lift in H by discriminate.
  cbn [dt_field] in H.
  rewrite bind_lift, bind_modify, bind_get in H.
  rewrite bind_lift in H.
  match type of H with
  | context [dropna ?d ?cols] =>
      destruct (dropna d cols) as [d2 | e] eqn:Hdrop; [| discriminate];
      apply dropna_filters in Hdrop; destruct Hdrop as [mask ->]
  end.
  rewrite run_ret in H. injection H as <- _. eauto.
Qed.

Lemma convert_columns_keeps (cols : list string) :
  forall d d',
    convert_columns cols d = Ok d' ->
    nrows d' = nrows d
    /\ (forall c, has_col d' c = has_col d c)
    /\ (forall c, ~ In c cols -> columns d' !! c = columns d !! c)
    /\ (forall c, numeric_if_present d c -> numeric_if_present d' c)
    /\ (forall c, In c cols -> numeric_if_present d' c).
Proof.
  induction cols as [| col cols IH]; intros d d' H.
  - injection H as <-. repeat split; auto. intros c [].
  - cbn [convert_columns] in H.
    destruct (has_col d col) eqn:Hcol.
    + destruct (getitem_has_col d col Hcol) as [s Hs]. rewrite Hs in H.
      rewrite result_bind_ok in H.
      destruct (to_numeric s) as [xs | e]; [| discriminate]. rewrite result_bind_ok in H.
      destruct (IH _ _ H) as (Hn & Hhas & Hother & Hnum & Hin).
      assert (Hnew : numeric_if_present (setitem d col (NumSeries xs)) col)
        by (right; exists xs; apply columns_setitem_eq).
      repeat split.
      * exact Hn.
      * intros c. rewrite Hhas. unfold has_col.
        destruct (decide (col = c)) as [<- | Hne].
        -- rewrite columns_setitem_eq. unfold has_col in Hcol.
           destruct (columns d !! col); [reflexivity | discriminate].
        -- now rewrite columns_setitem_ne.
      * intros c Hc. rewrite Hother by (intros Hc'; apply Hc; right; exact Hc').
        apply columns_setitem_ne. intros <-. apply Hc. left. reflexivity.
      * intros c Hc. apply Hnum.
        destruct (decide (col = c)) as [<- | Hne]; [exact Hnew |].
        unfold numeric_if_present in *. now rewrite columns_setitem_ne.
      * intros c [<- | Hc]; [apply Hnum, Hnew | apply Hin, Hc].
    + destruct (IH _ _ H) as (Hn & Hhas & Hother & Hnum & Hin).
      repeat split; auto.
      * intros c Hc. apply Hother. intros Hc'. apply Hc. right. exact Hc'.
      * intros c [<- | Hc]; [| apply Hin, Hc].
        apply Hnum. left. unfold has_col in Hcol.
        destruct (columns d !! col); [discriminate | reflexivity].
Qed.

Lemma fill_columns_keeps (cols : list string) :
  forall d d',
    fill_columns cols d = Ok d' ->
    forall c, numeric_if_present d c -> numeric_if_present d' c.
Proof.
  induction cols as [| col cols IH]; intros d d' H c Hc.
  - injection H as <-. exact Hc.
  - cbn [fill_columns] in H.
    destruct (has_col d col) eqn:Hcol; [| eapply IH; eauto].
    destruct (getitem_has_col d col Hcol) as [s Hs]. rewrite Hs, result_bind_ok in H.
    apply (IH _ _ H).
    destruct (decide (col = c)) as [<- | Hne].
    + right. destruct Hc as [Hnone | [xs Hxs]].
      * unfold has_col in Hcol. rewrite Hnone in Hcol. discriminate.
      * unfold getitem in Hs. rewrite Hxs in Hs. injection Hs as <-.
        eexists. apply columns_setitem_eq.
    + unfold numeric_if_present in *. now rewrite columns_setitem_ne.
Qed.

Lemma numeric_if_present_filter_rows (d : DataFrame) (mask : list bool) (c : string) :
  numeric_if_present d c -> numeric_if_present (filter_rows d mask) c.
Proof.
  unfold numeric_if_present. rewrite columns_filter_rows.
  intros [-> | [xs ->]]; [left; reflexivity | right; simpl; eauto].
Qed.

(** The shape of a processed days table. *)
Lemma _process_days_data_some (df d' : DataFrame) :
  fst (_process_days_data df) = Some d' ->
  exists (parsed : list (option Timestamp)) (mask : list bool),
    convert_columns
      ["Товары"; "Товары с продажами"; "Продажи, шт."; "Выручка, ₽"; "Остаток"]%string
      (filter_rows
         (setitem (setitem (setitem (setitem df "Дата" (TimeSeries parsed))
                                    "Год" (field_values ts_year parsed))
                           "Месяц" (field_values ts_month parsed))
                  "День_недели" (field_values ts_dayofweek parsed))
         mask)
    = Ok d'.
Proof.
  intros H. apply processed_some in H. destruct H as [d1 H].
  rewrite bind_get in H.
  destruct (negb (has_col df "Дата")) eqn:Hreq; [discriminate |].
  apply negb_false_iff in Hreq.
  destruct (getitem_has_col df _ Hreq) as [date Hd].
  rewrite Hd, bind_lift in H.
  destruct (to_datetime date) as [parsed | e]; rewrite bind_lift in H; [| discriminate].
  rewrite bind_modify, bind_get in H.
  rewrite getitem_setitem_eq, bind_lift in H. cbn [dt_field] in H.
  rewrite bind_lift, bind_modify, bind_get in H.
  rewrite getitem_setitem_ne, getitem_setitem_eq, bind_lift in H by discriminate.
  cbn [dt_field] in H.
  rewrite bind_lift, bind_modify, bind_get in H.
  rewrite !getitem_setitem_ne, getitem_setitem_eq, bind_lift in H by discriminate.
  cbn [dt_field] in H.
  rewrite bind_lift, bind_modify, bind_get in H.
  unfold lift in H.
  match type of H with
  | context [dropna ?d ?cols] =>
      destruct (dropna d cols) as [d2 | e] eqn:Hdrop; [| discriminate];
      apply dropna_filters in Hdrop; destruct Hdrop as [mask ->]
  end.
  rewrite result_bind_ok in H.
  match type of H with
  | context [convert_columns ?cols ?d] =>
      destruct (convert_columns cols d) as [d3 | e] eqn:Hconv; [| discriminate]
  end.
  rewrite result_bind_ok in H. injection H as <- _. eauto.
Qed.

Lemma trend_frame_of_processed (df d' : DataFrame) :
  fst (_process_trends_data df) = Some d' -> trend_frame d' = d'.
Proof.
  intros H. destruct (_process_trends_data_some df d' H) as (parsed & mask & ->).
  unfold trend_frame. rewrite columns_filter_rows.
  rewrite !columns_setitem_ne by discriminate. rewrite columns_setitem_eq.
  cbn [fmap option_fmap option_map select_series].
  rewrite (setitem_same _ "Год").
  - apply setitem_same. rewrite columns_filter_rows, columns_setitem_eq.
    cbn [fmap option_fmap option_map]. now rewrite select_field_values.
  - rewrite columns_filter_rows, columns_setitem_ne, columns_setitem_eq by discriminate.
    cbn [fmap option_fmap option_map]. now rewrite select_field_values.
Qed.

Lemma stock_frame_of_processed (df d' : DataFrame) :
  fst (_process_days_data df) = Some d' -> stock_frame d' = d'.
Proof.
  intros H. destruct (_process_days_data_some df d' H) as (parsed & mask & Hconv).
  destruct (convert_columns_keeps _ _ _ Hconv) as (_ & _ & Hother & _ & _).
  unfold stock_frame. destruct (has_col d' "Остаток" && has_col d' "Дата"); [| reflexivity].
  assert (Hdate : columns d' !! "Дата"%string = Some (TimeSeries (select mask parsed))).
  { rewrite Hother by (simpl; intuition discriminate).
    rewrite columns_filter_rows. rewrite !columns_setitem_ne by discriminate.
    now rewrite columns_setitem_eq. }
  assert (Hyear : columns d' !! "Год"%string
                  = Some (field_values ts_year (select mask parsed))).
  { rewrite Hother by (simpl; intuition discriminate).
    rewrite columns_filter_rows. rewrite !columns_setitem_ne by discriminate.
    rewrite columns_setitem_eq. cbn [fmap option_fmap option_map].
    now rewrite select_field_values. }
  assert (Hmonth : columns d' !! "Месяц"%string
                   = Some (field_values ts_month (select mask parsed))).
  { rewrite Hother by (simpl; intuition discriminate).
    rewrite columns_filter_rows. rewrite !columns_setitem_ne by discriminate.
    rewrite columns_setitem_eq. cbn [fmap option_fmap option_map].
    now rewrite select_field_values. }
  rewrite Hdate. rewrite (setitem_same _ "Год" _ Hyear). now apply setitem_same.
Qed.

End Processed.

Section ProcessedPipeline.
Context {C : Conversions} {R : Reductions}.

(** X18. When the trends and days tables of a mapping are tables that the
    file processor returned, [calculate_total_score] leaves the whole
    mapping as it is: the year and month columns it assigns are there
    already, with the same values (a numeric column is its list of values
    here; an integer column and a float column of the same values are not
    told apart). *)
Theorem scoring_keeps_processed_tables (loaded_data : gmap string DataFrame) :
  (forall d, loaded_data !! "trends"%string = Some d ->
             exists df, fst (_process_trends_data df) = Some d) ->
  (forall d, loaded_data !! "days"%string = Some d ->
             exists df, fst (_process_days_data df) = Some d) ->
  snd (calculate_total_score loaded_data) = loaded_data.
Proof.
  intros Ht Hd. rewrite calculate_total_score_scoring_of. cbn [snd].
  apply map_eq. intros k. rewrite scored_tables_lookup.
  destruct (loaded_data !! k) as [d |] eqn:Hk; [| reflexivity]. simpl. f_equal.
  destruct (String.eqb_spec k "days") as [-> | _].
  - destruct (Hd d Hk) as [df Hdf]. exact (stock_frame_of_processed df d Hdf).
  - destruct (String.eqb_spec k "trends") as [-> | _]; [| reflexivity].
    destruct (Ht d Hk) as [df Hdf]. exact (trend_frame_of_processed df d Hdf).
Qed.

End ProcessedPipeline.

Lemma has_col_setitem (d : DataFrame) (c c' : string) (s : Series) :
  has_col d c' = true -> has_col (setitem d c s) c' = true.
Proof.
  intros H. unfold has_col. destruct (decide (c = c')) as [<- | Hne].
  - now rewrite columns_setitem_eq.
  - rewrite columns_setitem_ne by exact Hne. exact H.
Qed.

Section ProcessedQueries.
Context {C : Conversions}.

(** The shape of a processed queries table: the three required columns are
    there and the ratio column is numeric. *)
Lemma _process_queries_data_some (df d' : DataFrame) :
  fst (_process_queries_data df) = Some d' ->
  has_col d' "Ключевое слово" = true
  /\ has_col d' "Частота WB" = true
  /\ has_col d' "Товаров в запросе" = true
  /\ exists ratio, columns d' !! query_ratio_col = Some (NumSeries ratio).
Proof.
  intros H. apply processed_some in H. destruct H as [d1 H].
  rewrite bind_get in H. cbv zeta in H.
  destruct (negb (forallb (has_col df)
              ["Ключевое слово"; "Частота WB"; "Товаров в запросе"]%string)) eqn:Hreq;
    [discriminate |].
  apply negb_false_iff in Hreq. cbn [forallb] in Hreq.
  apply andb_prop in Hreq. destruct Hreq as [Hk Hreq].
  apply andb_prop in Hreq. destruct Hreq as [Hf Hreq].
  apply andb_prop in Hreq. destruct Hreq as [Hp _].
  unfold lift in H.
  match type of H with
  | context [dropna ?d ?cols] =>
      destruct (dropna d cols) as [d2 | e] eqn:Hdrop; [| discriminate];
      apply dropna_filters in Hdrop; destruct Hdrop as [mask ->]
  end.
  rewrite result_bind_ok in H.
  rewrite <- (has_col_filter_rows df mask) in Hk, Hf, Hp.
  set (d2 := filter_rows df mask) in *.
  destruct (getitem_has_col d2 _ Hf) as [frequency Hfr]. rewrite Hfr, result_bind_ok in H.
  destruct (to_numeric frequency) as [fs | e]; [| rewrite ?result_bind_raise in H; discriminate].
  rewrite result_bind_ok in H.
  rewrite getitem_setitem_ne in H by discriminate.
  destruct (getitem_has_col d2 _ Hp) as [in_query Hiq]. rewrite Hiq, result_bind_ok in H.
  destruct (to_numeric in_query) as [ps | e]; [| rewrite ?result_bind_raise in H; discriminate].
  rewrite result_bind_ok in H.
  rewrite (getitem_setitem_ne _ "Товаров в запросе" "Частота WB") in H by discriminate.
  rewrite !getitem_setitem_eq, !result_bind_ok in H.
  cbn [replace_zero_with_one series_truediv] in H. rewrite result_bind_ok in H.
  injection H as <- _.
  repeat split.
  - repeat apply has_col_setitem. exact Hk.
  - repeat apply has_col_setitem. exact Hf.
  - repeat apply has_col_setitem. exact Hp.
  - eexists. apply columns_setitem_eq.
Qed.

(** The position column of a processed products table is numeric. *)
Lemma _process_products_data_some (df d' : DataFrame) :
  fst (_process_products_data df) = Some d' ->
  numeric_if_present d' "Category position avg".
Proof.
  intros H. apply processed_some in H. destruct H as [d1 H].
  rewrite bind_get in H.
  destruct (negb (forallb (has_col df) ["SKU"; "Name"; "Final price"]%string)); [discriminate |].
  unfold lift in H.
  destruct (dropna df ["SKU"]%string) as [d2 | e]; [| discriminate].
  rewrite result_bind_ok in H.
  match type of H with
  | context [convert_columns ?cols ?d] =>
      destruct (convert_columns cols d) as [d3 | e] eqn:Hconv; [| discriminate]
  end.
  rewrite result_bind_ok in H.
  match type of H with
  | context [fill_columns ?cols ?d] =>
      destruct (fill_columns cols d) as [d4 | e] eqn:Hfill; [| discriminate]
  end.
  rewrite result_bind_ok in H. injection H as <- _.
  apply (fill_columns_keeps _ _ _ Hfill).
  destruct (convert_columns_keeps _ _ _ Hconv) as (_ & _ & _ & _ & Hin).
  apply Hin. simpl. tauto.
Qed.

End ProcessedQueries.

Section ProcessedQueriesPipeline.
Context {C : Conversions} {R : Reductions}.

(** X19. The queries and products validators return on every table that
    the file processor returned for that report: the ratio and position
    columns are numeric there, so the comparisons outside the [try] block
    cannot raise. *)
Theorem validators_return_on_processed_tables (df d : DataFrame) :
  (fst (_process_queries_data df) = Some d -> exists v, _validate_queries_data d = (Ok v, d))
  /\ (fst (_process_products_data df) = Some d ->
      exists v, _validate_products_data d = (Ok v, d)).
Proof.
  split; intros H.
  - destruct (_process_queries_data_some df d H) as (_ & _ & _ & ratio & Hratio).
    destruct (_validate_queries_data_returns d) as (v & Hv & _); [| eauto].
    intros s Hs. rewrite Hratio in Hs. injection Hs as <-. simpl. eauto.
  - pose proof (_process_products_data_some df d H) as Hnum.
    destruct (_validate_products_data_returns d) as (v & Hv & _); [| eauto].
    intros s Hs. destruct Hnum as [Hnone | [xs Hxs]]; [congruence |].
    rewrite Hxs in Hs. injection Hs as <-. simpl. eauto.
Qed.

(** X20. A queries table that the file processor returned has a numeric
    ratio column, and the query module scores it as the bucket of the
    percentage of rows with a ratio of at least 2, or 0 with the
    UnboundLocalError when no row is left. *)
Theorem query_score_of_a_processed_table (df d : DataFrame) :
  fst (_process_queries_data df) = Some d ->
  exists ratio,
    columns d !! query_ratio_col = Some (NumSeries ratio)
    /\ score_and_error (fst (_calculate_query_score d))
       = if 0 <? len d
         then Some (query_efficiency_score
                      (Float.mul
                         (Float.div
                            (Float.of_Z
                               (count_true (map (fun v => Float.geb v (Float.of_Z 2)) ratio)))
                            (Float.of_Z (len d)))
                         (Float.of_Z 100)),
                    None)
         else Some (0, Some (VExc (UnboundLocalError "efficiency_ratio"))).
Proof.
  intros H. destruct (_process_queries_data_some df d H) as (Hk & Hf & Hp & ratio & Hratio).
  exists ratio. split; [exact Hratio |].
  exact (proj2 (_calculate_query_score_value d ratio Hratio Hk Hf Hp)).
Qed.

End ProcessedQueriesPipeline.

(** ** Validation after scoring *)

Section Sim.
Variable names : list string.

Lemma sim_ret {A} (a : A) : sim names (mret a) (mret a).
Proof. intros s1 s2 H. simpl. auto. Qed.

Lemma sim_bind {A B} (m1 m2 : V A) (f1 f2 : A -> V B) :
  sim names m1 m2 -> (forall a, sim names (f1 a) (f2 a)) ->
  sim names (m1 ≫= f1) (m2 ≫= f2).
Proof.
  intros Hm Hf s1 s2 H. rewrite !bind_run. specialize (Hm s1 s2 H).
  destruct (m1 s1) as [[a1 | e1] s1'], (m2 s2) as [[a2 | e2] s2']; simpl in Hm;
    destruct Hm as [Hr Hs]; try discriminate.
  - injection Hr as <-. apply Hf, Hs.
  - injection Hr as <-. simpl. auto.
Qed.

Lemma sim_vdf {B} (f1 f2 : DataFrame -> V B) :
  (forall d1 d2, same_view names d1 d2 -> sim names (f1 d1) (f2 d2)) ->
  sim names (vdf ≫= f1) (vdf ≫= f2).
Proof. intros Hf s1 s2 H. rewrite !bind_vdf. apply Hf; [apply H | exact H]. Qed.

Lemma sim_lift {A} (r : result A) : sim names (lift r) (lift r).
Proof. intros s1 s2 H. simpl. auto. Qed.

Lemma sim_when (b : bool) (m1 m2 : V unit) :
  sim names m1 m2 -> sim names (when b m1) (when b m2).
Proof. destruct b; simpl; [auto | intros _; apply sim_ret]. Qed.

Lemma sim_if {A} (b : bool) (m1 m2 n1 n2 : V A) :
  sim names m1 m2 -> sim names n1 n2 ->
  sim names (if b then m1 else n1) (if b then m2 else n2).
Proof. destruct b; auto. Qed.

Lemma sim_try {A} (b1 b2 : V A) (h1 h2 : pyexc -> V A) :
  sim names b1 b2 -> (forall e, sim names (h1 e) (h2 e)) ->
  sim names (try_except b1 h1) (try_except b2 h2).
Proof.
  intros Hb Hh s1 s2 H. unfold try_except. specialize (Hb s1 s2 H).
  destruct (b1 s1) as [[a1 | e1] s1'], (b2 s2) as [[a2 | e2] s2']; simpl in Hb;
    destruct Hb as [Hr Hs]; try discriminate.
  - simpl. auto.
  - injection Hr as <-. apply Hh, Hs.
Qed.

Lemma sim_warnings_append (m : message) : sim names (warnings_append m) (warnings_append m).
Proof.
  intros s1 s2 (Hv & Hw & He). simpl. split; [reflexivity |].
  repeat split; simpl; try apply Hv; congruence.
Qed.

Lemma sim_errors_append (m : message) : sim names (errors_append m) (errors_append m).
Proof.
  intros s1 s2 (Hv & Hw & He). simpl. split; [reflexivity |].
  repeat split; simpl; try apply Hv; congruence.
Qed.

Lemma view_has_col (d1 d2 : DataFrame) (c : string) :
  same_view names d1 d2 -> In c names -> has_col d1 c = has_col d2 c.
Proof. intros [_ H] Hc. unfold has_col. now rewrite (H c Hc). Qed.

Lemma view_getitem (d1 d2 : DataFrame) (c : string) :
  same_view names d1 d2 -> In c names -> getitem d1 c = getitem d2 c.
Proof. intros [_ H] Hc. unfold getitem. now rewrite (H c Hc). Qed.

Lemma view_len (d1 d2 : DataFrame) : same_view names d1 d2 -> len d1 = len d2.
Proof. intros [H _]. unfold len. now rewrite H. Qed.

Lemma view_missing_columns (d1 d2 : DataFrame) (required : list string) :
  same_view names d1 d2 -> (forall c, In c required -> In c names) ->
  missing_columns d1 required = missing_columns d2 required.
Proof.
  intros Hv Hin. unfold missing_columns.
  induction required as [| c cs IH]; [reflexivity |]. simpl.
  rewrite (view_has_col d1 d2 c Hv) by (apply Hin; left; reflexivity).
  rewrite IH by (intros c' Hc'; apply Hin; right; exact Hc'). reflexivity.
Qed.

Lemma view_date_range (d1 d2 : DataFrame) (c : string) :
  same_view names d1 d2 -> In c names -> _get_date_range d1 c = _get_date_range d2 c.
Proof. intros [_ H] Hc. unfold _get_date_range. now rewrite (H c Hc). Qed.

End Sim.

(** One step of a simulation between two copies of a validator body. *)
Ltac sim_view Hv :=
  cbn [forallb existsb];
  repeat first
    [ rewrite (view_missing_columns _ _ _ _ Hv) by (simpl; tauto)
    | rewrite (view_has_col _ _ _ _ Hv) by (simpl; tauto)
    | rewrite (view_getitem _ _ _ _ Hv) by (simpl; tauto)
    | rewrite (view_date_range _ _ _ _ Hv) by (simpl; tauto)
    | rewrite (view_len _ _ _ Hv) ].

Ltac sim_step :=
  lazymatch goal with
  | |- sim _ (mret _) (mret _) => apply sim_ret
  | |- sim _ (lift _) (lift _) => apply sim_lift
  | |- sim _ (warnings_append _) (warnings_append _) => apply sim_warnings_append
  | |- sim _ (errors_append _) (errors_append _) => apply sim_errors_append
  | |- sim _ (vdf ≫= _) (vdf ≫= _) =>
      apply sim_vdf;
      let d1 := fresh "d1" in let d2 := fresh "d2" in let Hv := fresh "Hv" in
      intros d1 d2 Hv; sim_view Hv
  | |- sim _ (_ ≫= _) (_ ≫= _) => apply sim_bind; [| intros ?]
  | |- sim _ (try_except _ _) (try_except _ _) => apply sim_try; [| intros ?]
  | |- sim _ (when _ _) (when _ _) => apply sim_when
  | |- sim _ (if _ then _ else _) (if _ then _ else _) => apply sim_if
  | |- sim _ _ _ => progress cbv zeta
  end.

Lemma sim_trends_body :
  sim trends_fields
    (check_required trends_fields;;
     check_trend_dates;;
     for_each check_numeric_column ["Продажи"; "Выручка, ₽"; "Товары"; "Бренды"]%string;;
     check_trend_consistency)
    (check_required trends_fields;;
     check_trend_dates;;
     for_each check_numeric_column ["Продажи"; "Выручка, ₽"; "Товары"; "Бренды"]%string;;
     check_trend_consistency).
Proof.
  unfold check_required, check_trend_dates, check_trend_consistency.
  cbn [for_each]. unfold check_numeric_column, trends_fields.
  repeat sim_step.
Qed.

Lemma sim_vcall {A} (names : list string) (m : V A) (d1 d2 : DataFrame) :
  sim names m m -> same_view names d1 d2 -> fst (vcall m d1) = fst (vcall m d2).
Proof.
  intros Hm Hv. unfold vcall.
  specialize (Hm {| vframe := d1; warnings := []; errors := [] |}
                 {| vframe := d2; warnings := []; errors := [] |}).
  destruct Hm as [Hr _]; [repeat split; apply Hv |].
  destruct (m _) as [r1 s1], (m _) as [r2 s2]. exact Hr.
Qed.

Lemma sim_get {B} (names : list string) (f1 f2 : vscope -> V B) :
  (forall s1 s2, related names s1 s2 -> sim names (f1 s1) (f2 s2)) ->
  sim names (get ≫= f1) (get ≫= f2).
Proof. intros Hf s1 s2 H. rewrite !bind_get. now apply Hf. Qed.

Lemma same_view_refl (names : list string) (d : DataFrame) : same_view names d d.
Proof. split; auto. Qed.

Lemma same_view_setitem (names : list string) (d1 d2 : DataFrame) (c : string) (s : Series) :
  ~ In c names -> same_view names d1 d2 -> same_view names (setitem d1 c s) d2.
Proof.
  intros Hc [Hn Hcols]. split; [exact Hn |]. intros c' Hc'.
  rewrite columns_setitem_ne by (intros ->; contradiction). now apply Hcols.
Qed.

Lemma same_view_trend_frame (d : DataFrame) : same_view trends_fields (trend_frame d) d.
Proof.
  unfold trend_frame.
  destruct (columns d !! "Месяц"%string) as [[| | ts] |]; try apply same_view_refl.
  repeat apply same_view_setitem; try apply same_view_refl;
    unfold trends_fields; simpl; intros H; repeat destruct H as [H | H]; try discriminate H;
    exact H.
Qed.

Lemma same_view_stock_frame (d : DataFrame) :
  same_view ["Дата"; "Остаток"]%string (stock_frame d) d.
Proof.
  unfold stock_frame.
  destruct (has_col d "Остаток" && has_col d "Дата"); [| apply same_view_refl].
  destruct (columns d !! "Дата"%string) as [[| | ts] |]; try apply same_view_refl.
  repeat apply same_view_setitem; try apply same_view_refl;
    simpl; intros H; repeat destruct H as [H | H]; try discriminate H; exact H.
Qed.

Lemma sim_validate_trends :
  sim trends_fields
    (try_except
       (check_required trends_fields;;
        check_trend_dates;;
        for_each check_numeric_column ["Продажи"; "Выручка, ₽"; "Товары"; "Бренды"]%string;;
        check_trend_consistency)
       (fun e => errors_append (ValidationFailed Trends e));;
     s ← get;
     d ← vdf;
     mret {| valid := is_empty (errors s);
             v_warnings := warnings s;
             v_errors := errors s;
             extra := [("records_count"%string, VInt (len d));
                       ("date_range"%string,
                        if has_col d "Месяц" then _get_date_range d "Месяц" else VNone)] |})
    (try_except
       (check_required trends_fields;;
        check_trend_dates;;
        for_each check_numeric_column ["Продажи"; "Выручка, ₽"; "Товары"; "Бренды"]%string;;
        check_trend_consistency)
       (fun e => errors_append (ValidationFailed Trends e));;
     s ← get;
     d ← vdf;
     mret {| valid := is_empty (errors s);
             v_warnings := warnings s;
             v_errors := errors s;
             extra := [("records_count"%string, VInt (len d));
                       ("date_range"%string,
                        if has_col d "Месяц" then _get_date_range d "Месяц" else VNone)] |}).
Proof.
  apply sim_bind.
  - apply sim_try; [apply sim_trends_body | intros e; apply sim_errors_append].
  - intros _. apply sim_get. intros s1 s2 (_ & Hw & He). rewrite Hw, He.
    unfold trends_fields. repeat sim_step.
Qed.

Lemma sim_validate_days :
  sim ["Дата"; "Остаток"]%string
    (try_except
       (check_required ["Дата"; "Остаток"]%string;;
        d ← vdf;
        when (has_col d "Дата")
          (date ← lift (getitem d "Дата");
           let invalid_dates := count_true (isna date) in
           when (0 <? invalid_dates) (warnings_append (InvalidDates invalid_dates));;
           when (negb (forallb id (isna date)))
             (let df_sorted := sort_rows (map (fun c => (c, tt)) (cells date)) in
              date_gaps ← lift (count_gaps (map fst df_sorted));
              when (0 <? date_gaps) (warnings_append (DateGaps date_gaps))));;
        when (has_col d "Остаток")
          (stock ← lift (getitem d "Остаток");
           negative ← lift (cmp_scalar Float.ltb stock (Float.of_Z 0));
           let negative_stock := count_true negative in
           when (0 <? negative_stock) (warnings_append (NegativeStock negative_stock));;
           let zero_stock_days := count_true (eq_scalar stock (Float.of_Z 0)) in
           let total_days := len d in
           when (Float.gtb (Float.of_Z zero_stock_days)
                           (Float.mul (Float.of_Z total_days) three_tenths))
             (warnings_append (ManyZeroStockDays zero_stock_days total_days))))
       (fun e => errors_append (ValidationFailed Days e));;
     s ← get;
     d ← vdf;
     mret {| valid := is_empty (errors s);
             v_warnings := warnings s;
             v_errors := errors s;
             extra := [("records_count"%string, VInt (len d));
                       ("date_range"%string,
                        if has_col d "Дата" then _get_date_range d "Дата" else VNone)] |})
    (try_except
       (check_required ["Дата"; "Остаток"]%string;;
        d ← vdf;
        when (has_col d "Дата")
          (date ← lift (getitem d "Дата");
           let invalid_dates := count_true (isna date) in
           when (0 <? invalid_dates) (warnings_append (InvalidDates invalid_dates));;
           when (negb (forallb id (isna date)))
             (let df_sorted := sort_rows (map (fun c => (c, tt)) (cells date)) in
              date_gaps ← lift (count_gaps (map fst df_sorted));
              when (0 <? date_gaps) (warnings_append (DateGaps date_gaps))));;
        when (has_col d "Остаток")
          (stock ← lift (getitem d "Остаток");
           negative ← lift (cmp_scalar Float.ltb stock (Float.of_Z 0));
           let negative_stock := count_true negative in
           when (0 <? negative_stock) (warnings_append (NegativeStock negative_stock));;
           let zero_stock_days := count_true (eq_scalar stock (Float.of_Z 0)) in
           let total_days := len d in
           when (Float.gtb (Float.of_Z zero_stock_days)
                           (Float.mul (Float.of_Z total_days) three_tenths))
             (warnings_append (ManyZeroStockDays zero_stock_days total_days))))
       (fun e => errors_append (ValidationFailed Days e));;
     s ← get;
     d ← vdf;
     mret {| valid := is_empty (errors s);
             v_warnings := warnings s;
             v_errors := errors s;
             extra := [("records_count"%string, VInt (len d));
                       ("date_range"%string,
                        if has_col d "Дата" then _get_date_range d "Дата" else VNone)] |}).
Proof.
  apply sim_bind.
  - apply sim_try; [| intros e; apply sim_errors_append].
    unfold check_required. repeat sim_step.
  - intros _. apply sim_get. intros s1 s2 (_ & Hw & He). rewrite Hw, He.
    repeat sim_step.
Qed.

Lemma _validate_trends_data_view (d1 d2 : DataFrame) :
  same_view trends_fields d1 d2 ->
  fst (_validate_trends_data d1) = fst (_validate_trends_data d2).
Proof. intros Hv. unfold _validate_trends_data. exact (sim_vcall _ _ d1 d2 sim_validate_trends Hv). Qed.

Lemma _validate_days_data_view (d1 d2 : DataFrame) :
  same_view ["Дата"; "Остаток"]%string d1 d2 ->
  fst (_validate_days_data d1) = fst (_validate_days_data d2).
Proof. intros Hv. unfold _validate_days_data. exact (sim_vcall _ _ d1 d2 sim_validate_days Hv). Qed.

(** X21. Each table of the mapping after [calculate_total_score] is the
    table stored before under the same key, possibly with the columns the
    trend and stock modules added, and [_validate_by_type] returns for it
    what it returns for the table before: the same verdict, warnings,
    errors and summary, or the same exception. *)
Theorem validation_is_the_same_after_scoring {R : Reductions}
  (loaded_data : gmap string DataFrame) (data_type : string) :
  match snd (calculate_total_score loaded_data) !! data_type with
  | Some scored =>
      exists d, loaded_data !! data_type = Some d
                /\ fst (_validate_by_type scored data_type)
                   = fst (_validate_by_type d data_type)
  | None => loaded_data !! data_type = None
  end.
Proof.
  rewrite calculate_total_score_scoring_of. cbn [snd].
  rewrite scored_tables_lookup.
  destruct (loaded_data !! data_type) as [d |]; [| reflexivity].
  cbn [fmap option_fmap option_map]. exists d. split; [reflexivity |].
  destruct (String.eqb_spec data_type "days") as [-> | Hd].
  - apply _validate_days_data_view, same_view_stock_frame.
  - destruct (String.eqb_spec data_type "trends") as [-> | Ht]; [| reflexivity].
    apply _validate_trends_data_view, same_view_trend_frame.
Qed.

(** ** The structure check and the file type *)

Lemma missing_columns_nil (d : DataFrame) (required : list string) :
  missing_columns d required = [] <-> forallb (has_col d) required = true.
Proof.
  unfold missing_columns. induction required as [| c cs IH]; simpl; [tauto |].
  destruct (has_col d c); simpl; [exact IH |]. split; discriminate.
Qed.

Lemma ltb_leb (x y : float) : Float.ltb x y = true -> Float.leb x y = true.
Proof.
  unfold Float.ltb, Float.leb, SFltb, SFleb. destruct (SFcompare x y) as [[| |] |];
    intros H; try discriminate; reflexivity.
Qed.

Lemma not_ltb_leb (x y : float) :
  Float.is_nan x = false -> Float.is_nan y = false ->
  Float.ltb y x = false -> Float.leb x y = true.
Proof.
  unfold Float.ltb, Float.leb, SFltb, SFleb, SFcompare.
  destruct x as [s1 | s1 | | s1 m1 e1], y as [s2 | s2 | | s2 m2 e2];
    repeat match goal with s : bool |- _ => destruct s end;
    simpl; intros Hx Hy H; try discriminate; try reflexivity;
    compare_cases; subst; try discriminate; try reflexivity; try lia.
Qed.

Lemma _get_ratio_score_mono (r1 r2 : float) :
  Float.leb r1 r2 = true -> _get_ratio_score r1 <= _get_ratio_score r2.
Proof. intros Hle. unfold _get_ratio_score. bucket_mono Hle. Qed.

Lemma _get_ratio_score_py_min (ratio_top10 ratio_top100 : float) :
  Float.is_nan ratio_top100 = false ->
  _get_ratio_score (py_min ratio_top10 ratio_top100)
  = Z.min (_get_ratio_score ratio_top10) (_get_ratio_score ratio_top100).
Proof.
  intros Hnan. unfold py_min.
  destruct (Float.ltb ratio_top100 ratio_top10) eqn:Hlt.
  - pose proof (_get_ratio_score_mono _ _ (ltb_leb _ _ Hlt)). lia.
  - destruct (Float.is_nan ratio_top10) eqn:Hnan10.
    + destruct ratio_top10; try discriminate.
      change (_get_ratio_score S754_nan) with 0.
      pose proof (_get_ratio_score_range ratio_top100). lia.
    + pose proof (_get_ratio_score_mono _ _ (not_ltb_leb _ _ Hnan10 Hnan Hlt)). lia.
Qed.

Lemma _get_ratio_interpretation_of_score (ratio : float) :
  _get_ratio_interpretation ratio
  = match _get_ratio_score ratio with
    | 4 => "Очень выгодная ниша"
    | 3 => "Хорошая ниша"
    | 2 => "Средняя конкуренция"
    | 1 => "Высокая конкуренция"
    | _ => "Перегретая ниша"
    end%string.
Proof.
  unfold _get_ratio_interpretation, _get_ratio_score.
  change ADS_excellent with (Float.of_Z 4). change ADS_good with (Float.of_Z 3).
  change ADS_average with (Float.of_Z 2). change ADS_poor with (Float.of_Z 1).
  repeat match goal with
         | |- context [Float.geb ?r ?t] => destruct (Float.geb r t)
         end; reflexivity.
Qed.

(** X22. [_get_ratio_score] and [_get_ratio_interpretation] test the same
    four thresholds: for every ratio, NaN and the infinities included, the
    text that [_get_ratio_interpretation] returns is the one of the bucket
    that [_get_ratio_score] returns.  For two ratios, the text of Python's
    [min(ratio_top10, ratio_top100)] is the one of the smaller of the two
    scores whenever [ratio_top100] is a number, also when [ratio_top10] is
    NaN.  When [ratio_top100] is NaN, [min] keeps [ratio_top10]: the smaller
    score is 0 and the text is the one of [ratio_top10], whatever its
    bucket. *)
Theorem ratio_interpretation_names_the_ratio_score
  (ratio ratio_top10 ratio_top100 : float) :
  let text_of (score : Z) :=
    match score with
    | 4 => "Очень выгодная ниша"
    | 3 => "Хорошая ниша"
    | 2 => "Средняя конкуренция"
    | 1 => "Высокая конкуренция"
    | _ => "Перегретая ниша"
    end%string in
  let smaller_score := Z.min (_get_ratio_score ratio_top10) (_get_ratio_score ratio_top100) in
  let interpretation := _get_ratio_interpretation (py_min ratio_top10 ratio_top100) in
  _get_ratio_interpretation ratio = text_of (_get_ratio_score ratio)
  /\ (Float.is_nan ratio_top100 = false -> interpretation = text_of smaller_score)
  /\ (Float.is_nan ratio_top100 = true ->
      smaller_score = 0 /\ interpretation = _get_ratio_interpretation ratio_top10).
Proof.
  cbv zeta. split; [apply _get_ratio_interpretation_of_score |]. split; intros Hnan.
  - rewrite _get_ratio_interpretation_of_score, _get_ratio_score_py_min by exact Hnan.
    reflexivity.
  - destruct ratio_top100; try discriminate.
    change (_get_ratio_score S754_nan) with 0.
    pose proof (_get_ratio_score_range ratio_top10). split; [lia |].
    unfold py_min. now destruct ratio_top10 as [[] | [] | | [] ? ?].
Qed.

(** X23. A table that passes [validate_file_structure] under the key of a
    report has every column its validator requires, except for the trends
    report: there the check asks for five of the eleven columns the
    validator requires, and the validator may still miss the other six. *)
Theorem structure_check_and_required_columns
  (data_type : string) (kind : report_kind) (d : DataFrame) :
  report_kind_of data_type = Some kind ->
  fst (validate_file_structure data_type d) = true ->
  missing_columns d (required_columns kind)
  = match kind with
    | Trends =>
        missing_columns d
          ["Товары с продажами"; "Бренды с продажами"; "Продавцы"; "Продавцы с продажами";
           "Выручка на товар, ₽"; "Средний чек, ₽"]%string
    | _ => []
    end.
Proof.
  intros Hkind. unfold report_kind_of in Hkind. unfold validate_file_structure.
  repeat match type of Hkind with
         | (if String.eqb ?a ?b then _ else _) = _ =>
             destruct (String.eqb_spec a b) as [-> | ?]
         end; try discriminate; injection Hkind as <-;
    cbn [requirements_get get_upload_requirements String.eqb Ascii.eqb Bool.eqb andb];
    cbv zeta;
    match goal with
    | |- context [is_empty ?m] => destruct m eqn:Hm; cbn [is_empty negb fst]; try discriminate
    end; intros _;
    apply missing_columns_nil in Hm; cbn [forallb] in Hm;
    repeat match type of Hm with
           | _ && _ = true => let H1 := fresh "Hc" in
                              apply andb_prop in Hm; destruct Hm as [H1 Hm]
           end;
    unfold required_columns, trends_fields, revenue_col, missing_columns; cbn [List.filter];
    repeat match goal with H : has_col d _ = true |- _ => rewrite H; clear H end;
    reflexivity.
Qed.

Section DetectProps.
Variable lower : string -> string.

(** X24. A lowercased file name with one of the eleven keywords of the
    trends, queries, price and days reports is given one of these four
    types, whatever its extension; without a keyword, a name with ".csv" in
    it is a products report and any other name is not recognised. *)
Theorem file_type_by_keyword_then_csv (filename : string) :
  let filename_lower := lower filename in
  let keyword :=
    existsb (fun pattern => contains pattern filename_lower)
      ["тренд"; "trend"; "запрос"; "queries"; "запросы"; "ценов"; "price"; "сегментац";
       "дням"; "days"; "день"]%string in
  (keyword = true ->
   exists file_type,
     detect_file_type lower filename = Some file_type
     /\ In file_type ["trends"; "queries"; "price"; "days"]%string)
  /\ (keyword = false ->
      detect_file_type lower filename
      = if contains ".csv" filename_lower then Some "products"%string else None).
Proof.
  cbv zeta. unfold detect_file_type, FILE_PATTERNS. cbn [first_file_type existsb].
  generalize (lower filename). intros name.
  repeat match goal with
         | |- context [contains ?p name] =>
             lazymatch p with
             | ".csv"%string => fail
             | _ => destruct (contains p name); cbn [orb]
             end
         end;
    (split;
     [intros H; first [discriminate H | (eexists; split; [reflexivity | simpl; tauto])]
     | intros H; try discriminate H]).
  destruct (contains ".csv" name); reflexivity.
Qed.

End DetectProps.

(** ** The properties on the sample reports *)

Lemma ads_score_reads_an_unbound_name_witness :
  score_and_error (fst (@_calculate_ads_score sequential_reductions sample_products))
  = Some (0, Some (VExc (NameError "avg_cmp_top10"))).
Proof.
  apply (@ads_score_reads_an_unbound_name sequential_reductions sample_products
           (map Float.of_Z [5; 50]) (map Float.of_Z [100; 300]) (map Float.of_Z [500; 100])
           (Float.of_Z 5));
    [reflexivity | reflexivity | reflexivity | left; reflexivity | reflexivity].
Defined.

Lemma query_score_witness :
  score_and_error (fst (_calculate_query_score sample_queries))
  = Some (4, None).
Proof.
  destruct (query_score_is_the_bucket_of_the_effective_share
              sample_queries (map Float.of_Z [10; 1])
              eq_refl eq_refl eq_refl eq_refl) as [_ H].
  rewrite H. reflexivity.
Defined.


Lemma sample_price_has_no_month (ts : list (option Timestamp)) :
  columns sample_price !! "Месяц"%string <> Some (TimeSeries ts).
Proof. vm_compute. discriminate. Defined.

Lemma trend_score_without_month_witness :
  score_and_error (fst (@_calculate_trend_score sequential_reductions sample_price))
  = Some (0, Some (VExc (KeyError "Месяц"))).
Proof.
  destruct (@trend_score_needs_a_datetime_month sequential_reductions sample_price
              sample_price_has_no_month) as [_ H].
  rewrite H. reflexivity.
Defined.

Lemma yoy_score_witness :
  @_calculate_yoy_score sequential_reductions sample_trends "Продажи"
  = (1, VDict [("error"%string, VExc (KeyError "Год"))]).
Proof.
  destruct (@yoy_score_and_its_error_entry sequential_reductions sample_trends "Продажи")
    as (_ & _ & H & _).
  apply H. reflexivity.
Defined.

Lemma sample_upload_with_notes (key : string) :
  In key ["trends"; "queries"; "price"; "days"; "products"]%string ->
  sample_upload !! key = (<["notes"%string := sample_price]> sample_upload) !! key.
Proof.
  intros Hin. symmetry. apply lookup_insert_ne. intros <-.
  simpl in Hin. repeat destruct Hin as [Hin | Hin]; try discriminate Hin. exact Hin.
Defined.

Lemma scoring_five_tables_witness :
  fst (@calculate_total_score sequential_reductions sample_upload)
  = fst (@calculate_total_score sequential_reductions
           (<["notes"%string := sample_price]> sample_upload)).
Proof.
  exact (@scoring_depends_on_its_five_tables_only sequential_reductions sample_upload
           (<["notes"%string := sample_price]> sample_upload) sample_upload_with_notes).
Defined.

Lemma verdict_witness :
  exists v, fst (_validate_by_type sample_trends "trends") = Ok v
            /\ (valid v = true <-> v_errors v = []).
Proof.
  destruct (fst (_validate_by_type sample_trends "trends")) as [v | e] eqn:Hv;
    [| vm_compute in Hv; discriminate].
  exists v. split; [reflexivity |].
  exact (verdict_is_valid_exactly_without_errors sample_trends "trends" v Hv).
Defined.

Lemma validators_return_witness :
  (numeric_if_present sample_price "От" /\ numeric_if_present sample_price "До")
  /\ exists v, _validate_by_type sample_price "price" = (Ok v, sample_price).
Proof.
  assert (Hnum : numeric_if_present sample_price "От"
                 /\ numeric_if_present sample_price "До")
    by (split; right; eexists; vm_compute; reflexivity).
  split; [exact Hnum |].
  destruct (validators_return_or_raise sample_price "price" (KeyError "")) as [H _].
  apply H; [discriminate | discriminate | intros _; exact Hnum].
Defined.

Lemma upload_is_dropped_witness :
  _process_uploaded_files {[ "queries"%string := sample_queries_text_ratio ]} empty_session
  = empty_session.
Proof.
  destruct (fst (_validate_by_type sample_queries_text_ratio "queries")) as [v | e] eqn:Hv;
    [vm_compute in Hv; discriminate |].
  exact (upload_is_dropped_when_a_validator_raises
           {[ "queries"%string := sample_queries_text_ratio ]} empty_session
           "queries" sample_queries_text_ratio e eq_refl Hv).
Defined.

Lemma findings_witness :
  exists v,
    fst (_validate_by_type sample_trends "trends") = Ok v
    /\ Forall (fun m => is_missing_columns m || reports_error Trends m = true) (v_errors v)
    /\ Forall (fun m => reports_warning Trends m = true) (v_warnings v).
Proof.
  destruct (fst (_validate_by_type sample_trends "trends")) as [v | e] eqn:Hv;
    [| vm_compute in Hv; discriminate].
  exists v. split; [reflexivity |].
  exact (findings_are_filed_by_kind sample_trends "trends" Trends v eq_refl Hv).
Defined.

Lemma missing_required_columns_witness :
  exists v rest,
    fst (_validate_by_type sample_price_without_revenue "price") = Ok v
    /\ valid v = false
    /\ v_errors v = MissingColumns [revenue_col] :: rest.
Proof.
  destruct (fst (_validate_by_type sample_price_without_revenue "price")) as [v | e] eqn:Hv;
    [| vm_compute in Hv; discriminate].
  destruct (missing_required_columns_come_first sample_price_without_revenue "price" Price v
              eq_refl Hv) as [H _].
  destruct H as (Hvalid & rest & Herrors); [vm_compute; discriminate |].
  exists v, rest. repeat split; assumption.
Defined.

Lemma validation_summary_witness :
  exists validation_results,
    fst (validate_all_data sample_upload) = Ok validation_results
    /\ total_files (get_validation_summary validation_results) = 1
    /\ (overall_valid (get_validation_summary validation_results) = true
        <-> files_with_errors (get_validation_summary validation_results) = []).
Proof.
  destruct (fst (validate_all_data sample_upload)) as [results | e] eqn:Hv;
    [| vm_compute in Hv; discriminate].
  destruct (validation_summary_is_consistent sample_upload results Hv) as (Ht & _ & Ho & _).
  exists results. repeat split; [exact Ht | apply Ho | apply Ho].
Defined.

Lemma sample_trends_is_processed (d : DataFrame) :
  ({[ "trends"%string := sample_trends_processed ]} : gmap string DataFrame) !! "trends"%string
  = Some d ->
  exists df, fst (@_process_trends_data typed_conversions df) = Some d.
Proof.
  intros H. rewrite lookup_singleton_eq in H. injection H as <-.
  exists sample_trends. vm_compute. reflexivity.
Defined.

Lemma sample_trends_only_has_no_days (d : DataFrame) :
  ({[ "trends"%string := sample_trends_processed ]} : gmap string DataFrame) !! "days"%string
  = Some d ->
  exists df, fst (@_process_days_data typed_conversions df) = Some d.
Proof. intros H. rewrite lookup_singleton_ne in H by discriminate. discriminate H. Defined.

Lemma scoring_keeps_processed_witness :
  snd (@calculate_total_score sequential_reductions
         {[ "trends"%string := sample_trends_processed ]})
  = {[ "trends"%string := sample_trends_processed ]}.
Proof.
  exact (@scoring_keeps_processed_tables typed_conversions sequential_reductions
           {[ "trends"%string := sample_trends_processed ]}
           sample_trends_is_processed sample_trends_only_has_no_days).
Defined.

Lemma sample_queries_is_processed :
  fst (@_process_queries_data typed_conversions sample_queries_upload)
  = Some sample_queries_processed.
Proof. vm_compute. reflexivity. Defined.

Lemma validators_on_processed_witness :
  exists v, _validate_queries_data sample_queries_processed = (Ok v, sample_queries_processed).
Proof.
  destruct (@validators_return_on_processed_tables typed_conversions
              sample_queries_upload sample_queries_processed) as [H _].
  exact (H sample_queries_is_processed).
Defined.

Lemma query_score_of_processed_witness :
  exists ratio,
    columns sample_queries_processed !! query_ratio_col = Some (NumSeries ratio)
    /\ score_and_error
         (fst (_calculate_query_score sample_queries_processed))
       = Some (4, None).
Proof.
  destruct (@query_score_of_a_processed_table typed_conversions
              sample_queries_upload sample_queries_processed sample_queries_is_processed)
    as (ratio & Hratio & Hscore).
  exists ratio. split; [exact Hratio |].
  rewrite Hscore.
  assert (Hr : ratio = map Float.of_Z [10; 1]).
  { assert (H : Some (NumSeries ratio) = Some (NumSeries (map Float.of_Z [10; 1])))
      by (rewrite <- Hratio; vm_compute; reflexivity).
    now injection H. }
  rewrite Hr. vm_compute. reflexivity.
Defined.

Lemma ratio_interpretation_witness :
  _get_ratio_interpretation (py_min (Float.of_Z 5) (Float.div (Float.of_Z 3) (Float.of_Z 2)))
  = "Высокая конкуренция"%string
  /\ Z.min (_get_ratio_score (Float.of_Z 5)) (_get_ratio_score Float.nan) = 0.
Proof.
  destruct (ratio_interpretation_names_the_ratio_score (Float.of_Z 5) (Float.of_Z 5)
              (Float.div (Float.of_Z 3) (Float.of_Z 2))) as (_ & H & _).
  destruct (ratio_interpretation_names_the_ratio_score (Float.of_Z 5) (Float.of_Z 5)
              Float.nan) as (_ & _ & H').
  split; [rewrite H by reflexivity; reflexivity | apply H'; reflexivity].
Defined.

Lemma structure_check_witness :
  missing_columns sample_trends (required_columns Trends) = [].
Proof.
  rewrite (structure_check_and_required_columns "trends" Trends sample_trends eq_refl eq_refl).
  reflexivity.
Defined.

Lemma file_type_witness :
  detect_file_type id "products.csv" = Some "products"%string
  /\ exists file_type, detect_file_type id "price_products.csv" = Some file_type
                       /\ In file_type ["trends"; "queries"; "price"; "days"]%string.
Proof.
  split.
  - destruct (file_type_by_keyword_then_csv id "products.csv") as [_ H].
    rewrite H by reflexivity. reflexivity.
  - destruct (file_type_by_keyword_then_csv id "price_products.csv") as [H _].
    apply H. reflexivity.
Defined.
